(** * OpenX: redirect validation, severity and scan orchestration

    A shallow embedding of [core/utils.py] and [core/scanner.py].

    Python [str] values are modelled as [string]s whose characters are the
    code points below 256, and as lists of code points where a function
    tells other code points apart ([encode_payload]); Python exceptions as
    the left summand of a sum;
    the HTTP peer as a function of the request history; the mutable scanner
    object as explicit state. *)

From Stdlib Require Import String Ascii List ZArith NArith Bool Arith Lia.
Import ListNotations.
Open Scope string_scope.
Open Scope bool_scope.

(* ===================================================================== *)
(** * Python values: exceptions and [str] methods                         *)
(* ===================================================================== *)

(** The exception classes the modelled code can raise. *)
Inductive exn : Type :=
| ValueError
| TypeError
| AttributeError.

(** A computation that returns a value or raises. *)
Definition res (A : Type) : Type := (exn + A)%type.

Definition raise {A : Type} (e : exn) : res A := inl e.
Definition pure {A : Type} (a : A) : res A := inr a.
Definition rbind {A B : Type} (m : res A) (k : A -> res B) : res B :=
  match m with
  | inl e => inl e
  | inr a => k a
  end.

Module PyStr.

Definition code (c : ascii) : N := N_of_ascii c.

Definition between (lo hi : N) (c : ascii) : bool :=
  ((lo <=? code c) && (code c <=? hi))%N.

(** [c.isspace()] on code points below 256:
    tab..carriage return, the four separators 0x1c..0x1f, space,
    NEL (0x85) and the no-break space (0xa0). *)
Definition isspace (c : ascii) : bool :=
  between 9 13 c || between 28 32 c || (code c =? 133)%N || (code c =? 160)%N.

Definition is_ascii_upper (c : ascii) : bool := between 65 90 c.
Definition is_ascii_lower (c : ascii) : bool := between 97 122 c.
Definition is_ascii_alpha (c : ascii) : bool := is_ascii_upper c || is_ascii_lower c.
Definition is_ascii_digit (c : ascii) : bool := between 48 57 c.

(** [c.lower()]: A..Z and the Latin-1 capitals 0xc0..0xde (the
    multiplication sign 0xd7 excepted) move up by 32. *)
Definition lower_char (c : ascii) : ascii :=
  if is_ascii_upper c || (between 192 222 c && negb (code c =? 215)%N)
  then ascii_of_N (code c + 32)
  else c.

Fixpoint lower (s : string) : string :=
  match s with
  | EmptyString => EmptyString
  | String c r => String (lower_char c) (lower r)
  end.

(** [p(c)] for every character of [s]. *)
Fixpoint all_chars (p : ascii -> bool) (s : string) : bool :=
  match s with
  | EmptyString => true
  | String c r => p c && all_chars p r
  end.

(** [c in s] for a one-character [c]. *)
Fixpoint has_char (c : ascii) (s : string) : bool :=
  match s with
  | EmptyString => false
  | String a r => Ascii.eqb a c || has_char c r
  end.

Definition startswith (p s : string) : bool := String.prefix p s.

(** [s.startswith((p1, p2, ...))]. *)
Definition startswith_any (ps : list string) (s : string) : bool :=
  existsb (fun p => startswith p s) ps.

(** [needle in s]. *)
Fixpoint contains (needle s : string) : bool :=
  match s with
  | EmptyString => startswith needle EmptyString
  | String _ r => startswith needle s || contains needle r
  end.

(** [s.lstrip(chars)], the set [chars] given as a predicate. *)
Fixpoint lstrip_by (p : ascii -> bool) (s : string) : string :=
  match s with
  | EmptyString => EmptyString
  | String c r => if p c then lstrip_by p r else s
  end.

(** [s.rstrip(chars)]. *)
Fixpoint rstrip_by (p : ascii -> bool) (s : string) : string :=
  match s with
  | EmptyString => EmptyString
  | String c r =>
      match rstrip_by p r with
      | EmptyString => if p c then EmptyString else String c EmptyString
      | r' => String c r'
      end
  end.

(** [s.strip()]. *)
Definition strip (s : string) : string := rstrip_by isspace (lstrip_by isspace s).

(** [s.replace(c, "")] for a one-character [c]. *)
Fixpoint remove_char (c : ascii) (s : string) : string :=
  match s with
  | EmptyString => EmptyString
  | String a r => if Ascii.eqb a c then remove_char c r else String a (remove_char c r)
  end.

(** [s.partition(c)]: text before the first [c], whether [c] was found,
    text after it. *)
Fixpoint partition (c : ascii) (s : string) : string * bool * string :=
  match s with
  | EmptyString => (EmptyString, false, EmptyString)
  | String a r =>
      if Ascii.eqb a c then (EmptyString, true, r)
      else let '(h, f, t) := partition c r in (String a h, f, t)
  end.

(** [s.rpartition(c)]: splits at the last [c]; when there is none the
    whole string is the third component. *)
Fixpoint rpartition (c : ascii) (s : string) : string * bool * string :=
  match s with
  | EmptyString => (EmptyString, false, EmptyString)
  | String a r =>
      let '(h, f, t) := rpartition c r in
      if f then (String a h, true, t)
      else if Ascii.eqb a c then (EmptyString, true, r)
      else (EmptyString, false, String a t)
  end.

(** [s.split(c)]. *)
Fixpoint split (c : ascii) (s : string) : list string :=
  match s with
  | EmptyString => [EmptyString]
  | String a r =>
      if Ascii.eqb a c then EmptyString :: split c r
      else match split c r with
           | [] => [String a EmptyString]
           | h :: t => String a h :: t
           end
  end.

(** The longest prefix free of characters satisfying [p], and the rest. *)
Fixpoint break_at (p : ascii -> bool) (s : string) : string * string :=
  match s with
  | EmptyString => (EmptyString, EmptyString)
  | String a r =>
      if p a then (EmptyString, s)
      else let '(h, t) := break_at p r in (String a h, t)
  end.

(** [int(s)] for a string of ASCII digits. *)
Definition int_of_digits (s : string) : Z :=
  let fix go (acc : Z) (s : string) : Z :=
    match s with
    | EmptyString => acc
    | String c r => go (10 * acc + Z.of_N (code c - 48))%Z r
    end in
  go 0%Z s.

Definition is_empty (s : string) : bool :=
  match s with EmptyString => true | _ => false end.

(** [s[n:]]. *)
Fixpoint skip (n : nat) (s : string) : string :=
  match n, s with
  | O, _ => s
  | S n, String _ r => skip n r
  | S _, EmptyString => EmptyString
  end.

(** No character of [p] is white space. *)
Definition solid (p : string) : bool := all_chars (fun c => negb (isspace c)) p.

(** The double quote, which a string literal cannot hold. *)
Definition dq : string := String (ascii_of_N 34) EmptyString.

End PyStr.

(* ===================================================================== *)
(** * The standard library functions the scanner calls                    *)
(* ===================================================================== *)

(** [ipaddress.ip_address], as far as [urllib.parse] uses it: whether a
    bracketed host is a well-formed address. *)
Module Ipaddress.
Import PyStr.

(** [IPv4Address._parse_octet] returns. *)
Definition parse_octet_ok (o : string) : bool :=
  negb (is_empty o)
  && all_chars is_ascii_digit o
  && (String.length o <=? 3)%nat
  && negb (negb (o =? "0") && startswith "0" o)
  && (int_of_digits o <=? 255)%Z.

(** [IPv4Address(s)] returns. *)
Definition ipv4_ok (s : string) : bool :=
  negb (has_char "/" s)
  && negb (is_empty s)
  && (let octets := split "." s in
      (List.length octets =? 4)%nat && forallb parse_octet_ok octets).

Definition is_hex_digit (c : ascii) : bool :=
  is_ascii_digit c || between 65 70 c || between 97 102 c.

(** [IPv6Address._parse_hextet] returns ([int("", 16)] raises). *)
Definition parse_hextet_ok (h : string) : bool :=
  all_chars is_hex_digit h && (String.length h <=? 4)%nat && negb (is_empty h).

(** [IPv6Address._ip_int_from_string] returns. *)
Definition ip6_int_from_string_ok (ip_str : string) : bool :=
  (if is_empty ip_str then false else
  let parts := split ":" ip_str in
  if List.length parts <? 3 then false else
  (* an IPv4-style suffix is replaced by its two hextets, which are
     well formed whatever their value *)
  let last_part := List.last parts "" in
  let suffix_ok := if has_char "." last_part then ipv4_ok last_part else true in
  let parts := if has_char "." last_part
               then List.app (List.removelast parts) ["0"; "0"] else parts in
  if negb suffix_ok then false else
  let n := List.length parts in
  if 9 <? n then false else
  let skips := filter (fun i => is_empty (nth i parts "")) (seq 1 (n - 2)) in
  match skips with
  | _ :: _ :: _ => false
  | [skip_index] =>
      let parts_hi := skip_index in
      let parts_lo := n - skip_index - 1 in
      let head_empty := is_empty (nth 0 parts "") in
      let last_empty := is_empty (List.last parts "") in
      let parts_hi := if head_empty then parts_hi - 1 else parts_hi in
      let parts_lo := if last_empty then parts_lo - 1 else parts_lo in
      if head_empty && negb (parts_hi =? 0) then false else
      if last_empty && negb (parts_lo =? 0) then false else
      if 8 - (parts_hi + parts_lo) <? 1 then false else
      forallb parse_hextet_ok (firstn parts_hi parts)
      && forallb parse_hextet_ok (skipn (n - parts_lo) parts)
  | [] =>
      (n =? 8)
      && negb (is_empty (nth 0 parts ""))
      && negb (is_empty (List.last parts ""))
      && forallb parse_hextet_ok parts
  end)%nat.

(** [IPv6Address(s)] returns. *)
Definition ipv6_ok (s : string) : bool :=
  negb (has_char "/" s)
  && (let '(addr, sep, scope_id) := partition "%" s in
      (negb sep || (negb (is_empty scope_id) && negb (has_char "%" scope_id)))
      && ip6_int_from_string_ok addr).

End Ipaddress.

(** [urllib.parse.urlparse] and [urlunparse] (CPython 3.11). *)
Module Urllib.
Import PyStr.

Record ParseResult : Type := mkParseResult {
  scheme : string;
  netloc : string;
  path : string;
  params : string;
  query : string;
  fragment : string
}.

Definition scheme_char (c : ascii) : bool :=
  is_ascii_alpha c || is_ascii_digit c || has_char c "+-.".

(** Membership in [_WHATWG_C0_CONTROL_OR_SPACE]. *)
Definition c0_control_or_space (c : ascii) : bool := (code c <=? 32)%N.

(** Removal of [_UNSAFE_URL_BYTES_TO_REMOVE]: tab, CR, LF. *)
Definition remove_unsafe (s : string) : string :=
  remove_char (ascii_of_N 10) (remove_char (ascii_of_N 13) (remove_char (ascii_of_N 9) s)).

Definition netloc_delim (c : ascii) : bool := has_char c "/?#".

Definition uses_params : list string :=
  [""; "ftp"; "hdl"; "prospero"; "http"; "imap"; "https"; "shttp"; "rtsp";
   "rtspu"; "sip"; "sips"; "mms"; "sftp"; "tel"].

Definition uses_netloc : list string :=
  [""; "ftp"; "http"; "gopher"; "nntp"; "telnet"; "imap"; "wais"; "file";
   "mms"; "https"; "shttp"; "snews"; "prospero"; "rtsp"; "rtspu"; "rsync";
   "svn"; "svn+ssh"; "sftp"; "nfs"; "git"; "git+ssh"; "ws"; "wss"].

Definition mem (s : string) (l : list string) : bool := existsb (String.eqb s) l.

(** [_check_bracketed_host]: an IPvFuture literal matching
    [\Av[a-fA-F0-9]+\..+\Z], or an IPv6 address. *)
Definition check_bracketed_host (hostname : string) : bool :=
  if startswith "v" hostname then
    let '(digits, rest) :=
      break_at (fun c => negb (Ipaddress.is_hex_digit c)) (skip 1 hostname) in
    negb (is_empty digits)
    && startswith "." rest
    && negb (is_empty (skip 1 rest))
    && negb (has_char (ascii_of_N 10) (skip 1 rest))
  else negb (Ipaddress.ipv4_ok hostname) && Ipaddress.ipv6_ok hostname.

(** [_hostinfo]: the host and port texts of a netloc. *)
Definition hostinfo (netloc : string) : string * option string :=
  let '(_, _, hostinfo) := rpartition "@" netloc in
  let '(_, have_open_br, bracketed) := partition "[" hostinfo in
  let '(hostname, port) :=
    if have_open_br then
      let '(hostname, _, port) := partition "]" bracketed in
      let '(_, _, port) := partition ":" port in
      (hostname, port)
    else
      let '(hostname, _, port) := partition ":" hostinfo in
      (hostname, port) in
  (hostname, if is_empty port then None else Some port).

(** [_check_bracketed_netloc] returns. *)
Definition check_bracketed_netloc (netloc : string) : bool :=
  let '(_, _, hostname_and_port) := rpartition "@" netloc in
  let '(before_bracket, have_open_br, bracketed) := partition "[" hostname_and_port in
  if have_open_br then
    if negb (is_empty before_bracket) then false else
    let '(hostname, _, port) := partition "]" bracketed in
    if negb (is_empty port) && negb (startswith ":" port) then false
    else check_bracketed_host hostname
  else
    let '(hostname, _, _) := partition ":" hostname_and_port in
    check_bracketed_host hostname.

(** The scheme of [urlsplit]: the text before the first colon when it is
    not empty, starts with an ASCII letter and holds scheme characters
    only; and the text left to parse. *)
Definition split_scheme (url : string) : string * string :=
  match partition ":" url with
  | (String c0 _ as before, true, after) =>
      if is_ascii_alpha c0 && all_chars scheme_char before
      then (lower before, after)
      else ("", url)
  | _ => ("", url)
  end.

(** The netloc of [urlsplit], with its bracket checks, and the text left. *)
Definition split_netloc (url : string) : res (string * string) :=
  if startswith "//" url then
    let '(netloc, rest) := break_at netloc_delim (skip 2 url) in
    if (has_char "[" netloc && negb (has_char "]" netloc))
       || (has_char "]" netloc && negb (has_char "[" netloc))
    then raise ValueError
    else if has_char "[" netloc && has_char "]" netloc
            && negb (check_bracketed_netloc netloc)
    then raise ValueError
    else pure (netloc, rest)
  else pure ("", url).

(** [urlsplit(url)]; the result carries an empty [params].
    [_checknetloc] returns on every netloc: NFKC normalisation of code
    points below 256 yields none of the characters it rejects. *)
Definition urlsplit (url : string) : res ParseResult :=
  let url := lstrip_by c0_control_or_space url in
  let url := remove_unsafe url in
  let '(scheme, url) := split_scheme url in
  rbind (split_netloc url) (fun netloc_url =>
    let '(netloc, url) := netloc_url in
    let '(url, fragment) :=
      if has_char "#" url
      then let '(u, _, f) := partition "#" url in (u, f) else (url, "") in
    let '(url, query) :=
      if has_char "?" url
      then let '(u, _, q) := partition "?" url in (u, q) else (url, "") in
    pure (mkParseResult scheme netloc url "" query fragment)).

(** [_splitparams(url)], called when [';' in url]. *)
Definition splitparams (url : string) : string * string :=
  if has_char "/" url then
    let '(head, _, tail) := rpartition "/" url in
    match partition ";" tail with
    | (before, true, after) => (head ++ "/" ++ before, after)
    | _ => (url, "")
    end
  else
    let '(before, _, after) := partition ";" url in (before, after).

Definition urlparse (url : string) : res ParseResult :=
  rbind (urlsplit url) (fun r =>
    if mem (scheme r) uses_params && has_char ";" (path r)
    then let '(u, p) := splitparams (path r) in
         pure (mkParseResult (scheme r) (netloc r) u p (query r) (fragment r))
    else pure r).

(** The [hostname] property. *)
Definition hostname (r : ParseResult) : option string :=
  let hostname := fst (hostinfo (netloc r)) in
  if is_empty hostname then None
  else let '(h, percent, zone) := partition "%" hostname in
       Some (lower h ++ (if percent then "%" else "") ++ zone).

(** The [port] property. *)
Definition port (r : ParseResult) : res (option Z) :=
  match snd (hostinfo (netloc r)) with
  | None => pure None
  | Some p =>
      if all_chars is_ascii_digit p then
        let n := int_of_digits p in
        if (n <=? 65535)%Z then pure (Some n) else raise ValueError
      else raise ValueError
  end.

(** [urlunparse((scheme, netloc, url, params, query, fragment))]. *)
Definition urlunparse (r : ParseResult) : string :=
  let url := if is_empty (params r) then path r else path r ++ ";" ++ params r in
  let url :=
    if negb (is_empty (netloc r))
       || (negb (is_empty (scheme r)) && mem (scheme r) uses_netloc
           && negb (startswith "//" url))
    then
      let url := if negb (is_empty url) && negb (startswith "/" url)
                 then "/" ++ url else url in
      "//" ++ netloc r ++ url
    else url in
  let url := if is_empty (scheme r) then url else scheme r ++ ":" ++ url in
  let url := if is_empty (query r) then url else url ++ "?" ++ query r in
  if is_empty (fragment r) then url else url ++ "#" ++ fragment r.

End Urllib.

(** [urllib.parse.urlencode(query, doseq=True)] for a mapping from names
    to lists of values: [quote_plus] keeps the unreserved characters,
    writes a space as [+] and every other byte of the UTF-8 encoding as
    [%XX]. *)
Module Urlencode.
Import PyStr.

Definition always_safe (c : ascii) : bool :=
  is_ascii_alpha c || is_ascii_digit c || has_char c "_.-~".

Definition hex_digit (n : N) : ascii :=
  if (n <? 10)%N then ascii_of_N (48 + n) else ascii_of_N (55 + n).

Definition percent_byte (b : N) : string :=
  String "%" (String (hex_digit (b / 16)) (String (hex_digit (b mod 16)) EmptyString)).

(** The UTF-8 bytes of a code point below 256. *)
Definition utf8 (c : ascii) : list N :=
  if (code c <? 128)%N then [code c]
  else [(192 + code c / 64)%N; (128 + code c mod 64)%N].

Fixpoint quote_plus (s : string) : string :=
  match s with
  | EmptyString => EmptyString
  | String c r =>
      (if always_safe c then String c EmptyString
       else if Ascii.eqb c " " then "+"
       else String.concat "" (map percent_byte (utf8 c)))
      ++ quote_plus r
  end.

Definition urlencode (query : list (string * list string)) : string :=
  String.concat "&"
    (flat_map (fun kv => map (fun elt => quote_plus (fst kv) ++ "=" ++ quote_plus elt)
                             (snd kv))
              query).

End Urlencode.

(** The remaining library functions are taken as given: joining a
    location onto a base ([urljoin], which parses both and so may raise),
    parsing a query string ([parse_qs], in order of first occurrence) and
    regular-expression search with [re.IGNORECASE] ([re_search] yields
    group 1 of the first match, [re_findall] the group of every match). *)
Record Library : Type := mkLibrary {
  urljoin : string -> string -> res string;
  parse_qs : string -> list (string * list string);
  re_search : string -> string -> option string;
  re_findall : string -> string -> list string
}.

(* ===================================================================== *)
(** * core/utils.py                                                       *)
(* ===================================================================== *)

Module Utils.
Import PyStr.

(** Truth value of an optional [str]: [None] and [''] are false. *)
Definition truthy (s : option string) : bool :=
  match s with
  | None => false
  | Some s => negb (is_empty s)
  end.

(** [a == b] on optional strings. *)
Definition eqb_opt (a b : option string) : bool :=
  match a, b with
  | None, None => true
  | Some x, Some y => String.eqb x y
  | _, _ => false
  end.

Definition common_redirect_params : list string :=
  ["url"; "redirect"; "return"; "callback"; "next"; "target"; "goto"; "link";
   "forward"; "continue"; "destination"; "redir"; "location"; "site";
   "returnUrl"; "returnURL"; "redirect_uri"; "redirectUrl"; "redirectURL";
   "returnTo"; "return_to"; "backUrl"; "back_url"; "successUrl"; "success_url"].

Definition extract_redirect_params (lib : Library) (url : string) : list string :=
  match Urllib.urlparse url with
  | inl _ => firstn 10 common_redirect_params
  | inr parsed =>
      let query_params := parse_qs lib (Urllib.query parsed) in
      let potential_params :=
        filter (fun param => existsb (String.eqb (lower param))
                                     (map lower common_redirect_params))
               (map fst query_params) in
      match potential_params with
      | [] => firstn 10 common_redirect_params
      | _ => potential_params
      end
  end.

(** The comparison [parsed_url.scheme == s and parsed_url.port == p]; the
    port is read only when the scheme matches. *)
Definition scheme_and_port_is (parsed_url : Urllib.ParseResult) (s : string) (p : Z)
  : res bool :=
  if Urllib.scheme parsed_url =? s then
    rbind (Urllib.port parsed_url) (fun port =>
      pure (match port with Some n => (n =? p)%Z | None => false end))
  else pure false.

(** The [try] block of [get_normalized_hostname_util]. *)
Definition normalized_hostname (url_str : string) : res (option string) :=
  rbind (Urllib.urlparse url_str) (fun parsed_url =>
    match Urllib.hostname parsed_url with
    | None => pure None
    | Some hostname =>
        let hostname := lower hostname in
        rbind (scheme_and_port_is parsed_url "http" 80) (fun is_http_80 =>
        rbind (if is_http_80 then pure true
               else scheme_and_port_is parsed_url "https" 443) (fun default_port =>
        if default_port then pure (Some hostname) else
        rbind (Urllib.port parsed_url) (fun port =>
          match port with
          | Some n => if (n =? 0)%Z then pure (Some hostname)
                      else pure (Some (lower (Urllib.netloc parsed_url)))
          | None => pure (Some hostname)
          end)))
    end).

(** [try: m except ValueError: handler]. *)
Definition except_ValueError {A : Type} (m handler : res A) : res A :=
  match m with
  | inl ValueError => handler
  | inl e => inl e
  | inr a => inr a
  end.

Definition get_normalized_hostname_util (url_str : option string) : res (option string) :=
  match url_str with
  | None => pure None
  | Some url_str =>
      if is_empty url_str then pure None
      else except_ValueError (normalized_hostname url_str) (pure None)
  end.

Definition script_schemes : list string := ["javascript:"; "data:"; "vbscript:"].

Definition validate_redirect (original_url_str final_redirect_location_str : string)
  (payload_value_str callback_url : option string) : bool :=
  let body : res bool :=
    let final_redirect_location_str := strip final_redirect_location_str in
    if is_empty final_redirect_location_str then pure false else
    if startswith_any script_schemes final_redirect_location_str then pure true else
    rbind (get_normalized_hostname_util (Some original_url_str)) (fun original_hostname =>
    rbind (get_normalized_hostname_util (Some final_redirect_location_str)) (fun redirect_hostname =>
    rbind (get_normalized_hostname_util payload_value_str) (fun payload_hostname =>
    if negb (truthy redirect_hostname) then pure false else
    if truthy callback_url then
      rbind (get_normalized_hostname_util callback_url) (fun callback_hostname =>
        if truthy callback_hostname
           && eqb_opt redirect_hostname callback_hostname
           && negb (eqb_opt original_hostname callback_hostname)
        then pure true
        else pure false)
    else
    if negb (truthy payload_hostname) then pure false else
    if eqb_opt redirect_hostname payload_hostname
       && negb (eqb_opt original_hostname payload_hostname)
    then pure true
    else pure false))) in
  match body with
  | inl _ => false
  | inr b => b
  end.

End Utils.

(* ===================================================================== *)
(** * core/scanner.py                                                     *)
(* ===================================================================== *)

(** Stateful code threads a state [S] explicitly. *)
Definition M (S A : Type) : Type := S -> A * S.

Definition ret {S A : Type} (a : A) : M S A := fun s => (a, s).

Definition bind {S A B : Type} (m : M S A) (k : A -> M S B) : M S B :=
  fun s => let '(a, s') := m s in k a s'.

Declare Scope monad_scope.
Delimit Scope monad_scope with monad.
Notation "x <- m ;; k" := (bind m (fun x => k))
  (at level 61, m at next level, right associativity) : monad_scope.

Module Scanner.
Import PyStr.
Open Scope monad_scope.

Definition Headers : Type := list (string * string).

(** A [requests.Response]: what the scanner reads of it. *)
Record Response : Type := mkResponse {
  status_code : Z;
  headers : Headers;
  text : string
}.

(** What the scanner passes to [requests]; the session's own headers, the
    user agent, the proxy and the timeout do not vary between calls. *)
Record Request : Type := mkRequest {
  req_method : string;
  req_url : string;
  req_headers : Headers;
  req_cookies : list (string * string);
  req_data : list (string * string);
  req_allow_redirects : bool
}.

(** The HTTP peer: given the requests sent so far (latest first) and a
    new one, a response, or [None] when [requests] raises one of its
    exceptions (timeout, connection error, invalid URL or scheme). *)
Definition Server : Type := list Request -> Request -> option Response.

(** The keys of the configuration mapping the engine reads;
    [follow_redirects] is [None] when the key is absent. *)
Record Config : Type := mkConfig {
  fast : bool;
  callback_url : option string;
  follow_redirects : option Z;
  headers_test : bool;
  show_response_headers : bool
}.

(** [PayloadManager] (core/payloads.py) is used through two getters. *)
Record PayloadManager : Type := mkPayloadManager {
  get_payloads : list string;
  get_header_payloads : list string
}.

(** The scanner object's counter, and the requests the peer has seen. *)
Record State : Type := mkState {
  total_requests : nat;
  history : list Request
}.

Inductive Severity : Type := High | Medium | Low.

(** The value under the key ['severity']. *)
Inductive SeverityLabel : Type :=
| Sev (s : Severity)
| ErrorDeterminingSeverity.

(** A result dictionary. Every read in the source goes through [.get], so
    a missing key and a key holding [None] are both [None] here. *)
Record Result : Type := mkResult {
  vulnerable : bool;
  url : string;
  original_url : string;
  parameter : option string;
  header_name : option string;
  cookie_name : option string;
  payload : string;
  method : option string;
  result_status_code : Z;
  first_location_header : option string;
  final_location : option string;
  redirect_location : option string;
  redirect_chain : option (list string);
  response_headers : option Headers;
  vulnerable_response_headers : option Headers;
  severity : option SeverityLabel
}.

Definition with_severity (r : Result) (s : SeverityLabel) : Result :=
  mkResult (vulnerable r) (url r) (original_url r) (parameter r) (header_name r)
    (cookie_name r) (payload r) (method r) (result_status_code r)
    (first_location_header r) (final_location r) (redirect_location r)
    (redirect_chain r) (response_headers r) (vulnerable_response_headers r) (Some s).

(** [headers.get(name)] on the case-insensitive mapping of [requests]. *)
Fixpoint headers_get (name : string) (h : Headers) : option string :=
  match h with
  | [] => None
  | (k, v) :: rest => if lower k =? lower name then Some v else headers_get name rest
  end.

(** [headers.get('Location', '')]. *)
Definition location_of (r : Response) : string :=
  match headers_get "Location" (headers r) with
  | Some v => v
  | None => ""
  end.

(** [dict(h) if h else None]. *)
Definition dict_or_none (h : Headers) : option Headers :=
  match h with
  | [] => None
  | _ => Some h
  end.

(** Truth value of what [make_request] returns: [None] is false, and a
    [requests.Response] is true exactly when its status is not 4xx/5xx. *)
Definition truthy_response (r : option Response) : bool :=
  match r with
  | None => false
  | Some r => negb ((400 <=? status_code r)%Z && (status_code r <? 600)%Z)
  end.

Definition is_redirect_status (code : Z) : bool :=
  existsb (Z.eqb code) [301; 302; 303; 307; 308]%Z.

(** [query_params[param] = value] on an insertion-ordered mapping. *)
Fixpoint dict_set (d : list (string * list string)) (k : string) (v : list string)
  : list (string * list string) :=
  match d with
  | [] => [(k, v)]
  | (k', v') :: rest => if k' =? k then (k, v) :: rest else (k', v') :: dict_set rest k v
  end.

(** The nested [get_normalized_hostname] of [_is_external_redirect]. *)
Definition get_normalized_hostname (url_str : string) : res (option string) :=
  rbind (Urllib.urlparse url_str) (fun parsed_url =>
    match Urllib.hostname parsed_url with
    | None => pure None
    | Some hostname =>
        let hostname := lower hostname in
        rbind (Utils.scheme_and_port_is parsed_url "http" 80) (fun is_http_80 =>
        rbind (if is_http_80 then pure true
               else Utils.scheme_and_port_is parsed_url "https" 443) (fun default_port =>
        if default_port then pure (Some hostname) else
        rbind (Urllib.port parsed_url) (fun port =>
          match port with
          | Some n => if (n =? 0)%Z then pure (Some hostname)
                      else pure (Some (lower (Urllib.netloc parsed_url)))
          | None => pure (Some hostname)
          end)))
    end).

Definition _is_external_redirect
  (original_url_str final_redirect_location_str payload_value_str : string) : bool :=
  let body : res bool :=
    rbind (get_normalized_hostname original_url_str) (fun original_hostname =>
    rbind (get_normalized_hostname final_redirect_location_str) (fun redirect_hostname =>
    rbind (get_normalized_hostname payload_value_str) (fun payload_hostname =>
    if negb (Utils.truthy redirect_hostname) then pure false else
    if Utils.truthy original_hostname
       && Utils.eqb_opt original_hostname redirect_hostname then pure false else
    if Utils.truthy payload_hostname
       && Utils.eqb_opt redirect_hostname payload_hostname then pure true else
    pure false))) in
  match body with
  | inl _ => false
  | inr b => b
  end.

(** [netloc.lower() if netloc else None]. *)
Definition netloc_or_none (r : Urllib.ParseResult) : option string :=
  if is_empty (Urllib.netloc r) then None else Some (lower (Urllib.netloc r)).

(** [final_redirect_location_str] comes from [result.get('final_location')]
    and is [None] when the key is missing: [None.startswith] raises. *)
Definition _determine_severity (original_url_str payload_value_str : string)
  (final_redirect_location_str : option string) : res Severity :=
  match final_redirect_location_str with
  | None => raise AttributeError
  | Some final_redirect_location_str =>
      if startswith_any Utils.script_schemes final_redirect_location_str then pure High else
      if _is_external_redirect original_url_str final_redirect_location_str payload_value_str
      then pure High else
      if startswith_any ["http://"; "https://"; "//"] final_redirect_location_str then
        let body : res Severity :=
          rbind (Urllib.urlparse original_url_str) (fun parsed_original_url =>
          rbind (Urllib.urlparse final_redirect_location_str) (fun parsed_redirect_url =>
          let original_netloc := netloc_or_none parsed_original_url in
          let redirect_netloc := netloc_or_none parsed_redirect_url in
          if Utils.truthy original_netloc && Utils.truthy redirect_netloc then
            if negb (Utils.eqb_opt original_netloc redirect_netloc)
            then pure Medium else pure Low
          else if Utils.truthy redirect_netloc then pure Medium
          else pure Low)) in
        match body with
        | inl _ => pure Low
        | inr s => pure s
        end
      else pure Low
  end.

(** The calls [self._determine_severity(payload, redirect_url)] of
    [test_url_parameter] bind two of the method's three positional
    parameters: Python raises [TypeError] before the body runs. *)
Definition _determine_severity_two_arguments (a b : string) : res Severity :=
  raise TypeError.

(** How a loop body leaves: on to the next iteration with the updated
    locals, or out of the enclosing function with its return value. *)
Inductive Flow (A B : Type) : Type :=
| Continue (a : A)
| Return (b : B).
Arguments Continue {A B} a.
Arguments Return {A B} b.

(** ** The engine, over a library, a configuration and a peer *)

Section Engine.

Variable lib : Library.
Variable config : Config.
Variable payload_manager : PayloadManager.
Variable server : Server.

(** [self.config.get('follow_redirects', 5)], which [__init__] also
    stores as [self.session.max_redirects]. *)
Definition max_redirects : Z :=
  match follow_redirects config with
  | Some n => n
  | None => 5%Z
  end.

(** [Response.is_redirect] with a target: the status is one of the five
    and the [Location] is not empty. For such a response [requests] looks
    up the next request, whether or not it is to follow it. *)
Definition redirects (r : Response) : bool :=
  is_redirect_status (status_code r) && negb (is_empty (location_of r)).

(** What [self.session.request] returns for the peer's answer, [None]
    standing for an exception of [requests]. [Session.resolve_redirects]
    raises [TooManyRedirects] when a response redirects and as many
    responses as [session.max_redirects] came before it: with a limit of
    zero or less that is the first response that redirects, whether or
    not [allow_redirects] asks to follow it. With a positive limit the
    answer of the peer stands; under [allow_redirects=True] it is the
    answer to the last request [requests] sent. *)
Definition session_request (answer : option Response) : option Response :=
  match answer with
  | Some r => if redirects r && (max_redirects <=? 0)%Z then None else Some r
  | None => None
  end.

(** [self.make_request(url, method, headers, cookies, allow_redirects)]:
    counts the request, sends it, and turns the exceptions of [requests]
    into [None]. *)
Definition make_request (url method : string) (headers : Headers)
  (cookies : list (string * string)) (allow_redirects : bool)
  : M State (option Response) :=
  fun st =>
    let req := mkRequest method url headers cookies [] allow_redirects in
    (session_request (server (history st) req),
     mkState (S (total_requests st)) (req :: history st)).

(** The local variables the redirect loop of [test_url_parameter] updates. *)
Record Chain : Type := mkChain {
  chain : list string;
  final : string;
  headers_of_redirecting_response : Headers
}.

(** The [while redirect_count < max_redirects] loop, by the number of
    iterations left; leaving through [remaining = 0] is the [else] branch.
    An exception ([urljoin]) leaves the variables as they stand. *)
Fixpoint follow_redirect_chain (remaining : nat)
  (base_for_relative_redirects current_location_to_follow : string) (c : Chain)
  : M State Chain :=
  match remaining with
  | O => ret c
  | S remaining =>
      match urljoin lib base_for_relative_redirects current_location_to_follow with
      | inl _ => ret c
      | inr absolute_url_to_follow =>
          follow_response <- make_request absolute_url_to_follow "GET" [] [] false ;;
          match follow_response with
          | Some r =>
              if negb (truthy_response follow_response) then ret c
              else if negb (is_redirect_status (status_code r)) then
                ret (mkChain (chain c) absolute_url_to_follow
                             (headers_of_redirecting_response c))
              else
                let next_location_header := location_of r in
                if is_empty next_location_header then
                  ret (mkChain (chain c) absolute_url_to_follow
                               (headers_of_redirecting_response c))
                else
                  follow_redirect_chain remaining absolute_url_to_follow
                    next_location_header
                    (mkChain (chain c ++ [next_location_header])%list
                             next_location_header (headers r))
          | None => ret c
          end
      end
  end.

(** Lines 130-182: the chain of a redirecting first response, [None] when
    the response does not redirect or carries no [Location]. *)
Definition resolve_redirects (test_url : string) (response : Response)
  : M State (option Chain) :=
  if is_redirect_status (status_code response) then
    let first_location_header := location_of response in
    if is_empty first_location_header then ret None
    else
      c <- follow_redirect_chain (Z.to_nat max_redirects) test_url first_location_header
             (mkChain [first_location_header] first_location_header (headers response)) ;;
      ret (Some c)
  else ret None.

Definition js_quote : string := "[" ++ dq ++ "\']".
Definition js_group : string := "([^" ++ dq ++ "\']+)".

Definition meta_pattern : string :=
  "content=" ++ js_quote ++ "?\d+;\s*url=([^" ++ dq ++ "\'>\s]+)".

Definition js_patterns : list string :=
  [ "window\.location\s*=\s*" ++ js_quote ++ js_group ++ js_quote;
    "window\.location\.href\s*=\s*" ++ js_quote ++ js_group ++ js_quote;
    "document\.location\s*=\s*" ++ js_quote ++ js_group ++ js_quote;
    "location\.replace\(" ++ js_quote ++ js_group ++ js_quote ++ "\)";
    "window\.location\s*=\s*" ++ dq ++ "([^" ++ dq ++ "]+)" ++ dq;
    "location\.href\s*=\s*" ++ js_quote ++ js_group ++ js_quote;
    "location\.assign\(" ++ js_quote ++ js_group ++ js_quote ++ "\)";
    "window\.open\(" ++ js_quote ++ js_group ++ js_quote;
    "document\.location\.href\s*=\s*" ++ js_quote ++ js_group ++ js_quote;
    "top\.location\s*=\s*" ++ js_quote ++ js_group ++ js_quote;
    "parent\.location\s*=\s*" ++ js_quote ++ js_group ++ js_quote ].

Definition non_vulnerable_parameter_result (test_url url param payload : string)
  (response : Response) : Result :=
  mkResult false test_url url (Some param) None None payload None
    (status_code response) None None None None None None None.

(** Lines 202-240. The [return] builds its dictionary inside the [try]:
    the [TypeError] of the severity call is caught there and control falls
    through to the script patterns. *)
Definition check_meta_refresh (parsed : Urllib.ParseResult)
  (test_url url param payload content : string) (response : Response)
  : M State (option Result) :=
  if contains ("http-equiv=" ++ dq ++ "refresh" ++ dq) content
     || contains ("meta http-equiv=" ++ dq ++ "refresh" ++ dq) content
  then
    match re_search lib meta_pattern content with
    | Some redirect_url =>
        let full_redirect_url :=
          if startswith "/" redirect_url
          then Urllib.scheme parsed ++ "://" ++ Urllib.netloc parsed ++ redirect_url
          else redirect_url in
        follow_response <- make_request full_redirect_url "GET" [] [] false ;;
        match follow_response with
        | Some r =>
            if truthy_response follow_response && (status_code r =? 200)%Z
               && Utils.validate_redirect payload redirect_url (callback_url config) None
            then
              match _determine_severity_two_arguments payload redirect_url with
              | inr s =>
                  ret (Some (mkResult true test_url url (Some param) None None payload
                               (Some "Meta Refresh") (status_code response) None None
                               (Some redirect_url) (Some [redirect_url]) None None
                               (Some (Sev s))))
              | inl _ => ret None
              end
            else ret None
        | None => ret None
        end
    | None => ret None
    end
  else ret None.

(** The [return] of the script branch is outside the inner [try]. *)
Definition javascript_result (test_url url param payload a_match : string)
  (response : Response) : res Result :=
  rbind (_determine_severity_two_arguments payload a_match) (fun s =>
    pure (mkResult true test_url url (Some param) None None payload
            (Some "JavaScript Redirect") (status_code response) None None
            (Some a_match) None None None (Some (Sev s)))).

(** [for match in matches]: [inr None] when the loop runs to its end. *)
Fixpoint javascript_matches (parsed : Urllib.ParseResult)
  (test_url url param payload : string) (response : Response) (matches : list string)
  : M State (res (option Result)) :=
  match matches with
  | [] => ret (pure None)
  | a_match :: rest =>
      if Utils.validate_redirect payload a_match (callback_url config) None then
        if startswith "/" a_match then
          follow_response <-
            make_request (Urllib.scheme parsed ++ "://" ++ Urllib.netloc parsed ++ a_match)
                         "GET" [] [] false ;;
          match follow_response with
          | Some r =>
              if negb (truthy_response follow_response) || (400 <=? status_code r)%Z
              then javascript_matches parsed test_url url param payload response rest
              else ret (rbind (javascript_result test_url url param payload a_match response)
                              (fun r => pure (Some r)))
          | None => javascript_matches parsed test_url url param payload response rest
          end
        else ret (rbind (javascript_result test_url url param payload a_match response)
                        (fun r => pure (Some r)))
      else javascript_matches parsed test_url url param payload response rest
  end.

(** [for pattern in js_patterns]. *)
Fixpoint javascript_patterns (parsed : Urllib.ParseResult)
  (test_url url param payload content : string) (response : Response)
  (patterns : list string) : M State (res (option Result)) :=
  match patterns with
  | [] => ret (pure None)
  | pattern :: rest =>
      r <- javascript_matches parsed test_url url param payload response
             (re_findall lib pattern content) ;;
      match r with
      | inr None =>
          javascript_patterns parsed test_url url param payload content response rest
      | _ => ret r
      end
  end.

(** Lines 108-118: the URL under test, with [param] set to [payload]. *)
Definition build_test_url (parsed : Urllib.ParseResult) (param payload : string) : string :=
  let query_params := dict_set (parse_qs lib (Urllib.query parsed)) param [payload] in
  let new_query := Urlencode.urlencode query_params in
  Urllib.urlunparse
    (Urllib.mkParseResult (Urllib.scheme parsed) (Urllib.netloc parsed)
       (Urllib.path parsed) (Urllib.params parsed) new_query
       (Urllib.fragment parsed)).

Definition test_url_parameter (url param payload : string) : M State (option Result) :=
  match Urllib.urlparse url with
  | inl _ => ret None
  | inr parsed =>
      let test_url := build_test_url parsed param payload in
      response <- make_request test_url "GET" [] [] false ;;
      match response with
      | None => ret None
      | Some r =>
          if negb (truthy_response response) then ret None else
          resolved <- resolve_redirects test_url r ;;
          match resolved with
          | Some c =>
              if negb (is_empty (final c)) && _is_external_redirect url (final c) payload
              then
                ret (Some (mkResult true test_url url (Some param) None None payload
                             (Some "URL Parameter") (status_code r)
                             (Some (location_of r)) (Some (final c))
                             None (Some (chain c))
                             (dict_or_none (headers_of_redirecting_response c))
                             (if show_response_headers config
                              then Some (headers_of_redirecting_response c) else None)
                             None))
              else ret (Some (non_vulnerable_parameter_result test_url url param payload r))
          | None =>
              if (status_code r =? 200)%Z then
                let content := lower (text r) in
                meta <- check_meta_refresh parsed test_url url param payload content r ;;
                match meta with
                | Some result => ret (Some result)
                | None =>
                    js <- javascript_patterns parsed test_url url param payload content r
                            js_patterns ;;
                    match js with
                    | inl _ => ret None
                    | inr (Some result) => ret (Some result)
                    | inr None =>
                        ret (Some (non_vulnerable_parameter_result test_url url param payload r))
                    end
                end
              else ret (Some (non_vulnerable_parameter_result test_url url param payload r))
          end
      end
  end.

Definition test_header_injection (url header_name payload : string)
  : M State (option Result) :=
  response <- make_request url "GET" [(header_name, payload)] [] false ;;
  match response with
  | None => ret None
  | Some r =>
      if negb (truthy_response response) then ret None else
      let location := location_of r in
      if is_redirect_status (status_code r)
         && negb (is_empty location)
         && Utils.validate_redirect url location (Some payload) (callback_url config)
      then
        ret (Some (mkResult true url url None (Some header_name) None payload
                     (Some "Header Injection") (status_code r) None (Some location)
                     None None (dict_or_none (headers r)) None None))
      else
        ret (Some (mkResult false url url None (Some header_name) None payload
                     None (status_code r) None (headers_get "Location" (headers r))
                     None None (dict_or_none (headers r)) None None))
  end.

(** The payloads the form and cookie testers carry themselves. *)
Definition test_payloads : list string :=
  if fast config then ["http://evil.com"; "//evil.com"]
  else ["http://evil.com"; "//evil.com"; "javascript:alert(1)"].

(** The single extra hop of the form and cookie testers: the chain and
    the final location after at most one followed redirect. *)
Definition follow_one_hop (url location_header : string)
  : M State (list string * string) :=
  match urljoin lib url location_header with
  | inl _ => ret ([location_header], location_header)
  | inr resolved_follow_url =>
      follow_response <- make_request resolved_follow_url "GET" [] [] false ;;
      match follow_response with
      | Some r =>
          let next_location_header := location_of r in
          if truthy_response follow_response
             && is_redirect_status (status_code r)
             && negb (is_empty next_location_header)
          then ret ([location_header; next_location_header], next_location_header)
          else ret ([location_header], location_header)
      | None => ret ([location_header], location_header)
      end
  end.

(** [self.headers]: [__init__] assigns [config], [session],
    [payload_manager], [analyzer], [total_requests], [results_lock] and
    [timeout], and the class defines no attribute [headers]; the lookup
    raises. *)
Definition self_headers : res Headers := raise AttributeError.

(** [self.session.post(url, data=..., allow_redirects=False, ...)]; the
    caller has counted the request. [None] stands for the exceptions of
    [requests], on which the loop continues. *)
Definition session_post (url : string) (data : list (string * string))
  (headers : Headers) : M State (option Response) :=
  fun st =>
    let req := mkRequest "POST" url headers [] data false in
    (session_request (server (history st) req),
     mkState (total_requests st) (req :: history st)).

Definition form_params : list string :=
  ["redirect_to"; "next"; "return"; "success_url"; "failure_url"].

(** One pass of the inner loop of [test_form_redirects]: the finding to
    append, if any. The argument [self.headers] is evaluated after the
    counter is incremented and before the POST; neither [except] clause
    of the surrounding [try] catches its exception. *)
Definition form_attempt (url param payload : string) : M State (res (option Result)) :=
  fun st =>
    let st := mkState (S (total_requests st)) (history st) in
    match self_headers with
    | inl e => (inl e, st)
    | inr hdrs =>
        (post_response <- session_post url [(param, payload)] hdrs ;;
         match post_response with
         | Some r =>
             let location_header := location_of r in
             if truthy_response post_response
                && is_redirect_status (status_code r)
                && negb (is_empty location_header)
             then
               hop <- follow_one_hop url location_header ;;
               let '(redirect_chain, final_location) := hop in
               if Utils.validate_redirect url final_location (Some payload)
                    (callback_url config)
               then
                 ret (pure (Some (mkResult true url url (Some param) None None payload
                                    (Some "Form POST Redirect") (status_code r) None
                                    (Some final_location) None (Some redirect_chain)
                                    (dict_or_none (headers r)) None None)))
               else ret (pure None)
             else ret (pure None)
         | None => ret (pure None)
         end) st
    end.

(** [for payload in test_payloads] of [test_form_redirects]. *)
Fixpoint form_payloads (url param : string) (payloads : list string)
  (results : list Result) : M State (res (Flow (list Result) (list Result))) :=
  match payloads with
  | [] => ret (pure (Continue results))
  | payload :: rest =>
      a <- form_attempt url param payload ;;
      match a with
      | inl e => ret (raise e)
      | inr (Some finding) =>
          let results := (results ++ [finding])%list in
          if fast config then ret (pure (Return results))
          else form_payloads url param rest results
      | inr None => form_payloads url param rest results
      end
  end.

(** [for param in form_params]. *)
Fixpoint form_parameters (url : string) (params payloads : list string)
  (results : list Result) : M State (res (list Result)) :=
  match params with
  | [] => ret (pure results)
  | param :: rest =>
      r <- form_payloads url param payloads results ;;
      match r with
      | inl e => ret (raise e)
      | inr (Return results) => ret (pure results)
      | inr (Continue results) => form_parameters url rest payloads results
      end
  end.

Definition test_form_redirects (url : string) : M State (res (list Result)) :=
  response <- make_request url "GET" [] [] true ;;
  match response with
  | Some r =>
      if negb (truthy_response response) || negb (status_code r =? 200)%Z
      then ret (pure [])
      else if negb (contains "<form" (lower (text r))) then ret (pure [])
      else form_parameters url form_params test_payloads []
  | None => ret (pure [])
  end.

Definition cookie_names : list string :=
  ["redirect_url"; "redirect_uri"; "return_url"; "return_to"; "next_url";
   "next"; "url_redirect"; "redirect"; "return"; "target"; "goto";
   "location_cookie"; "dest"; "destination"; "redir_url"; "callback_url";
   "redirect_after_login"].

(** One pass of the inner loop of [test_cookie_redirects]; every
    exception is caught inside the loop body. *)
Definition cookie_attempt (url cookie_name payload : string) : M State (option Result) :=
  response <- make_request url "GET" [] [(cookie_name, payload)] false ;;
  match response with
  | Some r =>
      let location_header := location_of r in
      if truthy_response response
         && is_redirect_status (status_code r)
         && negb (is_empty location_header)
      then
        hop <- follow_one_hop url location_header ;;
        let '(redirect_chain, final_location) := hop in
        if Utils.validate_redirect url final_location (Some payload) (callback_url config)
        then
          ret (Some (mkResult true url url None None (Some cookie_name) payload
                       (Some "Cookie Redirect") (status_code r) None
                       (Some final_location) None (Some redirect_chain)
                       (dict_or_none (headers r)) None None))
        else ret None
      else ret None
  | None => ret None
  end.

Fixpoint cookie_payloads (url cookie_name : string) (payloads : list string)
  (results : list Result) : M State (Flow (list Result) (list Result)) :=
  match payloads with
  | [] => ret (Continue results)
  | payload :: rest =>
      a <- cookie_attempt url cookie_name payload ;;
      match a with
      | Some finding =>
          let results := (results ++ [finding])%list in
          if fast config then ret (Return results)
          else cookie_payloads url cookie_name rest results
      | None => cookie_payloads url cookie_name rest results
      end
  end.

Fixpoint cookie_loop (url : string) (names payloads : list string)
  (results : list Result) : M State (list Result) :=
  match names with
  | [] => ret results
  | cookie_name :: rest =>
      r <- cookie_payloads url cookie_name payloads results ;;
      match r with
      | Return results => ret results
      | Continue results => cookie_loop url rest payloads results
      end
  end.

Definition test_cookie_redirects (url : string) : M State (list Result) :=
  cookie_loop url cookie_names test_payloads [].

(** The [try] around [_determine_severity] in [scan_single_url]. *)
Definition enrich (result : Result) : Result :=
  with_severity result
    (match _determine_severity (original_url result) (payload result)
             (final_location result) with
     | inr s => Sev s
     | inl _ => ErrorDeterminingSeverity
     end).

(** The locals of [scan_single_url] its loops update: [results] and
    [url_vulnerable_flag]. *)
Definition Locals : Type := (list Result * bool)%type.

(** [for payload_item in effective_payloads]: the parameter loop and the
    header loop of [scan_single_url] have the same body, up to the tester
    they call. *)
Fixpoint injection_payloads (test : string -> string -> M State (option Result))
  (name : string) (payloads : list string) (l : Locals)
  : M State (Flow Locals (list Result)) :=
  match payloads with
  | [] => ret (Continue l)
  | payload_item :: rest =>
      result <- test name payload_item ;;
      match result with
      | Some result =>
          if vulnerable result then
            let results := (fst l ++ [enrich result])%list in
            if fast config then ret (Return results)
            else injection_payloads test name rest (results, true)
          else injection_payloads test name rest ((fst l ++ [result])%list, snd l)
      | None => injection_payloads test name rest l
      end
  end.

(** [for param in redirect_params] and [for header_name in header_names],
    with their leading [break]. *)
Fixpoint injection_loop (test : string -> string -> M State (option Result))
  (names payloads : list string) (l : Locals) : M State (Flow Locals (list Result)) :=
  match names with
  | [] => ret (Continue l)
  | name :: rest =>
      if snd l && fast config then ret (Continue l)
      else
        r <- injection_payloads test name payloads l ;;
        match r with
        | Return results => ret (Return results)
        | Continue l => injection_loop test rest payloads l
        end
  end.

Definition fallback_redirect_params : list string :=
  ["url"; "redirect"; "return"; "callback"; "next"; "target"; "goto"; "link";
   "destination"; "forward"; "continue"; "redirect_url"; "redirect_uri";
   "returnUrl"; "returnURL"; "return_url"; "backUrl"; "back_url"; "successUrl";
   "success_url"; "failureUrl"; "failure_url"; "redirectTo"; "redirect_to";
   "site"; "domain"; "host"; "location"; "path"; "page"; "ref"; "referer";
   "source"; "from"; "origin"; "redir"; "exit"; "out"; "away"; "external"].

Definition header_names : list string :=
  ["Host"; "X-Forwarded-Host"; "X-Forwarded-For"; "X-Real-IP";
   "X-Forwarded-Proto"; "X-Forwarded-Server"; "X-Host"; "X-HTTP-Host-Override";
   "Referer"; "Origin"; "X-Original-URL"; "X-Rewrite-URL"; "CF-Connecting-IP"].

(** The severity pass over the findings of the form or cookie tester. *)
Definition process_results (batch : list Result) : list Result :=
  map (fun res_item => if vulnerable res_item then enrich res_item else res_item) batch.

Definition redirect_params_of (url : string) : list string :=
  match Utils.extract_redirect_params lib url with
  | [] => fallback_redirect_params
  | redirect_params => redirect_params
  end.

Definition effective_payloads (all : list string) : list string :=
  if fast config then firstn 3 all else all.

(** [scan_single_url] from the cookie tester on. *)
Definition scan_cookies (url : string) (results : list Result)
  : M State (res (list Result)) :=
  cookie_results_list <- test_cookie_redirects url ;;
  match cookie_results_list with
  | [] => ret (pure results)
  | _ => ret (pure (results ++ process_results cookie_results_list)%list)
  end.

(** [scan_single_url] from the form tester on. *)
Definition scan_forms (url : string) (results : list Result)
  : M State (res (list Result)) :=
  form_results_list <- test_form_redirects url ;;
  match form_results_list with
  | inl e => ret (raise e)
  | inr [] => scan_cookies url results
  | inr form_results_list =>
      let results := (results ++ process_results form_results_list)%list in
      if fast config && existsb vulnerable form_results_list
      then ret (pure results)
      else scan_cookies url results
  end.

(** [scan_single_url] from the header loop on. *)
Definition scan_headers (url : string) (l : Locals) : M State (res (list Result)) :=
  r <- (if headers_test config
        then injection_loop (test_header_injection url) header_names
               (effective_payloads (get_header_payloads payload_manager)) l
        else ret (Continue l)) ;;
  match r with
  | Return results => ret (pure results)
  | Continue l => scan_forms url (fst l)
  end.

Definition scan_single_url (url : string) : M State (res (list Result)) :=
  r <- injection_loop (test_url_parameter url) (redirect_params_of url)
         (effective_payloads (get_payloads payload_manager)) ([], false) ;;
  match r with
  | Return results => ret (pure results)
  | Continue l => scan_headers url l
  end.

(** ** The orchestration as the specification words it *)

(** One step of a scan: the results it contributes, or an exception. *)
Definition Attempt : Type := M State (res (list Result)).

(** A tester call as a step: its result, with a severity when vulnerable. *)
Definition of_tester (t : M State (option Result)) : Attempt :=
  r <- t ;;
  ret (pure (match r with
             | Some r => process_results [r]
             | None => []
             end)).

(** The form tester as one step. *)
Definition form_tester (url : string) : Attempt :=
  r <- test_form_redirects url ;;
  ret (rbind r (fun batch => pure (process_results batch))).

(** Every (name, payload) combination, names outermost. *)
Definition attempts_over (test : string -> string -> M State (option Result))
  (names payloads : list string) : list Attempt :=
  flat_map (fun name => map (fun payload_item => of_tester (test name payload_item)) payloads)
           names.

(** The fixed order of section 4.6: URL parameters, headers when enabled,
    forms, cookies. *)
Definition schedule (url : string) : list Attempt :=
  (attempts_over (test_url_parameter url) (redirect_params_of url)
     (effective_payloads (get_payloads payload_manager))
   ++ (if headers_test config
       then attempts_over (test_header_injection url) header_names
              (effective_payloads (get_header_payloads payload_manager))
       else [])
   ++ [form_tester url]
   ++ attempts_over (cookie_attempt url) cookie_names test_payloads)%list.

(** Fast mode in the specification's words: run the steps in order and
    return at the first one that yields a vulnerable finding, with the
    results collected so far. *)
Fixpoint run_until_vulnerable (attempts : list Attempt) (results : list Result)
  : M State (res (list Result)) :=
  match attempts with
  | [] => ret (pure results)
  | a :: rest =>
      r <- a ;;
      match r with
      | inl e => ret (raise e)
      | inr found =>
          if existsb vulnerable found then ret (pure (results ++ found)%list)
          else run_until_vulnerable rest (results ++ found)%list
      end
  end.

(** The other mode: run every step and accumulate what each returns. *)
Fixpoint run_all (attempts : list Attempt) (results : list Result)
  : M State (res (list Result)) :=
  match attempts with
  | [] => ret (pure results)
  | a :: rest =>
      r <- a ;;
      match r with
      | inl e => ret (raise e)
      | inr found => run_all rest (results ++ found)%list
      end
  end.

(** Both modes at once, keeping apart how the run ended. *)
Fixpoint run_attempts (stop : bool) (attempts : list Attempt) (results : list Result)
  : M State (res (Flow (list Result) (list Result))) :=
  match attempts with
  | [] => ret (pure (Continue results))
  | a :: rest =>
      r <- a ;;
      match r with
      | inl e => ret (raise e)
      | inr found =>
          if stop && existsb vulnerable found then ret (pure (Return (results ++ found)%list))
          else run_attempts stop rest (results ++ found)%list
      end
  end.

End Engine.

End Scanner.

(* ===================================================================== *)
(** * Concrete peers and inputs                                           *)
(* ===================================================================== *)

Module Examples.
Import Scanner.

(** The library on the inputs used below: absolute locations, which
    [urljoin] returns unchanged, URLs without a query string, and bodies
    in which no pattern matches. *)
Definition example_library : Library :=
  mkLibrary (fun _ location => inr location) (fun _ => []) (fun _ _ => None)
            (fun _ _ => []).

(** The same, on a body whose meta refresh tag names
    [http://cb.test/landing]: [re_search] captures that target. *)
Definition meta_library : Library :=
  mkLibrary (fun _ location => inr location) (fun _ => [])
            (fun _ content =>
               if PyStr.contains "url=http://cb.test/landing" content
               then Some "http://cb.test/landing" else None)
            (fun _ _ => []).

(** A page with a meta refresh to the callback host. *)
Definition meta_refresh_page : string :=
  "<meta http-equiv=" ++ PyStr.dq ++ "refresh" ++ PyStr.dq ++ " content="
  ++ PyStr.dq ++ "0;url=http://cb.test/landing" ++ PyStr.dq ++ ">".

(** A configuration with the callback host [cb.test]. *)
Definition callback_config : Config :=
  mkConfig false (Some "http://cb.test") None false false.

(** A payload source with one payload. *)
Definition one_payload : PayloadManager := mkPayloadManager ["http://evil.com"] [].

(** The request the cookie tester sends last when not in fast mode. *)
Definition last_cookie_request : Request :=
  mkRequest "GET" "http://site.test/login" []
    [("redirect_after_login", "javascript:alert(1)")] [] false.

Definition initial : State := mkState 0 [].

Definition redirect_to (location : string) : Response :=
  mkResponse 302 [("Location", location)] "".

Definition page (body : string) : Response :=
  mkResponse 200 [("Content-Type", "text/html")] body.

(** A peer that answers every request with the same redirect. *)
Definition always_redirects (location : string) : Server :=
  fun _ _ => Some (redirect_to location).

(** A peer that redirects the first request and answers no other. *)
Definition redirects_once (location : string) : Server :=
  fun sent _ =>
    match sent with
    | [] => Some (redirect_to location)
    | _ => None
    end.

(** A peer that serves the same page to every request. *)
Definition serves (body : string) : Server := fun _ _ => Some (page body).



(** A [Location] value that starts with a vertical tab, which
    [str.strip] removes and HTTP header parsing does not. *)
Definition padded_script_uri : string := String (ascii_of_N 11) "javascript:alert(1)".

(** Defaults: not fast, no callback, [follow_redirects] absent, header
    tests off. *)
Definition default_config : Config := mkConfig false None None false false.

(** The same in fast mode. *)
Definition fast_config : Config := mkConfig true None None false false.

End Examples.

(* ===================================================================== *)
(** * Restatements compared with the code                                 *)
(* ===================================================================== *)

Module Restated.
Import PyStr Scanner.

(** The third rule of the classifier on two parsed URLs: [Medium] when
    the final location has a netloc that, lower-cased, is not the
    original's. *)
Definition by_netloc (po pf : Urllib.ParseResult) : Severity :=
  if is_empty (Urllib.netloc pf) then Low
  else if String.eqb (lower (Urllib.netloc po)) (lower (Urllib.netloc pf)) then Low
  else Medium.

End Restated.

Module Orchestration.
Import Scanner.

(** What a loop of [scan_single_url] leaves, without the flag. *)
Definition forget (r : Flow Locals (list Result)) : res (Flow (list Result) (list Result)) :=
  match r with
  | Continue l => pure (Continue (fst l))
  | Return results => pure (Return results)
  end.

(** The value a scan returns, however the run of its steps ended. *)
Definition collapse (r : res (Flow (list Result) (list Result)) * State)
  : res (list Result) * State :=
  (match fst r with
   | inl e => inl e
   | inr (Continue results) => inr results
   | inr (Return results) => inr results
   end, snd r).

(** The findings of the cookie tester, appended to the scan's results. *)
Definition onto (base : list Result) (r : Flow (list Result) (list Result))
  : res (Flow (list Result) (list Result)) :=
  match r with
  | Continue found => pure (Continue (base ++ process_results found)%list)
  | Return found => pure (Return (base ++ process_results found)%list)
  end.

(** A step that contributes at most one result. *)
Definition single (a : Attempt) : Prop :=
  forall st found st', a st = (inr found, st') -> List.length found <= 1.

(** In fast mode the flag is still down whenever a loop goes on. *)
Definition flag_down (config : Config) (l : Locals) : Prop :=
  fast config = true -> snd l = false.

End Orchestration.

(* ===================================================================== *)
(** * core/utils.py: the other helpers                                    *)
(* ===================================================================== *)

(** More [str] methods. *)
Module PyText.
Import PyStr.

(** A [str] whatever its code points, each of them below 0x110000; the
    strings above are those whose code points are below 256. *)
Definition Text : Type := list N.

Definition text_of (s : string) : Text := map code (list_ascii_of_string s).

(** [c in s] for a one-character [c]. *)
Definition has_point (c : N) (s : Text) : bool := existsb (N.eqb c) s.

(** [s.replace(c, t)] for a one-character [c]. *)
Fixpoint replace_point (c : N) (t s : Text) : Text :=
  match s with
  | [] => []
  | a :: r => ((if (a =? c)%N then t else [a]) ++ replace_point c t r)%list
  end.

(** The code points 0xD800..0xDFFF, which stand for no character. *)
Definition is_surrogate (c : N) : bool := ((55296 <=? c) && (c <=? 57343))%N.

(** The UTF-8 bytes of a code point: one byte below 0x80, two below
    0x800, three below 0x10000, four from there on. *)
Definition utf8_bytes (c : N) : list ascii :=
  if (c <? 128)%N then [ascii_of_N c]
  else if (c <? 2048)%N then [ascii_of_N (192 + c / 64); ascii_of_N (128 + c mod 64)]
  else if (c <? 65536)%N then
    [ascii_of_N (224 + c / 4096); ascii_of_N (128 + (c / 64) mod 64);
     ascii_of_N (128 + c mod 64)]
  else
    [ascii_of_N (240 + c / 262144); ascii_of_N (128 + (c / 4096) mod 64);
     ascii_of_N (128 + (c / 64) mod 64); ascii_of_N (128 + c mod 64)].

(** [s.encode('utf-8')]: a surrogate raises [UnicodeEncodeError], which
    is a [ValueError]. *)
Fixpoint encode_utf8 (s : Text) : res (list ascii) :=
  match s with
  | [] => pure []
  | c :: r =>
      if is_surrogate c then raise ValueError
      else rbind (encode_utf8 r) (fun bytes => pure (utf8_bytes c ++ bytes)%list)
  end.

(** [s[:n]] for [0 <= n]. *)
Fixpoint take (n : nat) (s : string) : string :=
  match n, s with
  | S n, String c r => String c (take n r)
  | _, _ => EmptyString
  end.

(** [s[:k]] for an integer [k]: a negative bound counts from the end,
    and a bound before the start gives the empty string. *)
Definition slice_to (k : Z) (s : string) : string :=
  if (k <? 0)%Z then take (Z.to_nat (Z.of_nat (String.length s) + k)) s
  else take (Z.to_nat k) s.

(** What a Python expression built with [and] may evaluate to here. *)
Inductive Value : Type :=
| VNone
| VStr (s : string)
| VBool (b : bool).

Definition truth (v : Value) : bool :=
  match v with
  | VNone => false
  | VStr s => negb (is_empty s)
  | VBool b => b
  end.

End PyText.

(** [display_banner] only prints and [format_time] formats a floating
    point number: neither is modelled. *)
Module Helpers.
Import PyStr PyText.

(** [all([result.scheme, result.netloc])], and [False] on any exception. *)
Definition validate_url (url : string) : bool :=
  match Urllib.urlparse url with
  | inr result =>
      negb (is_empty (Urllib.scheme result)) && negb (is_empty (Urllib.netloc result))
  | inl _ => false
  end.

Definition normalize_url (url : string) : string :=
  if negb (startswith_any ["http://"; "https://"] url) then "http://" ++ url else url.

(** The loop of [load_urls_from_file] over the lines the file yields; the
    warning printed for an invalid line is left out. *)
Fixpoint load_lines (lines urls : list string) : list string :=
  match lines with
  | [] => urls
  | line :: rest =>
      let line := strip line in
      if negb (is_empty line) && negb (startswith "#" line) then
        let normalized_url := normalize_url line in
        if validate_url normalized_url
        then load_lines rest (urls ++ [normalized_url])
        else load_lines rest urls
      else load_lines rest urls
  end.

(** The file is given by the lines it yields, or [None] when opening or
    reading it raises: both [except] clauses return the empty list. *)
Definition load_urls_from_file (file : option (list string)) : list string :=
  match file with
  | Some lines => load_lines lines []
  | None => []
  end.

Definition extract_domain (url : string) : option string :=
  match Urllib.urlparse url with
  | inr parsed => Some (Urllib.netloc parsed)
  | inl _ => None
  end.

(** [domain1 and domain2 and domain1.lower() == domain2.lower()]: the
    first operand that is false, or the comparison. *)
Definition is_same_domain (url1 url2 : string) : Value :=
  match extract_domain url1 with
  | None => VNone
  | Some domain1 =>
      if is_empty domain1 then VStr domain1 else
      match extract_domain url2 with
      | None => VNone
      | Some domain2 =>
          if is_empty domain2 then VStr domain2
          else VBool (lower domain1 =? lower domain2)
      end
  end.

Definition clean_url (url : string) : string :=
  match Urllib.urlparse url with
  | inr parsed =>
      Urllib.urlunparse
        (Urllib.mkParseResult (Urllib.scheme parsed) (Urllib.netloc parsed)
           (Urllib.path parsed) (Urllib.params parsed) (Urllib.query parsed) "")
  | inl _ => url
  end.

(** The bytes [quote] keeps with its default [safe='/']. *)
Definition kept_byte (b : ascii) : bool := Urlencode.always_safe b || Ascii.eqb b "/".

Definition quote_byte (b : ascii) : string :=
  if kept_byte b then String b EmptyString else Urlencode.percent_byte (code b).

(** [''.join([quoter(char) for char in bs])]. *)
Fixpoint quote_from_bytes (bs : list ascii) : string :=
  match bs with
  | [] => EmptyString
  | b :: r => quote_byte b ++ quote_from_bytes r
  end.

(** [urllib.parse.quote(s)]: the string is encoded as a whole, and then
    each byte is kept or written as [%XX]. *)
Definition quote (s : Text) : res Text :=
  rbind (encode_utf8 s) (fun bs => pure (text_of (quote_from_bytes bs))).

(** The bare [except] returns the payload as it came. Any
    [encoding_type] other than the three named takes the last branch. *)
Definition encode_payload (payload : Text) (encoding_type : string) : Text :=
  let body : res Text :=
    if encoding_type =? "url" then quote payload
    else if encoding_type =? "double_url" then rbind (quote payload) quote
    else if encoding_type =? "html" then
      pure (replace_point 62 (text_of "&gt;")
              (replace_point 60 (text_of "&lt;")
                 (replace_point 38 (text_of "&amp;") payload)))
    else pure payload in
  match body with
  | inr encoded => encoded
  | inl _ => payload
  end.

Definition truncate_string (text : string) (max_length : Z) : string :=
  if (Z.of_nat (String.length text) <=? max_length)%Z then text
  else slice_to (max_length - 3) text ++ "...".

End Helpers.

(* ===================================================================== *)
(** * core/scanner.py: the other methods                                  *)
(* ===================================================================== *)

Module Smart.
Import PyStr Scanner.
Open Scope monad_scope.

Definition get_total_requests (st : State) : nat := total_requests st.

(** The call [self._is_external_redirect(url, location)] binds two of the
    method's three positional parameters: Python raises [TypeError]. *)
Definition _is_external_redirect_two_arguments (a b : string) : res bool :=
  raise TypeError.

(** An entry of [url_analysis['priority_parameters']], read through
    [p['name']]. *)
Record PriorityParameter : Type := mkPriorityParameter {
  name : string
}.

Record UrlAnalysis : Type := mkUrlAnalysis {
  priority_parameters : list PriorityParameter
}.

Section Engine.

Variable lib : Library.
Variable config : Config.
Variable server : Server.

(** The function ends without a [return] when the validator accepts and
    neither inner test returns, and when the validator refuses: [None]. *)
Definition _enhanced_vulnerability_verification (url payload : string)
  (response : option Response) : res (option bool) :=
  match response with
  | None => pure (Some false)
  | Some r =>
      if negb (truthy_response response) then pure (Some false) else
      if negb (is_redirect_status (status_code r)) then pure (Some false) else
      let location := location_of r in
      if is_empty location then pure (Some false) else
      if Utils.validate_redirect payload location (callback_url config) None then
        rbind (_is_external_redirect_two_arguments url location) (fun external =>
          if external then pure (Some true) else
          if startswith "//" location && contains "evil.com" location
          then pure (Some true)
          else pure None)
      else pure None
  end.

(** [for payload in smart_payloads] of the two smart testers: only
    vulnerable results are kept. *)
Fixpoint smart_payloads_loop (test : string -> M State (option Result))
  (payloads : list string) (results : list Result)
  : M State (Flow (list Result) (list Result)) :=
  match payloads with
  | [] => ret (Continue results)
  | payload :: rest =>
      result <- test payload ;;
      match result with
      | Some r =>
          if vulnerable r then
            let results := (results ++ [r])%list in
            if fast config then ret (Return results)
            else smart_payloads_loop test rest results
          else smart_payloads_loop test rest results
      | None => smart_payloads_loop test rest results
      end
  end.

(** [for param in priority_params: if param in params: ...]. *)
Fixpoint priority_loop (test : string -> string -> M State (option Result))
  (params priority_params payloads : list string) (results : list Result)
  : M State (Flow (list Result) (list Result)) :=
  match priority_params with
  | [] => ret (Continue results)
  | param :: rest =>
      if Urllib.mem param params then
        r <- smart_payloads_loop (test param) payloads results ;;
        match r with
        | Return results => ret (Return results)
        | Continue results => priority_loop test params rest payloads results
        end
      else priority_loop test params rest payloads results
  end.

(** [for param in remaining_params] and [for header_name in
    priority_headers]. *)
Fixpoint names_loop (test : string -> string -> M State (option Result))
  (names payloads : list string) (results : list Result)
  : M State (Flow (list Result) (list Result)) :=
  match names with
  | [] => ret (Continue results)
  | name :: rest =>
      r <- smart_payloads_loop (test name) payloads results ;;
      match r with
      | Return results => ret (Return results)
      | Continue results => names_loop test rest payloads results
      end
  end.

Definition _test_url_parameters_smart (url : string) (smart_payloads : list string)
  (url_analysis : UrlAnalysis) : M State (list Result) :=
  let params := Utils.extract_redirect_params lib url in
  let priority_params := map name (priority_parameters url_analysis) in
  r <- priority_loop (test_url_parameter lib config server url) params priority_params
         smart_payloads [] ;;
  match r with
  | Return results => ret results
  | Continue results =>
      if negb (fast config) || match results with [] => true | _ => false end then
        let remaining_params :=
          filter (fun p => negb (Urllib.mem p priority_params)) params in
        r <- names_loop (test_url_parameter lib config server url) remaining_params
               smart_payloads results ;;
        match r with
        | Return results => ret results
        | Continue results => ret results
        end
      else ret results
  end.

Definition priority_headers : list string :=
  ["Host"; "X-Forwarded-Host"; "X-Real-IP"; "X-HTTP-Host-Override"].

Definition _test_header_injection_smart (url : string) (smart_payloads : list string)
  : M State (list Result) :=
  let header_payloads := firstn 10 smart_payloads in
  r <- names_loop (test_header_injection config server url) priority_headers
         header_payloads [] ;;
  match r with
  | Return results => ret results
  | Continue results => ret results
  end.

End Engine.

End Smart.

(* ===================================================================== *)
(** * Requests sent and requests counted                                  *)
(* ===================================================================== *)

Module Accounting.
Import Scanner.

(** From [st] to [st']: the requests the peer has received in between
    all satisfy [P], and the counter has moved by their number and
    [ahead] more. *)
Definition Sent (P : Request -> Prop) (ahead : nat) (st st' : State) : Prop :=
  exists sent,
    history st' = (sent ++ history st)%list
    /\ Forall P sent
    /\ total_requests st' = ahead + List.length sent + total_requests st.

(** A computation that counts each request it sends, all of them in [P]. *)
Definition sends {A : Type} (P : Request -> Prop) (m : M State A) : Prop :=
  forall st, Sent P 0 st (snd (m st)).

(** How far the counter is ahead after a step: by one if it raised. *)
Definition ahead_of {A : Type} (r : res A) : nat :=
  match r with
  | inl _ => 1
  | inr _ => 0
  end.

(** A step of a scan that counts what it sends, and one request more
    when it raises. *)
Definition accounted (P : Request -> Prop) (a : Attempt) : Prop :=
  forall st, Sent P (ahead_of (fst (a st))) st (snd (a st)).

(** A request of the scan of [url]: a [GET] without a body, which leaves
    redirects to the scanner unless it is the probe of the form tester. *)
Definition scan_request (url : string) (q : Request) : Prop :=
  req_method q = "GET" /\ req_data q = []
  /\ (req_allow_redirects q = true -> q = mkRequest "GET" url [] [] [] true).

(** A computation that moves the counter by [lo] at least and [hi] at
    most. *)
Definition costs {A : Type} (lo hi : nat) (m : M State A) : Prop :=
  forall st,
    lo + total_requests st <= total_requests (snd (m st))
    /\ total_requests (snd (m st)) <= hi + total_requests st.

(** The results a loop holds when it is left, either way. *)
Definition held {A : Type} (r : Flow A A) : A :=
  match r with
  | Continue results => results
  | Return results => results
  end.

End Accounting.

(* ===================================================================== *)
(** * Properties                                                          *)
(* ===================================================================== *)

(** ** The examples of section 8 of the specification, evaluated *)

Module Section8.
Import Utils Scanner.

Example default_port_80 :
  get_normalized_hostname_util (Some "http://Example.com:80/x")
  = get_normalized_hostname_util (Some "http://example.com/x").
Proof. reflexivity. Qed.

Example default_port_443 :
  get_normalized_hostname_util (Some "https://example.com:443")
  = get_normalized_hostname_util (Some "https://example.com").
Proof. reflexivity. Qed.

Example other_port_kept :
  get_normalized_hostname_util (Some "https://example.com:8443") = inr (Some "example.com:8443")
  /\ get_normalized_hostname_util (Some "https://example.com") = inr (Some "example.com").
Proof. split; reflexivity. Qed.

Example validator_accepts_payload_host :
  validate_redirect "http://a.com" "http://evil.com" (Some "http://evil.com") None = true.
Proof. reflexivity. Qed.

Example validator_self_match_guard :
  validate_redirect "http://evil.com" "http://evil.com" (Some "http://evil.com") None = false.
Proof. reflexivity. Qed.

Example validator_accepts_script_uri :
  validate_redirect "http://a.com" "javascript:alert(1)" (Some "anything") None = true.
Proof. reflexivity. Qed.

Example classifier_script_uri :
  _determine_severity "http://a.com" "anything" (Some "javascript:alert(1)") = inr High.
Proof. reflexivity. Qed.

Example classifier_same_site :
  _determine_severity "http://a.com" "http://evil.com" (Some "http://a.com/page2") = inr Low.
Proof. reflexivity. Qed.

Example classifier_third_party :
  _determine_severity "http://a.com" "http://evil.com" (Some "http://b.com") = inr Medium.
Proof. reflexivity. Qed.

(** A fast scan stops at its first attempt when that one is vulnerable:
    one result, and the six requests of that attempt. *)
Example fast_scan_first_attempt :
  let run :=
    scan_single_url Examples.example_library Examples.fast_config Examples.one_payload
      (Examples.always_redirects "http://evil.com/") "http://site.test/login"
      Examples.initial in
  match fst run with
  | inr [r] => vulnerable r = true /\ severity r = Some (Sev High)
  | _ => False
  end
  /\ total_requests (snd run) = 6.
Proof. vm_compute. repeat split; reflexivity. Qed.

End Section8.

(** ** Strings *)

Module StrFacts.
Import PyStr.

Lemma startswith_cons (c a : ascii) (p s : string) :
  startswith (String c p) (String a s) = true <-> c = a /\ startswith p s = true.
Proof.
  unfold startswith; simpl.
  destruct (ascii_dec c a) as [E | N]; split; intros H.
  - split; [exact E | exact H].
  - exact (proj2 H).
  - discriminate H.
  - destruct H as [E _]; contradiction.
Qed.

Lemma startswith_empty (p : string) :
  startswith p EmptyString = true -> p = EmptyString.
Proof. destruct p; [reflexivity | discriminate]. Qed.

Lemma startswith_nil (s : string) : startswith EmptyString s = true.
Proof. destruct s; reflexivity. Qed.

Lemma is_empty_true (s : string) : is_empty s = true <-> s = EmptyString.
Proof. destruct s; simpl; split; congruence. Qed.

Lemma is_empty_false (s : string) : is_empty s = false <-> s <> EmptyString.
Proof. destruct s; simpl; split; congruence. Qed.

Lemma rstrip_keeps_prefix (p : string) :
  p <> EmptyString -> solid p = true ->
  forall s, startswith p s = true -> startswith p (rstrip_by isspace s) = true.
Proof.
  induction p as [| c p IH]; intros Hne Hsolid s Hpre; [congruence |].
  destruct s as [| a s]; [discriminate Hpre |].
  apply startswith_cons in Hpre. destruct Hpre as [<- Hpre].
  unfold solid in Hsolid; simpl in Hsolid.
  apply andb_true_iff in Hsolid. destruct Hsolid as [Hc Hp].
  apply negb_true_iff in Hc.
  simpl. destruct p as [| d p].
  - destruct (rstrip_by isspace s); [rewrite Hc |];
      apply startswith_cons; split; auto using startswith_nil.
  - assert (H : startswith (String d p) (rstrip_by isspace s) = true)
      by (apply IH; [discriminate | exact Hp | exact Hpre]).
    destruct (rstrip_by isspace s) as [| b r]; [discriminate H |].
    apply startswith_cons; split; [reflexivity | exact H].
Qed.

Lemma strip_keeps_prefix (p s : string) :
  p <> EmptyString -> solid p = true ->
  startswith p s = true -> startswith p (strip s) = true.
Proof.
  intros Hne Hsolid Hpre. unfold strip.
  assert (E : lstrip_by isspace s = s).
  { destruct p as [| c p]; [congruence |].
    destruct s as [| a s]; [discriminate Hpre |].
    apply startswith_cons in Hpre. destruct Hpre as [<- _].
    unfold solid in Hsolid; simpl in Hsolid.
    apply andb_true_iff in Hsolid. destruct Hsolid as [Hc _].
    apply negb_true_iff in Hc. simpl. now rewrite Hc. }
  rewrite E. now apply rstrip_keeps_prefix.
Qed.

Lemma strip_keeps_any_prefix (ps : list string) (s : string) :
  forallb (fun p => negb (is_empty p) && solid p) ps = true ->
  startswith_any ps s = true ->
  startswith_any ps (strip s) = true /\ strip s <> EmptyString.
Proof.
  unfold startswith_any. intros Hps Hany.
  apply existsb_exists in Hany. destruct Hany as [p [Hin Hpre]].
  rewrite forallb_forall in Hps. specialize (Hps p Hin).
  apply andb_true_iff in Hps. destruct Hps as [Hne Hsolid].
  apply negb_true_iff, is_empty_false in Hne.
  pose proof (strip_keeps_prefix p s Hne Hsolid Hpre) as H.
  split.
  - apply existsb_exists. exists p. split; assumption.
  - intros E. rewrite E in H. apply startswith_empty in H. contradiction.
Qed.

End StrFacts.

(** ** The validator *)

Module ValidatorFacts.
Import PyStr Utils StrFacts.

Lemma script_prefix_validates (original final : string) (payload callback : option string) :
  startswith_any script_schemes (strip final) = true ->
  strip final <> EmptyString ->
  validate_redirect original final payload callback = true.
Proof.
  intros Hs Hne. unfold validate_redirect.
  apply is_empty_false in Hne. rewrite Hne, Hs. reflexivity.
Qed.

End ValidatorFacts.

(** C5 (as amended): a final location that begins with [javascript:],
    [data:] or [vbscript:], in exactly this lower-case spelling, is a valid
    exploit whatever the original URL, the payload and the callback are. *)
Theorem C5_script_scheme_validates :
  forall (final original : string) (payload callback : option string),
    PyStr.startswith_any Utils.script_schemes final = true ->
    Utils.validate_redirect original final payload callback = true.
Proof.
  intros final original payload callback H.
  destruct (StrFacts.strip_keeps_any_prefix Utils.script_schemes final) as [Hs Hne];
    [reflexivity | exact H |].
  now apply ValidatorFacts.script_prefix_validates.
Qed.

Lemma C5_script_scheme_validates_witness :
  PyStr.startswith_any Utils.script_schemes "javascript:alert(1)" = true
  /\ Utils.validate_redirect "http://a.com" "javascript:alert(1)" (Some "anything") None = true.
Proof.
  split; [reflexivity |].
  apply (C5_script_scheme_validates "javascript:alert(1)"). reflexivity.
Defined.

(** C5 (as stated) fails: [JavaScript:alert(1)] begins with [javascript:]
    when compared case-insensitively, and is not validated. *)
Lemma C5_mixed_case_not_validated :
  PyStr.startswith_any Utils.script_schemes (PyStr.lower "JavaScript:alert(1)") = true
  /\ Utils.validate_redirect "http://a.com" "JavaScript:alert(1)"
       (Some "http://evil.com") None = false.
Proof. split; reflexivity. Qed.

(** ** URL parsing and host normalisation *)

Module UrlFacts.
Import PyStr Utils StrFacts.

(** Case analysis on the next test or match the goal computes with. *)
Ltac step :=
  match goal with
  | H : inl _ = inl _ |- _ => injection H as H; subst
  | H : inr _ = inr _ |- _ => injection H as H; subst
  | H : Some _ = Some _ |- _ => injection H as H; subst
  | H : inl _ = inr _ |- _ => discriminate H
  | H : inr _ = inl _ |- _ => discriminate H
  | H : Some _ = None |- _ => discriminate H
  | H : None = Some _ |- _ => discriminate H
  | H : context [if ?b then _ else _] |- _ => destruct b eqn:?
  | H : context [match ?x with inl _ => _ | inr _ => _ end] |- _ => destruct x eqn:?
  | H : context [match ?x with Some _ => _ | None => _ end] |- _ => destruct x eqn:?
  | H : context [let '(_, _) := ?x in _] |- _ => destruct x eqn:?
  end.

Lemma split_netloc_raises (s : string) (e : exn) :
  Urllib.split_netloc s = inl e -> e = ValueError.
Proof.
  unfold Urllib.split_netloc, raise, pure. intros H.
  repeat step; reflexivity.
Qed.

Lemma urlsplit_raises (s : string) (e : exn) :
  Urllib.urlsplit s = inl e -> e = ValueError.
Proof.
  unfold Urllib.urlsplit, rbind, pure. intros H.
  destruct (Urllib.split_scheme _) as [scheme url].
  destruct (Urllib.split_netloc url) as [e' | [netloc rest]] eqn:E.
  - injection H as <-. now apply split_netloc_raises in E.
  - repeat step.
Qed.

Lemma urlparse_raises (s : string) (e : exn) :
  Urllib.urlparse s = inl e -> e = ValueError.
Proof.
  unfold Urllib.urlparse, rbind, pure. intros H.
  destruct (Urllib.urlsplit s) as [e' | r] eqn:E.
  - injection H as <-. now apply urlsplit_raises in E.
  - repeat step.
Qed.

Lemma port_raises (r : Urllib.ParseResult) (e : exn) :
  Urllib.port r = inl e -> e = ValueError.
Proof.
  unfold Urllib.port, raise, pure. intros H.
  destruct (snd (Urllib.hostinfo (Urllib.netloc r))); repeat step; reflexivity.
Qed.

Lemma scheme_and_port_is_raises (r : Urllib.ParseResult) (s : string) (p : Z) (e : exn) :
  scheme_and_port_is r s p = inl e -> e = ValueError.
Proof.
  unfold scheme_and_port_is, rbind, pure. intros H.
  destruct (Urllib.scheme r =? s); [| discriminate H].
  destruct (Urllib.port r) as [e' |] eqn:E; [| discriminate H].
  injection H as <-. now apply port_raises in E.
Qed.

Lemma normalized_hostname_raises (s : string) (e : exn) :
  normalized_hostname s = inl e -> e = ValueError.
Proof.
  unfold normalized_hostname, rbind, pure. intros E.
  destruct (Urllib.urlparse s) as [e1 | r] eqn:E1.
  { injection E as <-. now apply urlparse_raises in E1. }
  destruct (Urllib.hostname r); [| discriminate E].
  destruct (scheme_and_port_is r "http" 80) as [e2 | b2] eqn:E2.
  { injection E as <-. now apply scheme_and_port_is_raises in E2. }
  destruct b2; [discriminate E |].
  destruct (scheme_and_port_is r "https" 443) as [e3 | b3] eqn:E3.
  { injection E as <-. now apply scheme_and_port_is_raises in E3. }
  destruct b3; [discriminate E |].
  destruct (Urllib.port r) as [e4 | p] eqn:E4.
  { injection E as <-. now apply port_raises in E4. }
  destruct p as [n |]; [destruct (n =? 0)%Z |]; discriminate E.
Qed.

(** The normaliser returns on every input: each exception the parser can
    raise is the [ValueError] it catches. *)
Lemma normalize_returns (x : option string) :
  exists v, get_normalized_hostname_util x = inr v.
Proof.
  unfold get_normalized_hostname_util, pure.
  destruct x as [s |]; [| eauto].
  destruct (is_empty s); [eauto |].
  destruct (normalized_hostname s) as [e | v] eqn:E; [| simpl; eauto].
  apply normalized_hostname_raises in E. subst e. simpl. eauto.
Qed.

(** A normalised host is the lower-cased host name or the lower-cased
    netloc of the parsed URL. *)
Lemma normalized_hostname_some (s h : string) :
  normalized_hostname s = inr (Some h) ->
  exists r hn, Urllib.urlparse s = inr r /\ Urllib.hostname r = Some hn
               /\ (h = lower hn \/ h = lower (Urllib.netloc r)).
Proof.
  unfold normalized_hostname, rbind, pure.
  destruct (Urllib.urlparse s) as [e1 | r] eqn:E1; [discriminate |].
  destruct (Urllib.hostname r) as [hn |] eqn:E2; [| discriminate].
  intros H. exists r, hn. split; [reflexivity |]. split; [exact E2 |].
  destruct (scheme_and_port_is r "http" 80) as [e2 | b2]; [discriminate H |].
  destruct b2; [injection H as <-; now left |].
  destruct (scheme_and_port_is r "https" 443) as [e3 | b3]; [discriminate H |].
  destruct b3; [injection H as <-; now left |].
  destruct (Urllib.port r) as [e4 | p]; [discriminate H |].
  destruct p as [n |]; [destruct (n =? 0)%Z |]; injection H as <-; auto.
Qed.

Lemma normalize_some (s h : string) :
  get_normalized_hostname_util (Some s) = inr (Some h) ->
  normalized_hostname s = inr (Some h).
Proof.
  unfold get_normalized_hostname_util, pure.
  destruct (is_empty s); [discriminate |].
  destruct (normalized_hostname s) as [[] | v]; simpl; congruence.
Qed.

Lemma lower_empty (s : string) : lower s = EmptyString -> s = EmptyString.
Proof. destruct s; [reflexivity | discriminate]. Qed.

Lemma append_empty (a b : string) : (a ++ b)%string = EmptyString -> a = EmptyString /\ b = EmptyString.
Proof. destruct a; simpl; [auto | discriminate]. Qed.

Lemma partition_empty (c : ascii) (s a z : string) :
  partition c s = (a, false, z) -> a = s /\ z = EmptyString.
Proof.
  revert a z. induction s as [| x s IH]; simpl; intros a z H.
  - injection H as <- <-. auto.
  - destruct (Ascii.eqb x c); [discriminate H |].
    destruct (partition c s) as [[a' f'] z'].
    injection H as <- -> <-.
    destruct (IH a' z' eq_refl) as [-> ->]. auto.
Qed.

(** The [hostname] property never yields the empty string, and yields a
    host only on a netloc that is not empty. *)
Lemma hostname_nonempty (r : Urllib.ParseResult) (hn : string) :
  Urllib.hostname r = Some hn -> hn <> EmptyString /\ Urllib.netloc r <> EmptyString.
Proof.
  unfold Urllib.hostname. intros H. split.
  - destruct (is_empty (fst (Urllib.hostinfo (Urllib.netloc r)))) eqn:E; [discriminate H |].
    apply is_empty_false in E.
    destruct (partition "%" (fst (Urllib.hostinfo (Urllib.netloc r)))) as [[a f] z] eqn:P.
    injection H as <-. intros C.
    apply append_empty in C. destruct C as [Ca Cz].
    apply lower_empty in Ca. subst a.
    destruct f; [discriminate Cz |].
    apply partition_empty in P. destruct P as [P _]. congruence.
  - intros C. rewrite C in H. discriminate H.
Qed.

Lemma normalize_nonempty (x : option string) (h : string) :
  get_normalized_hostname_util x = inr (Some h) -> h <> EmptyString.
Proof.
  destruct x as [s |]; [| discriminate].
  intros H. apply normalize_some, normalized_hostname_some in H.
  destruct H as [r [hn [_ [Hh Hc]]]].
  apply hostname_nonempty in Hh. destruct Hh as [H1 H2].
  destruct Hc as [-> | ->]; intros C; apply lower_empty in C; contradiction.
Qed.

Lemma truthy_normalized (x : option string) (v : option string) :
  get_normalized_hostname_util x = inr v ->
  truthy v = match v with Some _ => true | None => false end.
Proof.
  destruct v as [h |]; [| reflexivity].
  intros H. apply normalize_nonempty in H. simpl.
  apply is_empty_false in H. now rewrite H.
Qed.

Lemma eqb_opt_true (a b : option string) : eqb_opt a b = true <-> a = b.
Proof.
  destruct a as [x |], b as [y |]; simpl; split; try congruence.
  - intros H. apply String.eqb_eq in H. congruence.
  - intros H. injection H as ->. apply String.eqb_refl.
Qed.

End UrlFacts.

Module ValidatorChoice.
Import PyStr Utils StrFacts UrlFacts.

(** Without a callback and off the script schemes, the verdict is the
    comparison of the three normalised hosts. *)
Lemma validate_by_hosts (original final : string) (payload callback oh rh ph : option string) :
  truthy callback = false ->
  startswith_any script_schemes (strip final) = false ->
  strip final <> EmptyString ->
  get_normalized_hostname_util (Some original) = inr oh ->
  get_normalized_hostname_util (Some (strip final)) = inr rh ->
  get_normalized_hostname_util payload = inr ph ->
  validate_redirect original final payload callback
  = match rh with
    | Some _ => eqb_opt rh ph && negb (eqb_opt oh ph)
    | None => false
    end.
Proof.
  intros Hcb Hscript Hne Ho Hr Hp.
  unfold validate_redirect.
  apply is_empty_false in Hne. rewrite Hne, Hscript, Ho, Hr, Hp. simpl.
  rewrite (truthy_normalized _ _ Hr), (truthy_normalized _ _ Hp), Hcb.
  destruct rh as [r |]; [| reflexivity]. simpl.
  destruct ph as [p |]; simpl; [| reflexivity].
  destruct (String.eqb r p && negb (eqb_opt oh (Some p))); reflexivity.
Qed.

End ValidatorChoice.

(** C1 (as amended): with no callback configured, and when the final
    location with its surrounding white space stripped does not begin
    with a script scheme, the validator answers true exactly when the
    stripped location has a normalised host that equals the payload's and
    differs from the original's; hence a location whose host is the
    original's is rejected even when it is the payload's too. *)
Theorem C1_validate_redirect_by_hosts :
  forall (original final payload : string) (callback : option string),
    Utils.truthy callback = false ->
    PyStr.startswith_any Utils.script_schemes (PyStr.strip final) = false ->
    (Utils.validate_redirect original final (Some payload) callback = true
     <-> exists h,
           Utils.get_normalized_hostname_util (Some (PyStr.strip final)) = inr (Some h)
           /\ Utils.get_normalized_hostname_util (Some payload) = inr (Some h)
           /\ Utils.get_normalized_hostname_util (Some original) <> inr (Some h))
    /\ (Utils.get_normalized_hostname_util (Some (PyStr.strip final))
        = Utils.get_normalized_hostname_util (Some original) ->
        Utils.validate_redirect original final (Some payload) callback = false).
Proof.
  intros original final payload callback Hcb Hscript.
  destruct (UrlFacts.normalize_returns (Some original)) as [oh Ho].
  destruct (UrlFacts.normalize_returns (Some (PyStr.strip final))) as [rh Hr].
  destruct (UrlFacts.normalize_returns (Some payload)) as [ph Hp].
  assert (V : Utils.validate_redirect original final (Some payload) callback
              = match rh with
                | Some _ => Utils.eqb_opt rh ph && negb (Utils.eqb_opt oh ph)
                | None => false
                end).
  { destruct (PyStr.strip final) as [| c s] eqn:Es.
    - unfold Utils.validate_redirect. rewrite Es. simpl.
      simpl in Hr. injection Hr as <-. reflexivity.
    - rewrite <- Es in *.
      apply ValidatorChoice.validate_by_hosts; try assumption.
      rewrite Es. discriminate. }
  rewrite V, Ho, Hr, Hp. clear V. split; [split |].
  - destruct rh as [r |]; [| discriminate].
    intros H. apply andb_true_iff in H. destruct H as [H1 H2].
    apply UrlFacts.eqb_opt_true in H1. subst ph.
    exists r. repeat split. intros C. injection C as ->.
    apply negb_true_iff in H2.
    assert (T : Utils.eqb_opt (Some r) (Some r) = true) by now apply UrlFacts.eqb_opt_true.
    congruence.
  - intros [h [H1 [H2 H3]]]. injection H1 as ->. injection H2 as ->.
    apply andb_true_iff. split; [now apply UrlFacts.eqb_opt_true |].
    apply negb_true_iff. destruct (Utils.eqb_opt oh (Some h)) eqn:E; [| reflexivity].
    apply UrlFacts.eqb_opt_true in E. subst oh. contradiction.
  - intros E. injection E as ->. destruct oh as [o |]; [| reflexivity].
    destruct (Utils.eqb_opt (Some o) ph); reflexivity.
Qed.

Lemma C1_validate_redirect_by_hosts_witness :
  Utils.validate_redirect "http://a.com" "http://evil.com" (Some "http://evil.com") None = true
  <-> exists h,
        Utils.get_normalized_hostname_util (Some (PyStr.strip "http://evil.com")) = inr (Some h)
        /\ Utils.get_normalized_hostname_util (Some "http://evil.com") = inr (Some h)
        /\ Utils.get_normalized_hostname_util (Some "http://a.com") <> inr (Some h).
Proof.
  apply (C1_validate_redirect_by_hosts "http://a.com" "http://evil.com" "http://evil.com" None);
    reflexivity.
Defined.

(** C1 (as stated) fails on locations with surrounding white space, which
    the validator strips before it looks at them: a location that does
    not begin with a script scheme and has no host is accepted, and so
    is one whose host, a trailing space included, differs from the
    payload's. *)
Lemma C1_unstripped_location_counterexample :
  (PyStr.startswith_any Utils.script_schemes " javascript:alert(1)" = false
   /\ Utils.get_normalized_hostname_util (Some " javascript:alert(1)") = inr None
   /\ Utils.validate_redirect "http://a.com" " javascript:alert(1)"
        (Some "http://evil.com") None = true)
  /\ (PyStr.startswith_any Utils.script_schemes "http://evil.com " = false
      /\ Utils.get_normalized_hostname_util (Some "http://evil.com ") = inr (Some "evil.com ")
      /\ Utils.get_normalized_hostname_util (Some "http://evil.com") = inr (Some "evil.com")
      /\ Utils.validate_redirect "http://a.com" "http://evil.com "
           (Some "http://evil.com") None = true).
Proof. repeat split; reflexivity. Qed.

(** ** Normalised hosts are not URLs *)

Module HostFacts.
Import PyStr Utils StrFacts UrlFacts.

Lemma lower_char_idempotent (c : ascii) : lower_char (lower_char c) = lower_char c.
Proof. destruct c as [[] [] [] [] [] [] [] []]; reflexivity. Qed.

Lemma lower_idempotent (s : string) : lower (lower s) = lower s.
Proof.
  induction s as [| c s IH]; simpl; [reflexivity |].
  now rewrite lower_char_idempotent, IH.
Qed.

Lemma lower_char_slash (c : ascii) : Ascii.eqb (lower_char c) "/" = Ascii.eqb c "/".
Proof. destruct c as [[] [] [] [] [] [] [] []]; reflexivity. Qed.

Lemma has_slash_lower (s : string) : has_char "/" (lower s) = has_char "/" s.
Proof.
  induction s as [| c s IH]; simpl; [reflexivity |].
  now rewrite lower_char_slash, IH.
Qed.

Lemma has_char_append (c : ascii) (a b : string) :
  has_char c (a ++ b) = has_char c a || has_char c b.
Proof.
  induction a as [| x a IH]; simpl; [reflexivity |].
  now rewrite IH, orb_assoc.
Qed.

Lemma has_char_cons_false (c x : ascii) (s : string) :
  has_char c (String x s) = false -> Ascii.eqb x c = false /\ has_char c s = false.
Proof. simpl. intros H. now apply orb_false_iff in H. Qed.

Lemma lstrip_keeps_absent (c : ascii) (p : ascii -> bool) (s : string) :
  has_char c s = false -> has_char c (lstrip_by p s) = false.
Proof.
  induction s as [| x s IH]; simpl; [auto |]. intros H.
  destruct (p x); [| exact H].
  apply IH. now apply orb_false_iff in H.
Qed.

Lemma remove_keeps_absent (c d : ascii) (s : string) :
  has_char c s = false -> has_char c (remove_char d s) = false.
Proof.
  induction s as [| x s IH]; simpl; [auto |]. intros H.
  apply orb_false_iff in H. destruct H as [H1 H2].
  destruct (Ascii.eqb x d); simpl; [auto |]. now rewrite H1, IH.
Qed.

Lemma partition_keeps_absent (c d : ascii) (s a z : string) (f : bool) :
  has_char c s = false -> partition d s = (a, f, z) ->
  has_char c a = false /\ has_char c z = false.
Proof.
  revert a z f. induction s as [| x s IH]; simpl; intros a z f H P.
  - injection P as <- <- <-. auto.
  - apply orb_false_iff in H. destruct H as [H1 H2].
    destruct (Ascii.eqb x d).
    + injection P as <- <- <-. auto.
    + destruct (partition d s) as [[a' f'] z'].
      injection P as <- <- <-.
      destruct (IH a' z' f' H2 eq_refl) as [Ha Hz].
      simpl. now rewrite H1, Ha.
Qed.

Lemma rpartition_keeps_absent (c d : ascii) (s a z : string) (f : bool) :
  has_char c s = false -> rpartition d s = (a, f, z) ->
  has_char c a = false /\ has_char c z = false.
Proof.
  revert a z f. induction s as [| x s IH]; simpl; intros a z f H P.
  - injection P as <- <- <-. auto.
  - apply orb_false_iff in H. destruct H as [H1 H2].
    destruct (rpartition d s) as [[a' f'] z'].
    destruct (IH a' z' f' H2 eq_refl) as [Ha Hz].
    destruct f'.
    + injection P as <- <- <-. simpl. now rewrite H1, Ha.
    + destruct (Ascii.eqb x d); injection P as <- <- <-; simpl; auto.
      now rewrite H1, Hz.
Qed.

Lemma break_at_keeps_absent (c : ascii) (p : ascii -> bool) (s a z : string) :
  p c = true -> break_at p s = (a, z) -> has_char c a = false.
Proof.
  intros Hp. revert a z. induction s as [| x s IH]; simpl; intros a z B.
  - injection B as <- <-. reflexivity.
  - destruct (p x) eqn:Px.
    + injection B as <- <-. reflexivity.
    + destruct (break_at p s) as [a' z'].
      injection B as <- <-. simpl. rewrite (IH a' z' eq_refl), orb_false_r.
      destruct (Ascii.eqb x c) eqn:E; [| reflexivity].
      apply Ascii.eqb_eq in E. congruence.
Qed.

(** A netloc holds no slash. *)
Lemma split_netloc_no_slash (s netloc rest : string) :
  Urllib.split_netloc s = inr (netloc, rest) -> has_char "/" netloc = false.
Proof.
  unfold Urllib.split_netloc, raise, pure. intros H.
  destruct (startswith "//" s).
  - destruct (break_at Urllib.netloc_delim (skip 2 s)) as [n r] eqn:B.
    repeat step.
    now apply (break_at_keeps_absent "/" _ _ _ _ eq_refl) in B.
  - now injection H as <- <-.
Qed.

Lemma urlsplit_netloc_no_slash (s : string) (r : Urllib.ParseResult) :
  Urllib.urlsplit s = inr r -> has_char "/" (Urllib.netloc r) = false.
Proof.
  unfold Urllib.urlsplit, rbind, pure. intros H.
  destruct (Urllib.split_scheme _) as [scheme url].
  destruct (Urllib.split_netloc url) as [e | [netloc rest]] eqn:E; [discriminate H |].
  apply split_netloc_no_slash in E.
  repeat step; exact E.
Qed.

Lemma urlparse_netloc_no_slash (s : string) (r : Urllib.ParseResult) :
  Urllib.urlparse s = inr r -> has_char "/" (Urllib.netloc r) = false.
Proof.
  unfold Urllib.urlparse, rbind, pure. intros H.
  destruct (Urllib.urlsplit s) as [e | r0] eqn:E; [discriminate H |].
  apply urlsplit_netloc_no_slash in E.
  repeat step; exact E.
Qed.

Lemma hostinfo_no_slash (netloc : string) :
  has_char "/" netloc = false -> has_char "/" (fst (Urllib.hostinfo netloc)) = false.
Proof.
  unfold Urllib.hostinfo. intros H.
  destruct (rpartition "@" netloc) as [[u fu] hi] eqn:P1.
  destruct (rpartition_keeps_absent _ _ _ _ _ _ H P1) as [_ Hhi].
  destruct (partition "[" hi) as [[b fb] br] eqn:P2.
  destruct (partition_keeps_absent _ _ _ _ _ _ Hhi P2) as [_ Hbr].
  destruct fb.
  - destruct (partition "]" br) as [[hn f1] p1] eqn:P3.
    destruct (partition_keeps_absent _ _ _ _ _ _ Hbr P3) as [Hhn _].
    destruct (partition ":" p1) as [[x f2] p2]. exact Hhn.
  - destruct (partition ":" hi) as [[hn f1] p1] eqn:P3.
    destruct (partition_keeps_absent _ _ _ _ _ _ Hhi P3) as [Hhn _]. exact Hhn.
Qed.

Lemma hostname_no_slash (r : Urllib.ParseResult) (hn : string) :
  has_char "/" (Urllib.netloc r) = false ->
  Urllib.hostname r = Some hn -> has_char "/" hn = false.
Proof.
  unfold Urllib.hostname. intros H E.
  destruct (is_empty _); [discriminate E |].
  apply hostinfo_no_slash in H.
  destruct (partition "%" _) as [[a f] z] eqn:P.
  destruct (partition_keeps_absent _ _ _ _ _ _ H P) as [Ha Hz].
  injection E as <-.
  rewrite !has_char_append, has_slash_lower, Ha, Hz.
  destruct f; reflexivity.
Qed.

(** A normalised host holds no slash. *)
Lemma normalized_no_slash (x : option string) (h : string) :
  get_normalized_hostname_util x = inr (Some h) -> has_char "/" h = false.
Proof.
  destruct x as [s |]; [| discriminate].
  intros H. apply normalize_some, normalized_hostname_some in H.
  destruct H as [r [hn [Hp [Hh Hc]]]].
  apply urlparse_netloc_no_slash in Hp.
  destruct Hc as [-> | ->]; rewrite has_slash_lower; [| exact Hp].
  now apply (hostname_no_slash r).
Qed.

Lemma split_scheme_keeps_absent (c : ascii) (s scheme rest : string) :
  has_char c s = false -> Urllib.split_scheme s = (scheme, rest) ->
  has_char c rest = false.
Proof.
  unfold Urllib.split_scheme. intros H E.
  destruct (partition ":" s) as [[b f] a] eqn:P.
  destruct (partition_keeps_absent _ _ _ _ _ _ H P) as [_ Ha].
  destruct b as [| c0 b]; [injection E as <- <-; exact H |].
  destruct f; [| injection E as <- <-; exact H].
  destruct (_ && _); injection E as <- <-; assumption.
Qed.

(** A string without a slash parses to a URL without a netloc. *)
Lemma no_slash_no_netloc (h : string) :
  has_char "/" h = false ->
  exists r, Urllib.urlparse h = inr r /\ Urllib.netloc r = EmptyString.
Proof.
  intros H.
  assert (S : exists r, Urllib.urlsplit h = inr r /\ Urllib.netloc r = EmptyString).
  { unfold Urllib.urlsplit.
    set (u := Urllib.remove_unsafe (lstrip_by Urllib.c0_control_or_space h)).
    assert (Hu : has_char "/" u = false).
    { unfold u, Urllib.remove_unsafe.
      now repeat apply remove_keeps_absent; apply lstrip_keeps_absent. }
    destruct (Urllib.split_scheme u) as [scheme rest] eqn:E.
    pose proof (split_scheme_keeps_absent _ _ _ _ Hu E) as Hrest.
    assert (N : Urllib.split_netloc rest = inr (EmptyString, rest)).
    { unfold Urllib.split_netloc.
      destruct rest as [| c rest]; [reflexivity |].
      apply has_char_cons_false in Hrest. destruct Hrest as [Hc _].
      destruct (startswith "//" (String c rest)) eqn:P; [| reflexivity].
      apply startswith_cons in P. destruct P as [<- _]. discriminate Hc. }
    rewrite N. unfold rbind, pure.
    destruct (if has_char "#" rest then _ else _) as [u1 fragment].
    destruct (if has_char "?" u1 then _ else _) as [u2 query].
    eexists. split; reflexivity. }
  destruct S as [r [S1 S2]].
  unfold Urllib.urlparse. rewrite S1. unfold rbind, pure.
  destruct (_ && _); [destruct (Urllib.splitparams _) |]; eexists; split;
    try reflexivity; exact S2.
Qed.

Lemma renormalize_no_host (h : string) :
  has_char "/" h = false -> get_normalized_hostname_util (Some h) = inr None.
Proof.
  intros H. unfold get_normalized_hostname_util, pure.
  destruct (is_empty h); [reflexivity |].
  destruct (no_slash_no_netloc h H) as [r [P N]].
  unfold normalized_hostname. rewrite P. unfold rbind, Urllib.hostname.
  rewrite N. reflexivity.
Qed.

Lemma normalized_is_lower (x : option string) (h : string) :
  get_normalized_hostname_util x = inr (Some h) -> lower h = h.
Proof.
  destruct x as [s |]; [| discriminate].
  intros H. apply normalize_some, normalized_hostname_some in H.
  destruct H as [r [hn [_ [_ [-> | ->]]]]]; apply lower_idempotent.
Qed.

End HostFacts.

(** C6 (as amended): normalisation maps a URL to a bare host key, not to a
    URL. The key is already in canonical (lower) case, and normalising it
    once more finds no host in it. *)
Theorem C6_normalized_host_is_canonical_not_a_url :
  forall (x : option string) (h : string),
    Utils.get_normalized_hostname_util x = inr (Some h) ->
    PyStr.lower h = h
    /\ Utils.get_normalized_hostname_util (Some h) = inr None.
Proof.
  intros x h H. split.
  - now apply (HostFacts.normalized_is_lower x).
  - apply HostFacts.renormalize_no_host. now apply (HostFacts.normalized_no_slash x).
Qed.

Lemma C6_normalized_host_is_canonical_not_a_url_witness :
  PyStr.lower "example.com" = "example.com"
  /\ Utils.get_normalized_hostname_util (Some "example.com") = inr None.
Proof.
  apply (C6_normalized_host_is_canonical_not_a_url (Some "http://Example.com:80/x")).
  reflexivity.
Defined.

(** C6 (as stated) fails: normalising [http://Example.com:80/x] yields the
    host [example.com], and normalising that yields no host. *)
Lemma C6_not_idempotent :
  Utils.get_normalized_hostname_util (Some "http://Example.com:80/x") = inr (Some "example.com")
  /\ rbind (Utils.get_normalized_hostname_util (Some "http://Example.com:80/x"))
           Utils.get_normalized_hostname_util = inr None.
Proof. split; reflexivity. Qed.

(** ** The severity classifier *)

Module SeverityFacts.
Import PyStr Utils StrFacts UrlFacts Scanner.

Lemma lower_nonempty (s : string) : s <> EmptyString -> lower s <> EmptyString.
Proof. intros H C. apply lower_empty in C. contradiction. Qed.

Lemma truthy_netloc (r : Urllib.ParseResult) :
  truthy (netloc_or_none r) = negb (is_empty (Urllib.netloc r)).
Proof.
  unfold netloc_or_none.
  destruct (Urllib.netloc r) as [| c s]; reflexivity.
Qed.

Lemma netloc_eqb (a b : Urllib.ParseResult) :
  Urllib.netloc a <> EmptyString -> Urllib.netloc b <> EmptyString ->
  eqb_opt (netloc_or_none a) (netloc_or_none b)
  = String.eqb (lower (Urllib.netloc a)) (lower (Urllib.netloc b)).
Proof.
  unfold netloc_or_none. intros Ha Hb.
  apply is_empty_false in Ha, Hb. now rewrite Ha, Hb.
Qed.

Lemma third_rule (original payload final : string) :
  startswith_any ["http://"; "https://"; "//"] final = true ->
  startswith_any script_schemes final = false ->
  _is_external_redirect original final payload = false ->
  _determine_severity original payload (Some final)
  = inr (match Urllib.urlparse original, Urllib.urlparse final with
         | inr po, inr pf => Restated.by_netloc po pf
         | _, _ => Low
         end).
Proof.
  intros H1 H2 H3. unfold _determine_severity. rewrite H1, H2, H3.
  unfold rbind, pure, Restated.by_netloc.
  destruct (Urllib.urlparse original) as [e | po]; [reflexivity |].
  destruct (Urllib.urlparse final) as [e | pf]; [reflexivity |].
  rewrite !truthy_netloc.
  destruct (Urllib.netloc pf) as [| c s] eqn:Ef.
  - simpl. now rewrite andb_false_r.
  - destruct (Urllib.netloc po) as [| d t] eqn:Eo; [reflexivity |].
    simpl negb. cbn [andb].
    rewrite netloc_eqb by (rewrite ?Ef, ?Eo; discriminate).
    rewrite Ef, Eo.
    destruct (String.eqb _ _); reflexivity.
Qed.

End SeverityFacts.

(** C7 (as amended): off the two High rules and on a final location that
    starts with [http://], [https://] or [//], the classifier compares the
    netlocs as written, lower-cased, with userinfo and any explicit port
    and without stripping the default ports. It returns [Medium] exactly
    when both URLs parse and the final location has a netloc that differs
    from the original's (an absent one included), and [Low] otherwise:
    equal netlocs, no netloc in the final location, or a parse failure. *)
Theorem C7_severity_by_netloc :
  forall original payload final : string,
    PyStr.startswith_any ["http://"; "https://"; "//"] final = true ->
    PyStr.startswith_any Utils.script_schemes final = false ->
    Scanner._is_external_redirect original final payload = false ->
    exists sev,
      Scanner._determine_severity original payload (Some final) = inr sev
      /\ (sev = Scanner.Medium \/ sev = Scanner.Low)
      /\ (sev = Scanner.Medium <->
          exists po pf,
            Urllib.urlparse original = inr po /\ Urllib.urlparse final = inr pf
            /\ Urllib.netloc pf <> EmptyString
            /\ PyStr.lower (Urllib.netloc po) <> PyStr.lower (Urllib.netloc pf)).
Proof.
  intros original payload final H1 H2 H3.
  rewrite (SeverityFacts.third_rule original payload final H1 H2 H3).
  eexists. split; [reflexivity |].
  destruct (Urllib.urlparse original) as [e | po].
  { split; [now right |]. split; [discriminate |].
    intros [po [pf [C _]]]. discriminate C. }
  destruct (Urllib.urlparse final) as [e | pf].
  { split; [now right |]. split; [discriminate |].
    intros [po' [pf [_ [C _]]]]. discriminate C. }
  unfold Restated.by_netloc.
  destruct (PyStr.is_empty (Urllib.netloc pf)) eqn:Ef.
  { split; [now right |]. split; [discriminate |].
    intros [po' [pf' [_ [C [N _]]]]]. injection C as <-.
    apply StrFacts.is_empty_true in Ef. contradiction. }
  apply StrFacts.is_empty_false in Ef.
  destruct (String.eqb _ _) eqn:E.
  - split; [now right |]. split; [discriminate |].
    intros [po' [pf' [C1 [C2 [_ N]]]]]. injection C1 as <-. injection C2 as <-.
    apply String.eqb_eq in E. contradiction.
  - split; [now left |]. split; [| reflexivity].
    intros _. exists po, pf. repeat split; try assumption.
    now apply String.eqb_neq in E.
Qed.

Lemma C7_severity_by_netloc_witness :
  exists sev,
    Scanner._determine_severity "http://a.com" "http://evil.com" (Some "http://b.com") = inr sev
    /\ (sev = Scanner.Medium \/ sev = Scanner.Low)
    /\ (sev = Scanner.Medium <->
        exists po pf,
          Urllib.urlparse "http://a.com" = inr po /\ Urllib.urlparse "http://b.com" = inr pf
          /\ Urllib.netloc pf <> EmptyString
          /\ PyStr.lower (Urllib.netloc po) <> PyStr.lower (Urllib.netloc pf)).
Proof.
  apply (C7_severity_by_netloc "http://a.com" "http://evil.com" "http://b.com"); reflexivity.
Defined.

(** C7 (as stated) fails: [http://a.com:80/] and [http://a.com/x] have the
    same normalised host, neither High rule applies, and the redirect is
    classified [Medium], not [Low], because the netlocs [a.com:80] and
    [a.com] differ. *)
Lemma C7_default_port_counts :
  PyStr.startswith_any ["http://"; "https://"; "//"] "http://a.com/x" = true
  /\ PyStr.startswith_any Utils.script_schemes "http://a.com/x" = false
  /\ Scanner._is_external_redirect "http://a.com:80/" "http://a.com/x" "http://evil.com" = false
  /\ Utils.get_normalized_hostname_util (Some "http://a.com:80/") = inr (Some "a.com")
  /\ Utils.get_normalized_hostname_util (Some "http://a.com/x") = inr (Some "a.com")
  /\ Scanner._determine_severity "http://a.com:80/" "http://evil.com" (Some "http://a.com/x")
     = inr Scanner.Medium.
Proof. repeat split; reflexivity. Qed.

(** ** The session's redirect limit *)

Module SessionFacts.
Import PyStr Scanner.

(** A response that comes back is the peer's, and it redirects only
    under a positive limit. *)
Lemma session_request_some (config : Config) (answer : option Response) (r : Response) :
  session_request config answer = Some r ->
  answer = Some r /\ (redirects r = true -> (0 < max_redirects config)%Z).
Proof.
  unfold session_request. destruct answer as [a |]; [| discriminate].
  destruct (redirects a) eqn:R; cbn [andb].
  - destruct (max_redirects config <=? 0)%Z eqn:L; [discriminate |].
    intros H. injection H as <-. split; [reflexivity |]. intros _.
    apply Z.leb_gt in L. exact L.
  - intros H. injection H as <-. split; [reflexivity |]. rewrite R. discriminate.
Qed.



(** An answer that does not redirect comes back under any limit. *)
Lemma session_request_plain (config : Config) (r : Response) :
  redirects r = false -> session_request config (Some r) = Some r.
Proof. intros R. unfold session_request. now rewrite R. Qed.

End SessionFacts.

(** ** The header tester *)

Module HeaderFacts.
Import PyStr Utils StrFacts UrlFacts Scanner.

(** What an accepted location looks like once stripped. *)
Lemma validated_location (original final : string) (payload callback : option string) :
  validate_redirect original final payload callback = true ->
  startswith_any script_schemes (strip final) = true
  \/ exists h, get_normalized_hostname_util (Some (strip final)) = inr (Some h).
Proof.
  unfold validate_redirect. intros H.
  destruct (is_empty (strip final)); [discriminate H |].
  destruct (startswith_any script_schemes (strip final)); [now left | right].
  destruct (normalize_returns (Some original)) as [oh Ho].
  destruct (normalize_returns (Some (strip final))) as [rh Hr].
  rewrite Ho, Hr in H. simpl in H.
  destruct (get_normalized_hostname_util payload) as [e | ph]; [discriminate H |].
  simpl in H.
  destruct rh as [h |]; [eauto | discriminate H].
Qed.

End HeaderFacts.

(** C10 (as amended): a header attempt sends exactly one request and
    follows nothing; a result reports as final location the [Location]
    header of that one response as received; and it is vulnerable only if
    that value, with its surrounding white space stripped, begins with a
    script scheme or has a host that parses. *)
Theorem C10_header_tester_reads_one_response :
  forall (config : Scanner.Config) (server : Scanner.Server)
         (url header_name payload : string) (st : Scanner.State),
    let request := Scanner.mkRequest "GET" url [(header_name, payload)] [] [] false in
    let run := Scanner.test_header_injection config server url header_name payload st in
    snd run = Scanner.mkState (S (Scanner.total_requests st)) (request :: Scanner.history st)
    /\ forall r, fst run = Some r ->
         exists response,
           server (Scanner.history st) request = Some response
           /\ Scanner.final_location r
              = Scanner.headers_get "Location" (Scanner.headers response)
           /\ (Scanner.vulnerable r = true ->
               let location := PyStr.strip (Scanner.location_of response) in
               PyStr.startswith_any Utils.script_schemes location = true
               \/ exists h,
                    Utils.get_normalized_hostname_util (Some location) = inr (Some h)).
Proof.
  intros config server url header_name payload st request run.
  unfold run, Scanner.test_header_injection, Scanner.make_request, bind, ret.
  fold request.
  destruct (Scanner.session_request config (server (Scanner.history st) request))
    as [response |] eqn:E; [| split; [reflexivity | discriminate]].
  apply SessionFacts.session_request_some in E. destruct E as [E _].
  destruct (negb (Scanner.truthy_response (Some response)));
    [split; [reflexivity | discriminate] |].
  destruct (Scanner.is_redirect_status _ && negb (PyStr.is_empty _)) eqn:C1; simpl andb.
  - destruct (Utils.validate_redirect _ _ _ _) eqn:V; simpl;
      (split; [reflexivity |]); intros r R; injection R as <-;
      exists response; (split; [exact E |]); simpl.
    + apply andb_true_iff in C1. destruct C1 as [_ C1].
      apply negb_true_iff in C1. split.
      * unfold Scanner.location_of in *.
        destruct (Scanner.headers_get "Location" (Scanner.headers response));
          [reflexivity | discriminate C1].
      * intros _. exact (HeaderFacts.validated_location _ _ _ _ V).
    + split; [reflexivity | discriminate].
  - simpl. split; [reflexivity |]. intros r R. injection R as <-.
    exists response. split; [exact E |]. simpl.
    split; [reflexivity | discriminate].
Qed.

(** C10 (as stated) fails on its last part: a [Location] that does not
    begin with a script scheme and has no host that parses, because a
    vertical tab precedes [javascript:], yields a vulnerable finding. *)
Lemma C10_padded_script_uri_is_vulnerable :
  PyStr.startswith_any Utils.script_schemes Examples.padded_script_uri = false
  /\ Utils.get_normalized_hostname_util (Some Examples.padded_script_uri) = inr None
  /\ option_map Scanner.vulnerable
       (fst (Scanner.test_header_injection Examples.default_config
               (Examples.always_redirects Examples.padded_script_uri)
               "http://site.test/" "X-Forwarded-Host" "evil.com" Examples.initial))
     = Some true.
Proof. repeat split; reflexivity. Qed.

(** ** The redirect chain of the URL-parameter tester *)

Module ChainFacts.
Import PyStr Scanner.

Section WithPeer.

Variable lib : Library.
Variable config : Config.
Variable server : Server.


End WithPeer.





End ChainFacts.

(** ** The URL-parameter tester *)

Module ParameterFacts.
Import PyStr Utils Scanner.

(** A final location without a host is never an external redirect. *)
Lemma hostless_not_external (original final payload : string) :
  get_normalized_hostname final = inr None ->
  _is_external_redirect original final payload = false.
Proof.
  intros H. unfold _is_external_redirect, rbind, pure. rewrite H.
  destruct (get_normalized_hostname original) as [e | oh]; [reflexivity |].
  destruct (get_normalized_hostname payload) as [e | ph]; reflexivity.
Qed.

(** The nested normaliser is the [try] block of the one in utils.py. *)
Lemma nested_normalizer (url_str : string) :
  get_normalized_hostname url_str = normalized_hostname url_str.
Proof. reflexivity. Qed.

Section WithPeer.

Variable lib : Library.
Variable config : Config.
Variable server : Server.

(** The meta refresh branch never returns its finding: the severity call
    raises inside the [try]. *)
Lemma check_meta_refresh_falls_through parsed test_url url param payload content r st :
  fst (check_meta_refresh lib config server parsed test_url url param payload content r st)
  = None.
Proof.
  unfold check_meta_refresh, bind, ret, make_request.
  destruct (_ || _); [| reflexivity].
  destruct (re_search lib meta_pattern content) as [redirect_url |]; [| reflexivity].
  destruct (session_request config _) as [f |]; [| reflexivity].
  destruct (_ && _ && _); reflexivity.
Qed.

(** Nor does the script branch: its [return] raises, or no match passes. *)
Lemma javascript_matches_no_finding parsed test_url url param payload r matches :
  forall st finding,
    fst (javascript_matches config server parsed test_url url param payload r matches st)
    <> inr (Some finding).
Proof.
  induction matches as [| m rest IH]; intros st finding; simpl.
  - discriminate.
  - destruct (validate_redirect payload m (callback_url config) None); [| apply IH].
    destruct (startswith "/" m); [| discriminate].
    unfold bind, make_request.
    destruct (session_request config _) as [f |]; [| apply IH].
    destruct (_ || _); [apply IH | discriminate].
Qed.

Lemma javascript_patterns_no_finding parsed test_url url param payload content r patterns :
  forall st finding,
    fst (javascript_patterns lib config server parsed test_url url param payload content r
           patterns st)
    <> inr (Some finding).
Proof.
  induction patterns as [| p rest IH]; intros st finding; simpl.
  - discriminate.
  - unfold bind.
    destruct (javascript_matches _ _ _ _ _ _ _ _ _ st) as [[e | [f |]] st1] eqn:E.
    + discriminate.
    + exfalso.
      apply (javascript_matches_no_finding parsed test_url url param payload r
               (re_findall lib p content) st f).
      now rewrite E.
    + apply IH.
Qed.

(** Every vulnerable result of the tester comes from a redirect status. *)
Lemma vulnerable_only_by_redirect url param payload st r :
  fst (test_url_parameter lib config server url param payload st) = Some r ->
  vulnerable r = true ->
  method r = Some "URL Parameter".
Proof.
  unfold test_url_parameter.
  destruct (Urllib.urlparse url) as [e | parsed]; [discriminate |].
  unfold bind at 1. unfold make_request at 1.
  destruct (session_request config _) as [response |]; [| discriminate].
  destruct (negb (truthy_response (Some response))); [discriminate |].
  unfold bind at 1.
  destruct (resolve_redirects _ _ _ _ _ _) as [[c |] st1].
  - destruct (_ && _); unfold ret; simpl; intros H; injection H as <-; simpl; congruence.
  - destruct (status_code response =? 200)%Z.
    2:{ unfold ret; simpl; intros H; injection H as <-; simpl; congruence. }
    unfold bind at 1.
    pose proof (check_meta_refresh_falls_through parsed
                  (build_test_url lib parsed param payload) url param payload
                  (lower (text response)) response st1) as Hm.
    destruct (check_meta_refresh _ _ _ _ _ _ _ _ _ _ _) as [meta st2].
    simpl in Hm. subst meta.
    unfold bind at 1.
    pose proof (javascript_patterns_no_finding parsed
                  (build_test_url lib parsed param payload) url param payload
                  (lower (text response)) response js_patterns st2) as Hj.
    destruct (javascript_patterns _ _ _ _ _ _ _ _ _ _ _ _) as [[e | [f |]] st3].
    + discriminate.
    + exfalso. now apply (Hj f).
    + unfold ret; simpl; intros H; injection H as <-; simpl; congruence.
Qed.

(** A chain that ends in a location without a host yields the
    non-vulnerable result. *)
Lemma hostless_terminal_not_vulnerable url param payload st parsed response st1 c st2 :
  Urllib.urlparse url = inr parsed ->
  make_request config server (build_test_url lib parsed param payload) "GET" [] [] false st
  = (Some response, st1) ->
  truthy_response (Some response) = true ->
  resolve_redirects lib config server (build_test_url lib parsed param payload) response st1
  = (Some c, st2) ->
  get_normalized_hostname (final c) = inr None ->
  test_url_parameter lib config server url param payload st
  = (Some (non_vulnerable_parameter_result (build_test_url lib parsed param payload)
             url param payload response), st2).
Proof.
  intros Hp Hreq Ht Hres Hhost.
  unfold test_url_parameter. rewrite Hp.
  unfold bind at 1. rewrite Hreq, Ht. cbn [negb].
  unfold bind at 1. rewrite Hres.
  rewrite (hostless_not_external url (final c) payload Hhost), andb_false_r.
  reflexivity.
Qed.


End WithPeer.

End ParameterFacts.




(** C3 (what the code does instead): a chain of the URL-parameter tester
    that ends in a location without a host, such as [javascript:alert(1)],
    gives the non-vulnerable result, the script scheme notwithstanding. *)
Theorem C3_script_uri_terminal_reported_not_vulnerable :
  forall (lib : Library) (config : Scanner.Config) (server : Scanner.Server)
         (url param payload : string) (st st1 st2 : Scanner.State)
         (parsed : Urllib.ParseResult) (response : Scanner.Response) (c : Scanner.Chain),
    Urllib.urlparse url = inr parsed ->
    Scanner.make_request config server (Scanner.build_test_url lib parsed param payload)
      "GET" [] [] false st = (Some response, st1) ->
    Scanner.truthy_response (Some response) = true ->
    Scanner.resolve_redirects lib config server
      (Scanner.build_test_url lib parsed param payload) response st1 = (Some c, st2) ->
    Scanner.get_normalized_hostname (Scanner.final c) = inr None ->
    exists r,
      Scanner.test_url_parameter lib config server url param payload st = (Some r, st2)
      /\ Scanner.vulnerable r = false.
Proof.
  intros lib config server url param payload st st1 st2 parsed response c Hp Hreq Ht Hres Hh.
  eexists. split.
  - eapply ParameterFacts.hostless_terminal_not_vulnerable; eassumption.
  - reflexivity.
Qed.

Lemma C3_script_uri_terminal_reported_not_vulnerable_witness :
  exists r,
    Scanner.test_url_parameter Examples.example_library Examples.default_config
      (Examples.redirects_once "javascript:alert(1)")
      "http://site.test/login" "url" "javascript:alert(1)" Examples.initial
    = (Some r,
       Scanner.mkState 2
         [Scanner.mkRequest "GET" "javascript:alert(1)" [] [] [] false;
          Scanner.mkRequest "GET" "http://site.test/login?url=javascript%3Aalert%281%29"
            [] [] [] false])
    /\ Scanner.vulnerable r = false.
Proof.
  apply (C3_script_uri_terminal_reported_not_vulnerable Examples.example_library
           Examples.default_config (Examples.redirects_once "javascript:alert(1)")
           "http://site.test/login" "url" "javascript:alert(1)" Examples.initial
           (Scanner.mkState 1
              [Scanner.mkRequest "GET" "http://site.test/login?url=javascript%3Aalert%281%29"
                 [] [] [] false])
           (Scanner.mkState 2
              [Scanner.mkRequest "GET" "javascript:alert(1)" [] [] [] false;
               Scanner.mkRequest "GET" "http://site.test/login?url=javascript%3Aalert%281%29"
                 [] [] [] false])
           (Urllib.mkParseResult "http" "site.test" "/login" "" "" "")
           (Examples.redirect_to "javascript:alert(1)")
           (Scanner.mkChain ["javascript:alert(1)"] "javascript:alert(1)"
              [("Location", "javascript:alert(1)")]));
    vm_compute; reflexivity.
Defined.

(** C4 (what the code does instead): no vulnerable result of the
    URL-parameter tester carries the method [Meta Refresh]; a vulnerable
    result always comes from a redirect status. And on a page whose meta
    refresh target answers 200 and passes the validator, both as the
    tester calls it and with the arguments in their declared order, the
    tester returns a non-vulnerable result after the follow-up request. *)
Theorem C4_meta_refresh_finding_never_returned :
  (forall (lib : Library) (config : Scanner.Config) (server : Scanner.Server)
          (url param payload : string) (st : Scanner.State) (r : Scanner.Result),
     fst (Scanner.test_url_parameter lib config server url param payload st) = Some r ->
     Scanner.vulnerable r = true ->
     Scanner.method r = Some "URL Parameter")
  /\ (let content := PyStr.lower Examples.meta_refresh_page in
      let run :=
        Scanner.test_url_parameter Examples.meta_library Examples.callback_config
          (Examples.serves Examples.meta_refresh_page)
          "http://site.test/login" "url" "http://evil.com" Examples.initial in
      re_search Examples.meta_library Scanner.meta_pattern content
      = Some "http://cb.test/landing"
      /\ Utils.validate_redirect "http://evil.com" "http://cb.test/landing"
           (Scanner.callback_url Examples.callback_config) None = true
      /\ Utils.validate_redirect "http://site.test/login" "http://cb.test/landing"
           (Some "http://evil.com") (Scanner.callback_url Examples.callback_config) = true
      /\ option_map Scanner.vulnerable (fst run) = Some false
      /\ option_map Scanner.method (fst run) = Some None
      /\ map Scanner.req_url (Scanner.history (snd run))
         = ["http://cb.test/landing"; "http://site.test/login?url=http%3A%2F%2Fevil.com"]).
Proof.
  split.
  - intros lib config server url param payload st r.
    apply ParameterFacts.vulnerable_only_by_redirect.
  - vm_compute. repeat split; reflexivity.
Qed.

Lemma C4_meta_refresh_finding_never_returned_witness :
  option_map Scanner.method
    (fst (Scanner.test_url_parameter Examples.example_library Examples.default_config
            (Examples.always_redirects "http://evil.com/")
            "http://site.test/login" "url" "http://evil.com" Examples.initial))
  = Some (Some "URL Parameter").
Proof.
  destruct (fst (Scanner.test_url_parameter Examples.example_library Examples.default_config
            (Examples.always_redirects "http://evil.com/")
            "http://site.test/login" "url" "http://evil.com" Examples.initial))
    as [r |] eqn:E; [| discriminate E].
  simpl. do 2 f_equal.
  apply (proj1 C4_meta_refresh_finding_never_returned _ _ _ _ _ _ _ r E).
  injection E as <-. reflexivity.
Defined.

(** ** The orchestrator *)

Module OrchestrationFacts.
Import PyStr Utils Scanner Orchestration.

Lemma enrich_vulnerable (r : Result) : vulnerable (enrich r) = vulnerable r.
Proof. reflexivity. Qed.

Lemma process_results_vulnerable (batch : list Result) :
  existsb vulnerable (process_results batch) = existsb vulnerable batch.
Proof.
  induction batch as [| r batch IH]; simpl; [reflexivity |].
  rewrite IH. destruct (vulnerable r) eqn:E; [| now rewrite E].
  now rewrite enrich_vulnerable, E.
Qed.

Lemma process_results_app (a b : list Result) :
  process_results (a ++ b) = (process_results a ++ process_results b)%list.
Proof. apply map_app. Qed.

Section WithPeer.

Variable lib : Library.
Variable config : Config.
Variable payload_manager : PayloadManager.
Variable server : Server.

(** Running two lists of steps one after the other. *)
Lemma run_attempts_app (a b : list Attempt) :
  forall results st,
    run_attempts (fast config) (a ++ b)%list results st
    = match run_attempts (fast config) a results st with
      | (inr (Continue results'), st') => run_attempts (fast config) b results' st'
      | other => other
      end.
Proof.
  induction a as [| x a IH]; intros results st; simpl; [reflexivity |].
  unfold bind. destruct (x st) as [[e | found] st1]; [reflexivity |].
  destruct (fast config && existsb vulnerable found); [reflexivity |].
  apply IH.
Qed.

(** The inner loop of the parameter and header phases runs its steps. *)
Lemma injection_payloads_runs test name :
  forall payloads l st,
    flag_down config l ->
    exists r st',
      injection_payloads config test name payloads l st = (r, st')
      /\ run_attempts (fast config) (map (fun p => of_tester (test name p)) payloads) (fst l) st = (forget r, st')
      /\ (forall l', r = Continue l' -> flag_down config l').
Proof.
  induction payloads as [| p payloads IH]; intros l st Hl; simpl.
  - exists (Continue l), st. unfold ret. repeat split. intros l' E. now injection E as <-.
  - unfold bind, of_tester, bind, ret, pure.
    destruct (test name p st) as [[result |] st1].
    + cbn [process_results map]. cbn [existsb]. rewrite orb_false_r.
      destruct (vulnerable result) eqn:V.
      * rewrite enrich_vulnerable, V, andb_true_r.
        destruct (fast config) eqn:F.
        -- exists (Return (fst l ++ [enrich result])%list), st1.
           repeat split. discriminate.
        -- destruct (IH ((fst l ++ [enrich result])%list, true) st1) as [r [st' [R1 [R2 R3]]]].
           { intros C. rewrite F in C. discriminate C. }
           exists r, st'. try rewrite F in R2. repeat split; assumption.
      * rewrite V, andb_false_r.
        destruct (IH ((fst l ++ [result])%list, snd l) st1) as [r [st' [R1 [R2 R3]]]].
        { exact Hl. }
        exists r, st'. repeat split; assumption.
    + cbn [existsb]. rewrite andb_false_r, app_nil_r.
      destruct (IH l st1 Hl) as [r [st' [R1 [R2 R3]]]].
      exists r, st'. repeat split; assumption.
Qed.

(** So does the outer loop, whose [break] never fires. *)
Lemma injection_loop_runs test :
  forall names payloads l st,
    flag_down config l ->
    exists r st',
      injection_loop config test names payloads l st = (r, st')
      /\ run_attempts (fast config) (attempts_over test names payloads) (fst l) st = (forget r, st')
      /\ (forall l', r = Continue l' -> flag_down config l').
Proof.
  induction names as [| name names IH]; intros payloads l st Hl; simpl.
  - exists (Continue l), st. unfold ret. repeat split. intros l' E. now injection E as <-.
  - assert (B : snd l && fast config = false).
    { destruct (fast config) eqn:F; [| apply andb_false_r].
      unfold flag_down in Hl. rewrite (Hl F). reflexivity. }
    rewrite B. unfold attempts_over. cbn [flat_map]. rewrite run_attempts_app.
    destruct (injection_payloads_runs test name payloads l st Hl) as [r [st1 [R1 [R2 R3]]]].
    unfold bind. rewrite R1, R2.
    destruct r as [l1 | results]; cbn [forget pure].
    + destruct (IH payloads l1 st1 (R3 l1 eq_refl)) as [r' [st' [Q1 [Q2 Q3]]]].
      exists r', st'. repeat split; assumption.
    + exists (Return results), st1. unfold ret. repeat split. discriminate.
Qed.

Lemma cookie_attempt_vulnerable url name payload st finding st' :
  cookie_attempt lib config server url name payload st = (Some finding, st') ->
  vulnerable finding = true.
Proof.
  unfold cookie_attempt, bind, ret, make_request.
  destruct (session_request config _) as [r |]; [| discriminate].
  destruct (_ && _); [| discriminate].
  destruct (follow_one_hop _ _ _ _ _ _) as [[redirect_chain final_location] st1].
  destruct (validate_redirect _ _ _ _); [| discriminate].
  intros H. injection H as <- _. reflexivity.
Qed.

(** The loops of the cookie tester run its steps, on top of the results
    the scan holds. *)
Lemma cookie_payloads_runs url name base :
  forall payloads found st,
    exists r st',
      cookie_payloads lib config server url name payloads found st = (r, st')
      /\ run_attempts (fast config) (map (fun p => of_tester (cookie_attempt lib config server url name p)) payloads)
             (base ++ process_results found) st
         = (onto base r, st').
Proof.
  induction payloads as [| p payloads IH]; intros found st; simpl.
  - exists (Continue found), st. unfold ret. split; reflexivity.
  - unfold bind, of_tester, bind, ret, pure.
    destruct (cookie_attempt lib config server url name p st) as [[finding |] st1] eqn:E.
    + apply cookie_attempt_vulnerable in E.
      cbn [process_results map existsb]. rewrite E, orb_false_r, enrich_vulnerable, E, andb_true_r.
      destruct (fast config) eqn:F.
      * exists (Return (found ++ [finding])%list), st1. split; [reflexivity |].
        cbn [onto pure]. rewrite process_results_app, app_assoc.
        cbn [process_results map]. now rewrite E.
      * destruct (IH (found ++ [finding])%list st1) as [r [st' [R1 R2]]].
        exists r, st'. split; [exact R1 |].
        rewrite process_results_app, app_assoc in R2.
        cbn [process_results map] in R2. rewrite E in R2. exact R2.
    + cbn [existsb]. rewrite andb_false_r, app_nil_r.
      destruct (IH found st1) as [r [st' [R1 R2]]].
      exists r, st'. split; assumption.
Qed.

Lemma cookie_loop_runs url base :
  forall names payloads found st,
    exists results st',
      cookie_loop lib config server url names payloads found st = (results, st')
      /\ collapse (run_attempts (fast config) (attempts_over (cookie_attempt lib config server url) names payloads)
                       (base ++ process_results found) st)
         = (inr (base ++ process_results results)%list, st').
Proof.
  induction names as [| name names IH]; intros payloads found st; simpl.
  - exists found, st. split; reflexivity.
  - unfold attempts_over. cbn [flat_map]. rewrite run_attempts_app.
    destruct (cookie_payloads_runs url name base payloads found st) as [r [st1 [R1 R2]]].
    unfold bind. rewrite R1, R2.
    destruct r as [found1 | results]; cbn [onto pure].
    + apply IH.
    + exists results, st1. split; reflexivity.
Qed.

Lemma scan_cookies_runs url results st :
  scan_cookies lib config server url results st
  = collapse (run_attempts (fast config) (attempts_over (cookie_attempt lib config server url) cookie_names
                     (test_payloads config)) results st).
Proof.
  unfold scan_cookies, test_cookie_redirects, bind.
  destruct (cookie_loop_runs url results cookie_names (test_payloads config) [] st)
    as [found [st' [R1 R2]]].
  cbn [process_results map] in R2. rewrite app_nil_r in R2.
  rewrite R1, R2.
  destruct found; [cbn [process_results map]; now rewrite app_nil_r | reflexivity].
Qed.

Lemma scan_forms_runs url results st :
  scan_forms lib config server url results st
  = collapse (run_attempts (fast config) (form_tester lib config server url
                   :: attempts_over (cookie_attempt lib config server url) cookie_names
                        (test_payloads config)) results st).
Proof.
  unfold scan_forms. cbn [run_attempts]. unfold form_tester, bind, ret, rbind, pure.
  destruct (test_form_redirects lib config server url st) as [[e | batch] st1];
    [reflexivity |].
  rewrite process_results_vulnerable.
  destruct batch as [| r batch].
  - cbn [process_results map existsb]. rewrite andb_false_r, app_nil_r.
    apply scan_cookies_runs.
  - destruct (fast config && existsb vulnerable (r :: batch)); [reflexivity |].
    apply scan_cookies_runs.
Qed.

Lemma scan_headers_runs url l st :
  flag_down config l ->
  scan_headers lib config payload_manager server url l st
  = collapse (run_attempts (fast config) ((if headers_test config
                    then attempts_over (test_header_injection config server url) header_names
                           (effective_payloads config (get_header_payloads payload_manager))
                    else [])
                   ++ form_tester lib config server url
                   :: attempts_over (cookie_attempt lib config server url) cookie_names
                        (test_payloads config))%list (fst l) st).
Proof.
  intros Hl. unfold scan_headers. rewrite run_attempts_app. unfold bind.
  destruct (headers_test config).
  - destruct (injection_loop_runs (test_header_injection config server url) header_names
                (effective_payloads config (get_header_payloads payload_manager)) l st Hl)
      as [r [st1 [R1 [R2 _]]]].
    rewrite R1, R2. destruct r as [l1 | results]; cbn [forget pure].
    + apply scan_forms_runs.
    + reflexivity.
  - unfold ret. cbn [run_attempts]. unfold ret, pure. apply scan_forms_runs.
Qed.

(** The scan of a target is the run of its schedule. *)
Lemma scan_single_url_runs url st :
  scan_single_url lib config payload_manager server url st
  = collapse (run_attempts (fast config) (schedule lib config payload_manager server url) [] st).
Proof.
  unfold scan_single_url, schedule. rewrite run_attempts_app. unfold bind.
  destruct (injection_loop_runs (test_url_parameter lib config server url)
              (redirect_params_of lib url)
              (effective_payloads config (get_payloads payload_manager)) ([], false) st)
    as [r [st1 [R1 [R2 R3]]]].
  { intros _. reflexivity. }
  rewrite R1. cbn [fst] in R2. rewrite R2.
  destruct r as [l1 | results]; cbn [forget pure].
  - rewrite (scan_headers_runs url l1 st1 (R3 l1 eq_refl)).
    change (form_tester lib config server url
            :: attempts_over (cookie_attempt lib config server url) cookie_names
                 (test_payloads config))
      with ([form_tester lib config server url]
            ++ attempts_over (cookie_attempt lib config server url) cookie_names
                 (test_payloads config))%list.
    reflexivity.
  - reflexivity.
Qed.

End WithPeer.

(** With the stop on, a run is the fast mode of the specification. *)
Lemma run_stopping (attempts : list Attempt) :
  forall results st,
    collapse (run_attempts true attempts results st)
    = run_until_vulnerable attempts results st.
Proof.
  induction attempts as [| a attempts IH]; intros results st; simpl; [reflexivity |].
  unfold bind. destruct (a st) as [[e | found] st1]; [reflexivity |].
  destruct (existsb vulnerable found); [reflexivity | apply IH].
Qed.

(** With the stop off, it is the accumulation of every step. *)
Lemma run_accumulating (attempts : list Attempt) :
  forall results st,
    collapse (run_attempts false attempts results st) = run_all attempts results st.
Proof.
  induction attempts as [| a attempts IH]; intros results st; simpl; [reflexivity |].
  unfold bind. destruct (a st) as [[e | found] st1]; [reflexivity | apply IH].
Qed.

End OrchestrationFacts.

(** ** Findings in a fast scan *)

Module FastFacts.
Import PyStr Utils Scanner Orchestration.

Lemma of_tester_single (t : M State (option Result)) : single (of_tester t).
Proof.
  unfold single, of_tester, bind, ret, pure. intros st found st' H.
  destruct (t st) as [[r |] st1]; injection H as <- _; simpl; lia.
Qed.

Lemma attempts_over_single test names payloads :
  Forall single (attempts_over test names payloads).
Proof.
  unfold attempts_over. apply Forall_flat_map, Forall_forall. intros name _.
  apply Forall_map, Forall_forall. intros p _. apply of_tester_single.
Qed.

Section WithPeer.

Variable lib : Library.
Variable config : Config.
Variable payload_manager : PayloadManager.
Variable server : Server.

(** The POST of the form tester is never sent. *)
Lemma form_attempt_raises url param payload st :
  form_attempt lib config server url param payload st
  = (inl AttributeError, mkState (S (total_requests st)) (history st)).
Proof. reflexivity. Qed.

Lemma form_parameters_raises url param params payload payloads results st :
  fst (form_parameters lib config server url (param :: params) (payload :: payloads)
         results st)
  = inl AttributeError.
Proof. reflexivity. Qed.

(** The form tester finds no form, or raises. *)
Lemma test_form_redirects_outcome url st :
  fst (test_form_redirects lib config server url st) = inr []
  \/ fst (test_form_redirects lib config server url st) = inl AttributeError.
Proof.
  unfold test_form_redirects, bind, make_request.
  destruct (session_request config _) as [r |]; [| now left].
  destruct (_ || _); [now left |].
  destruct (negb _); [now left |].
  right. unfold form_params, test_payloads.
  destruct (fast config); apply form_parameters_raises.
Qed.

Lemma form_tester_single url : single (form_tester lib config server url).
Proof.
  unfold single, form_tester, bind, ret. intros st found st' H.
  pose proof (test_form_redirects_outcome url st) as O.
  destruct (test_form_redirects lib config server url st) as [r st1].
  simpl in O. destruct O as [-> | ->]; [| discriminate H].
  injection H as <- _. simpl. lia.
Qed.

Lemma schedule_single url :
  Forall single (schedule lib config payload_manager server url).
Proof.
  unfold schedule.
  apply Forall_app; split; [apply attempts_over_single |].
  apply Forall_app; split.
  { destruct (headers_test config); [apply attempts_over_single | constructor]. }
  apply Forall_app; split.
  - constructor; [apply form_tester_single | constructor].
  - apply attempts_over_single.
Qed.

End WithPeer.

Lemma vulnerable_in_prefix (x r : Result) (post : list Result) :
  vulnerable r = true ->
  forall results pre,
    existsb vulnerable results = false ->
    (results ++ [x])%list = (pre ++ r :: post)%list ->
    post = [].
Proof.
  intros Hr. induction results as [| a results IH]; intros pre Hres E.
  - destruct pre as [| p pre]; simpl in E.
    + now injection E as _ <-.
    + injection E as _ E. now apply app_cons_not_nil in E.
  - simpl in Hres. apply orb_false_iff in Hres. destruct Hres as [Ha Hres].
    destruct pre as [| p pre]; simpl in E; injection E as E1 E2.
    + congruence.
    + now apply (IH pre).
Qed.

(** A run that stops at the first vulnerable finding returns it last. *)
Lemma run_until_vulnerable_returns_it_last (attempts : list Attempt) :
  Forall single attempts ->
  forall results st rs st',
    existsb vulnerable results = false ->
    run_until_vulnerable attempts results st = (inr rs, st') ->
    forall pre r post,
      rs = (pre ++ r :: post)%list -> vulnerable r = true -> post = [].
Proof.
  induction 1 as [| a attempts Ha _ IH]; intros results st rs st' Hres Hrun pre r post E Hr.
  - simpl in Hrun. unfold ret, pure in Hrun. injection Hrun as <- <-.
    assert (C : existsb vulnerable (pre ++ r :: post) = true).
    { apply existsb_exists. exists r. split; [| exact Hr].
      apply in_or_app. right. now left. }
    rewrite <- E in C. congruence.
  - simpl in Hrun. unfold bind in Hrun.
    destruct (a st) as [[e | found] st1] eqn:Ea; [discriminate Hrun |].
    destruct (existsb vulnerable found) eqn:V.
    + unfold ret, pure in Hrun. injection Hrun as <- <-.
      pose proof (Ha st found st1 Ea) as L.
      destruct found as [| x [| y found]]; [discriminate V | | simpl in L; lia].
      eapply vulnerable_in_prefix; [exact Hr | exact Hres | exact E].
    + refine (IH (results ++ found)%list st1 rs st' _ Hrun pre r post E Hr).
      rewrite existsb_app, Hres, V. reflexivity.
Qed.

End FastFacts.

(** C8: in fast mode [scan_single_url] is the run of its schedule that
    stops at the first step yielding a vulnerable finding and returns the
    results collected so far: no later tester, payload or parameter is
    tried. In what it returns, a vulnerable finding is the last entry. *)
Theorem C8_fast_mode_stops_at_first_vulnerable :
  forall (lib : Library) (config : Scanner.Config)
         (payload_manager : Scanner.PayloadManager) (server : Scanner.Server)
         (url : string) (st : Scanner.State),
    Scanner.fast config = true ->
    Scanner.scan_single_url lib config payload_manager server url st
    = Scanner.run_until_vulnerable
        (Scanner.schedule lib config payload_manager server url) [] st
    /\ (forall results st',
          Scanner.scan_single_url lib config payload_manager server url st
          = (inr results, st') ->
          forall pre r post,
            results = (pre ++ r :: post)%list ->
            Scanner.vulnerable r = true -> post = []).
Proof.
  intros lib config payload_manager server url st F.
  assert (E : Scanner.scan_single_url lib config payload_manager server url st
              = Scanner.run_until_vulnerable
                  (Scanner.schedule lib config payload_manager server url) [] st).
  { rewrite OrchestrationFacts.scan_single_url_runs, F.
    apply OrchestrationFacts.run_stopping. }
  split; [exact E |].
  intros results st' Hrun. rewrite E in Hrun.
  apply (FastFacts.run_until_vulnerable_returns_it_last
           (Scanner.schedule lib config payload_manager server url)
           (FastFacts.schedule_single lib config payload_manager server url)
           [] st results st' eq_refl Hrun).
Qed.

Lemma C8_fast_mode_stops_at_first_vulnerable_witness :
  Scanner.scan_single_url Examples.example_library Examples.fast_config
    Examples.one_payload (Examples.always_redirects "http://evil.com/")
    "http://site.test/login" Examples.initial
  = Scanner.run_until_vulnerable
      (Scanner.schedule Examples.example_library Examples.fast_config
         Examples.one_payload (Examples.always_redirects "http://evil.com/")
         "http://site.test/login") [] Examples.initial
  /\ (forall results st',
        Scanner.scan_single_url Examples.example_library Examples.fast_config
          Examples.one_payload (Examples.always_redirects "http://evil.com/")
          "http://site.test/login" Examples.initial
        = (inr results, st') ->
        forall pre r post,
          results = (pre ++ r :: post)%list ->
          Scanner.vulnerable r = true -> post = []).
Proof.
  apply (C8_fast_mode_stops_at_first_vulnerable Examples.example_library
           Examples.fast_config Examples.one_payload
           (Examples.always_redirects "http://evil.com/")
           "http://site.test/login" Examples.initial).
  reflexivity.
Defined.

(** ** Exceptions in a scan *)

Module ErrorFacts.
Import PyStr Utils Scanner Orchestration.

(** Accumulating over two lists of steps one after the other. *)
Lemma run_all_app (a b : list Attempt) :
  forall results st,
    run_all (a ++ b)%list results st
    = match run_all a results st with
      | (inr results', st') => run_all b results' st'
      | other => other
      end.
Proof.
  induction a as [| x a IH]; intros results st; simpl; [reflexivity |].
  unfold bind. destruct (x st) as [[e | found] st1]; [reflexivity | apply IH].
Qed.

(** The steps made of a tester that returns a result or [None] do not
    raise, and so their accumulation completes. *)
Lemma run_all_testers test names payloads :
  forall results st,
    exists results' st',
      run_all (attempts_over test names payloads) results st = (inr results', st').
Proof.
  unfold attempts_over.
  induction names as [| name names IH]; intros results st; cbn [flat_map].
  - exists results, st. reflexivity.
  - rewrite run_all_app.
    assert (Inner : forall results st,
               exists results' st',
                 run_all (map (fun p => of_tester (test name p)) payloads) results st
                 = (inr results', st')).
    { clear. induction payloads as [| p payloads IHp]; intros results st; cbn [map run_all].
      - exists results, st. reflexivity.
      - unfold bind, of_tester, bind, ret, pure.
        destruct (test name p st) as [r st1]. apply IHp. }
    destruct (Inner results st) as [results1 [st1 ->]]. apply IH.
Qed.

Section WithPeer.

Variable lib : Library.
Variable config : Config.
Variable server : Server.

(** On a page with a form the form tester raises at its first POST,
    which it has counted and does not send. *)
Lemma test_form_redirects_raises url st page :
  server (history st) (mkRequest "GET" url [] [] [] true) = Some page ->
  status_code page = 200%Z ->
  contains "<form" (lower (text page)) = true ->
  test_form_redirects lib config server url st
  = (inl AttributeError,
     mkState (S (S (total_requests st))) (mkRequest "GET" url [] [] [] true :: history st)).
Proof.
  intros Hs Hc Hf. unfold test_form_redirects, bind, make_request.
  rewrite Hs, SessionFacts.session_request_plain.
  2:{ unfold redirects. now rewrite Hc. }
  assert (T : truthy_response (Some page) = true)
    by (unfold truthy_response; rewrite Hc; reflexivity).
  rewrite T, Hc, Hf. cbn [negb orb Z.eqb Pos.eqb].
  unfold form_params, test_payloads. destruct (fast config); reflexivity.
Qed.

End WithPeer.

End ErrorFacts.

(** C9 (what the code does instead): when not in fast mode
    [scan_single_url] is the run of every step of its schedule, and an
    exception raised by a step ends it. The URL-parameter and header
    steps complete and leave their results; then, on a target whose page
    holds a form, the form tester raises [AttributeError] at its first
    POST and the scan raises with it: the results held so far are not
    returned and the cookie tester does not run. A cookie attempt, for
    its part, returns a result only when it is vulnerable. *)
Theorem C9_form_tester_error_discards_results :
  forall (lib : Library) (config : Scanner.Config)
         (payload_manager : Scanner.PayloadManager) (server : Scanner.Server)
         (url : string) (st : Scanner.State),
    Scanner.fast config = false ->
    let earlier_steps :=
      (Scanner.attempts_over (Scanner.test_url_parameter lib config server url)
         (Scanner.redirect_params_of lib url)
         (Scanner.effective_payloads config (Scanner.get_payloads payload_manager))
       ++ (if Scanner.headers_test config
           then Scanner.attempts_over (Scanner.test_header_injection config server url)
                  Scanner.header_names
                  (Scanner.effective_payloads config
                     (Scanner.get_header_payloads payload_manager))
           else []))%list in
    let probe := Scanner.mkRequest "GET" url [] [] [] true in
    Scanner.scan_single_url lib config payload_manager server url st
    = Scanner.run_all (Scanner.schedule lib config payload_manager server url) [] st
    /\ (exists earlier st1,
          Scanner.run_all earlier_steps [] st = (inr earlier, st1)
          /\ forall page,
               server (Scanner.history st1) probe = Some page ->
               Scanner.status_code page = 200%Z ->
               PyStr.contains "<form" (PyStr.lower (Scanner.text page)) = true ->
               Scanner.scan_single_url lib config payload_manager server url st
               = (inl AttributeError,
                  Scanner.mkState (S (S (Scanner.total_requests st1)))
                    (probe :: Scanner.history st1)))
    /\ (forall cookie_name payload st0 finding st1,
          Scanner.cookie_attempt lib config server url cookie_name payload st0
          = (Some finding, st1) ->
          Scanner.vulnerable finding = true).
Proof.
  intros lib config payload_manager server url st F earlier_steps probe.
  assert (E : Scanner.scan_single_url lib config payload_manager server url st
              = Scanner.run_all (Scanner.schedule lib config payload_manager server url) [] st).
  { rewrite OrchestrationFacts.scan_single_url_runs, F.
    apply OrchestrationFacts.run_accumulating. }
  split; [exact E |]. split.
  - assert (R : exists earlier st1,
               Scanner.run_all earlier_steps [] st = (inr earlier, st1)).
    { unfold earlier_steps. rewrite ErrorFacts.run_all_app.
      destruct (ErrorFacts.run_all_testers (Scanner.test_url_parameter lib config server url)
                  (Scanner.redirect_params_of lib url)
                  (Scanner.effective_payloads config (Scanner.get_payloads payload_manager))
                  [] st) as [results1 [st1 ->]].
      destruct (Scanner.headers_test config).
      - apply ErrorFacts.run_all_testers.
      - exists results1, st1. reflexivity. }
    destruct R as [earlier [st1 R]]. exists earlier, st1. split; [exact R |].
    intros page Hs Hc Hf. rewrite E. unfold Scanner.schedule.
    rewrite app_assoc. fold earlier_steps.
    rewrite ErrorFacts.run_all_app, R. cbn [List.app Scanner.run_all].
    unfold bind, Scanner.form_tester, bind.
    rewrite (ErrorFacts.test_form_redirects_raises lib config server url st1 page Hs Hc Hf).
    reflexivity.
  - intros cookie_name payload st0 finding st1.
    apply OrchestrationFacts.cookie_attempt_vulnerable.
Qed.

Lemma C9_form_tester_error_discards_results_witness :
  Scanner.fast Examples.default_config = false
  /\ (exists earlier st1,
        Scanner.run_all
          (Scanner.attempts_over
             (Scanner.test_url_parameter Examples.example_library Examples.default_config
                (Examples.serves "<form>") "http://site.test/login")
             (Scanner.redirect_params_of Examples.example_library "http://site.test/login")
             (Scanner.effective_payloads Examples.default_config
                (Scanner.get_payloads Examples.one_payload))) [] Examples.initial
        = (inr earlier, st1)
        /\ List.length earlier = 10
        /\ Scanner.total_requests st1 = 10
        /\ Scanner.scan_single_url Examples.example_library Examples.default_config
             Examples.one_payload (Examples.serves "<form>") "http://site.test/login"
             Examples.initial
           = (inl AttributeError,
              Scanner.mkState 12
                (Scanner.mkRequest "GET" "http://site.test/login" [] [] [] true
                 :: Scanner.history st1))).
Proof.
  split; [reflexivity |].
  destruct (C9_form_tester_error_discards_results Examples.example_library
              Examples.default_config Examples.one_payload (Examples.serves "<form>")
              "http://site.test/login" Examples.initial eq_refl)
    as [_ [[earlier [st1 [Hrun Hbug]]] _]].
  cbn [Scanner.headers_test Examples.default_config] in Hrun. rewrite app_nil_r in Hrun.
  specialize (Hbug (Examples.page "<form>") eq_refl eq_refl eq_refl).
  exists earlier, st1. split; [exact Hrun |].
  set (v := Scanner.run_all _ _ _) in Hrun. vm_compute in v. subst v.
  injection Hrun as <- <-.
  split; [reflexivity |]. split; [reflexivity |]. exact Hbug.
Defined.

(** ** The helpers of core/utils.py *)

Module HelperFacts.
Import PyStr PyText Helpers StrFacts UrlFacts HostFacts.

Lemma startswith_append (p s : string) : startswith p (p ++ s) = true.
Proof.
  induction p as [| c p IH]; simpl; [apply startswith_nil |].
  apply startswith_cons. auto.
Qed.

Lemma normalize_url_prefixed (url : string) :
  startswith_any ["http://"; "https://"] (normalize_url url) = true.
Proof.
  unfold normalize_url.
  destruct (startswith_any ["http://"; "https://"] url) eqn:E; simpl negb; cbv iota.
  - exact E.
  - unfold startswith_any. cbn [existsb].
    now rewrite (startswith_append "http://" url).
Qed.

Lemma load_lines_filters (lines : list string) :
  forall urls,
    load_lines lines urls
    = (urls ++ filter validate_url
                 (map normalize_url
                    (filter (fun line => negb (is_empty line) && negb (startswith "#" line))
                            (map strip lines))))%list.
Proof.
  induction lines as [| line lines IH]; intros urls; cbn [load_lines map filter].
  - now rewrite app_nil_r.
  - destruct (negb (is_empty (strip line)) && negb (startswith "#" (strip line))).
    + cbn [map filter]. destruct (validate_url (normalize_url (strip line))).
      * rewrite IH, <- app_assoc. reflexivity.
      * apply IH.
    + apply IH.
Qed.

(** A string with a given literal prefix, taken apart. *)
Lemma startswith_split (p s : string) :
  startswith p s = true -> exists rest, s = (p ++ rest)%string.
Proof.
  revert s. induction p as [| c p IH]; intros s H.
  - exists s. reflexivity.
  - destruct s as [| a s]; [discriminate H |].
    apply startswith_cons in H. destruct H as [<- H].
    destruct (IH s H) as [rest ->]. exists rest. reflexivity.
Qed.

Lemma urlsplit_scheme_http (rest : string) (r : Urllib.ParseResult) :
  Urllib.urlsplit ("http://" ++ rest) = inr r -> Urllib.scheme r = "http".
Proof.
  unfold Urllib.urlsplit, Urllib.remove_unsafe, Urllib.split_scheme.
  cbn [append lstrip_by Urllib.c0_control_or_space].
  change (code "h" <=? 32)%N with false. cbv iota.
  cbn. unfold rbind, pure. intros H.
  destruct (Urllib.split_netloc _) as [e | [netloc url]]; [discriminate H |].
  repeat step; reflexivity.
Qed.

Lemma urlsplit_scheme_https (rest : string) (r : Urllib.ParseResult) :
  Urllib.urlsplit ("https://" ++ rest) = inr r -> Urllib.scheme r = "https".
Proof.
  unfold Urllib.urlsplit, Urllib.remove_unsafe, Urllib.split_scheme.
  cbn [append lstrip_by Urllib.c0_control_or_space].
  change (code "h" <=? 32)%N with false. cbv iota.
  cbn. unfold rbind, pure. intros H.
  destruct (Urllib.split_netloc _) as [e | [netloc url]]; [discriminate H |].
  repeat step; reflexivity.
Qed.

Lemma urlparse_scheme (s : string) (r : Urllib.ParseResult) :
  Urllib.urlparse s = inr r ->
  exists r0, Urllib.urlsplit s = inr r0 /\ Urllib.scheme r = Urllib.scheme r0
             /\ Urllib.netloc r = Urllib.netloc r0.
Proof.
  unfold Urllib.urlparse, rbind, pure. intros H.
  destruct (Urllib.urlsplit s) as [e | r0]; [discriminate H |].
  exists r0. split; [reflexivity |].
  repeat step; auto.
Qed.

Lemma prefixed_scheme (u : string) (r : Urllib.ParseResult) :
  startswith_any ["http://"; "https://"] u = true ->
  Urllib.urlparse u = inr r ->
  Urllib.scheme r = "http" \/ Urllib.scheme r = "https".
Proof.
  unfold startswith_any. cbn [existsb]. rewrite orb_false_r. intros P H.
  apply urlparse_scheme in H. destruct H as [r0 [H [-> _]]].
  apply orb_true_iff in P. destruct P as [P | P];
    apply startswith_split in P; destruct P as [rest ->].
  - left. now apply (urlsplit_scheme_http rest).
  - right. now apply (urlsplit_scheme_https rest).
Qed.

End HelperFacts.

(** X1: [normalize_url] always returns a string that begins with
    [http://] or [https://], and applying it twice is applying it once. *)
Theorem X1_normalize_url_idempotent :
  forall url : string,
    PyStr.startswith_any ["http://"; "https://"] (Helpers.normalize_url url) = true
    /\ Helpers.normalize_url (Helpers.normalize_url url) = Helpers.normalize_url url.
Proof.
  intros url. pose proof (HelperFacts.normalize_url_prefixed url) as P.
  split; [exact P |].
  unfold Helpers.normalize_url at 1. now rewrite P.
Qed.

(** X2: [load_urls_from_file] returns, in the order of the file and with
    repetitions, the normalised form of each line that, once stripped, is
    neither empty nor a comment and whose normalised form is a valid URL. *)
Theorem X2_load_urls_from_file_filters :
  forall lines : list string,
    Helpers.load_urls_from_file (Some lines)
    = filter Helpers.validate_url
        (map Helpers.normalize_url
           (filter (fun line => negb (PyStr.is_empty line)
                                && negb (PyStr.startswith "#" line))
                   (map PyStr.strip lines))).
Proof.
  intros lines. unfold Helpers.load_urls_from_file.
  now rewrite HelperFacts.load_lines_filters.
Qed.

(** X3: whatever the file holds, and also when it cannot be read, every
    URL [load_urls_from_file] returns parses with the scheme [http] or
    [https] and a network location that is not empty. *)
Theorem X3_loaded_urls_are_http_urls :
  forall file : option (list string),
    Forall (fun u => exists r,
                Urllib.urlparse u = inr r
                /\ (Urllib.scheme r = "http" \/ Urllib.scheme r = "https")
                /\ Urllib.netloc r <> EmptyString)
           (Helpers.load_urls_from_file file).
Proof.
  intros [lines |]; [| constructor].
  unfold Helpers.load_urls_from_file. rewrite HelperFacts.load_lines_filters.
  cbn [List.app]. apply Forall_forall. intros u Hu.
  apply filter_In in Hu. destruct Hu as [Hin Hv].
  apply in_map_iff in Hin. destruct Hin as [line [<- _]].
  unfold Helpers.validate_url in Hv.
  destruct (Urllib.urlparse (Helpers.normalize_url line)) as [e | r] eqn:E;
    [discriminate Hv |].
  exists r. split; [reflexivity |]. split.
  - exact (HelperFacts.prefixed_scheme _ r (HelperFacts.normalize_url_prefixed line) E).
  - apply andb_true_iff in Hv. destruct Hv as [_ Hn].
    apply negb_true_iff in Hn. now apply StrFacts.is_empty_false.
Qed.

Module ParamFacts.
Import PyStr Utils.

Lemma first_ten_common (p : string) :
  In p (firstn 10 common_redirect_params) ->
  existsb (String.eqb (lower p)) (map lower common_redirect_params) = true.
Proof.
  cbn [firstn common_redirect_params].
  intros H. repeat (destruct H as [<- | H]; [reflexivity |]). destruct H.
Qed.

End ParamFacts.

(** X4: [extract_redirect_params] never returns an empty list, so that
    the list of forty names [scan_single_url] falls back on is never
    used; and every name it returns is, up to case, one of the common
    redirect parameter names. *)
Theorem X4_extract_redirect_params_never_empty :
  forall (lib : Library) (url : string),
    Utils.extract_redirect_params lib url <> []
    /\ Scanner.redirect_params_of lib url = Utils.extract_redirect_params lib url
    /\ Forall (fun p => existsb (String.eqb (PyStr.lower p))
                          (map PyStr.lower Utils.common_redirect_params) = true)
              (Utils.extract_redirect_params lib url).
Proof.
  intros lib url.
  assert (N : Utils.extract_redirect_params lib url <> []).
  { unfold Utils.extract_redirect_params.
    destruct (Urllib.urlparse url) as [e | parsed]; [discriminate |].
    destruct (filter _ _); discriminate. }
  split; [exact N |]. split.
  - unfold Scanner.redirect_params_of.
    destruct (Utils.extract_redirect_params lib url); [contradiction | reflexivity].
  - apply Forall_forall. intros p. unfold Utils.extract_redirect_params.
    destruct (Urllib.urlparse url) as [e | parsed];
      [apply ParamFacts.first_ten_common |].
    destruct (filter _ _) as [| q l] eqn:F; [apply ParamFacts.first_ten_common |].
    rewrite <- F. intros H. apply filter_In in H. exact (proj2 H).
Qed.

Module DomainFacts.
Import PyStr PyText Helpers StrFacts.

(** The truth value of [is_same_domain], in terms of the two netlocs. *)
Lemma is_same_domain_truth (url1 url2 : string) :
  truth (is_same_domain url1 url2) = true
  <-> exists d1 d2,
        extract_domain url1 = Some d1 /\ extract_domain url2 = Some d2
        /\ d1 <> EmptyString /\ d2 <> EmptyString /\ lower d1 = lower d2.
Proof.
  unfold is_same_domain.
  destruct (extract_domain url1) as [d1 |]; cbn [truth].
  2: { split; [discriminate | intros [? [? [H _]]]; discriminate H]. }
  destruct (is_empty d1) eqn:E1; cbn [truth].
  { rewrite E1. apply is_empty_true in E1. subst d1. split; [discriminate |].
    intros [? [? [H [_ [N _]]]]]. injection H as <-. contradiction. }
  destruct (extract_domain url2) as [d2 |]; cbn [truth].
  2: { split; [discriminate | intros [? [? [_ [H _]]]]; discriminate H]. }
  destruct (is_empty d2) eqn:E2; cbn [truth].
  { rewrite E2. apply is_empty_true in E2. subst d2. split; [discriminate |].
    intros [? [? [_ [H [_ [N _]]]]]]. injection H as <-. contradiction. }
  apply is_empty_false in E1, E2. rewrite String.eqb_eq. split.
  - intros H. exists d1, d2. auto.
  - intros [x [y [H1 [H2 [_ [_ H]]]]]]. congruence.
Qed.

End DomainFacts.

(** X5: as a truth value [is_same_domain] is symmetric and transitive,
    and it holds of a URL and itself exactly when the URL parses with a
    network location that is not empty. *)
Theorem X5_is_same_domain_partial_equivalence :
  (forall a b : string,
     PyText.truth (Helpers.is_same_domain a b) = PyText.truth (Helpers.is_same_domain b a))
  /\ (forall a b c : string,
        PyText.truth (Helpers.is_same_domain a b) = true ->
        PyText.truth (Helpers.is_same_domain b c) = true ->
        PyText.truth (Helpers.is_same_domain a c) = true)
  /\ (forall a : string,
        PyText.truth (Helpers.is_same_domain a a) = true
        <-> exists d, Helpers.extract_domain a = Some d /\ d <> EmptyString).
Proof.
  split; [| split].
  - intros a b.
    destruct (PyText.truth (Helpers.is_same_domain a b)) eqn:E1,
             (PyText.truth (Helpers.is_same_domain b a)) eqn:E2; try reflexivity.
    + apply DomainFacts.is_same_domain_truth in E1.
      destruct E1 as [d1 [d2 [H1 [H2 [N1 [N2 H]]]]]].
      rewrite <- E2. symmetry. apply DomainFacts.is_same_domain_truth.
      exists d2, d1. auto.
    + apply DomainFacts.is_same_domain_truth in E2.
      destruct E2 as [d1 [d2 [H1 [H2 [N1 [N2 H]]]]]].
      rewrite <- E1. apply DomainFacts.is_same_domain_truth.
      exists d2, d1. auto.
  - intros a b c H1 H2.
    apply DomainFacts.is_same_domain_truth in H1, H2.
    destruct H1 as [d1 [d2 [A [B [N1 [N2 E]]]]]].
    destruct H2 as [d2' [d3 [B' [C [_ [N3 E']]]]]].
    apply DomainFacts.is_same_domain_truth. exists d1, d3.
    rewrite B in B'. injection B' as <-. repeat split; try assumption. congruence.
  - intros a. rewrite DomainFacts.is_same_domain_truth. split.
    + intros [d1 [_ [H [_ [N _]]]]]. exists d1. auto.
    + intros [d [H N]]. exists d, d. auto.
Qed.

Module CleanFacts.
Import PyStr Helpers StrFacts UrlFacts HostFacts.

Lemma partition_head_absent (c : ascii) (s a z : string) (f : bool) :
  partition c s = (a, f, z) -> has_char c a = false.
Proof.
  revert a z f. induction s as [| x s IH]; simpl; intros a z f P.
  - now injection P as <- <- <-.
  - destruct (Ascii.eqb x c) eqn:E.
    + now injection P as <- <- <-.
    + destruct (partition c s) as [[a' f'] z'].
      injection P as <- <- <-. simpl. now rewrite E, (IH a' z' f' eq_refl).
Qed.

(** Characters that [lower] yields for no other character. *)
Lemma lower_char_keeps (c x : ascii) :
  (forall y, lower_char y = c -> y = c) -> Ascii.eqb x c = false ->
  Ascii.eqb (lower_char x) c = false.
Proof.
  intros Hc Hx. destruct (Ascii.eqb (lower_char x) c) eqn:E; [| reflexivity].
  apply Ascii.eqb_eq, Hc in E. subst c. now rewrite Ascii.eqb_refl in Hx.
Qed.

Lemma lower_keeps_absent (c : ascii) (s : string) :
  (forall y, lower_char y = c -> y = c) ->
  has_char c s = false -> has_char c (lower s) = false.
Proof.
  intros Hc. induction s as [| x s IH]; simpl; [auto |]. intros H.
  apply orb_false_iff in H. destruct H as [H1 H2].
  now rewrite (lower_char_keeps c x Hc H1), IH.
Qed.

Lemma lower_char_hash (y : ascii) : lower_char y = "#"%char -> y = "#"%char.
Proof. destruct y as [[] [] [] [] [] [] [] []]; vm_compute; congruence. Qed.

Lemma scheme_chars_absent (c : ascii) (s : string) :
  Urllib.scheme_char c = false -> all_chars Urllib.scheme_char s = true ->
  has_char c s = false.
Proof.
  intros Hc. induction s as [| x s IH]; simpl; [auto |]. intros H.
  apply andb_true_iff in H. destruct H as [H1 H2]. rewrite (IH H2), orb_false_r.
  destruct (Ascii.eqb x c) eqn:E; [| reflexivity].
  apply Ascii.eqb_eq in E. congruence.
Qed.

(** The scheme [split_scheme] yields holds scheme characters only. *)
Lemma split_scheme_chars (c : ascii) (s scheme rest : string) :
  Urllib.scheme_char c = false -> (forall y, lower_char y = c -> y = c) ->
  Urllib.split_scheme s = (scheme, rest) -> has_char c scheme = false.
Proof.
  unfold Urllib.split_scheme. intros Hc Ha E.
  destruct (partition ":" s) as [[b f] a].
  destruct b as [| c0 b]; [now injection E as <- <- |].
  destruct f; [| now injection E as <- <-].
  destruct (is_ascii_alpha c0 && all_chars Urllib.scheme_char (String c0 b)) eqn:T;
    injection E as <- <-; [| reflexivity].
  apply andb_true_iff in T. destruct T as [_ T].
  apply (lower_keeps_absent c (String c0 b) Ha).
  now apply scheme_chars_absent.
Qed.

Lemma splitparams_keeps_absent (c : ascii) (url u p : string) :
  Ascii.eqb "/" c = false ->
  has_char c url = false -> Urllib.splitparams url = (u, p) ->
  has_char c u = false /\ has_char c p = false.
Proof.
  unfold Urllib.splitparams. intros Hs H E.
  destruct (has_char "/" url).
  - destruct (rpartition "/" url) as [[head f] tail] eqn:R.
    destruct (rpartition_keeps_absent _ _ _ _ _ _ H R) as [Hh Ht].
    destruct (partition ";" tail) as [[before g] after] eqn:P.
    destruct (partition_keeps_absent _ _ _ _ _ _ Ht P) as [Hb Ha].
    destruct g; injection E as <- <-; [| auto].
    split; [| exact Ha].
    rewrite has_char_append. cbn [append has_char]. now rewrite Hh, Hs, Hb.
  - destruct (partition ";" url) as [[before g] after] eqn:P.
    destruct (partition_keeps_absent _ _ _ _ _ _ H P) as [Hb Ha].
    now injection E as <- <-.
Qed.

(** No component but the fragment holds a [#]. *)
Lemma urlsplit_no_hash (s : string) (r : Urllib.ParseResult) :
  Urllib.urlsplit s = inr r ->
  has_char "#" (Urllib.scheme r) = false
  /\ has_char "#" (Urllib.netloc r) = false
  /\ has_char "#" (Urllib.path r) = false
  /\ has_char "#" (Urllib.params r) = false
  /\ has_char "#" (Urllib.query r) = false.
Proof.
  unfold Urllib.urlsplit, rbind, pure. intros H.
  destruct (Urllib.split_scheme _) as [scheme url] eqn:S.
  apply (split_scheme_chars "#") in S; [| reflexivity | exact lower_char_hash].
  destruct (Urllib.split_netloc url) as [e | [netloc rest]] eqn:N; [discriminate H |].
  assert (Hn : has_char "#" netloc = false).
  { unfold Urllib.split_netloc, raise, pure in N.
    destruct (startswith "//" url).
    - destruct (break_at Urllib.netloc_delim (skip 2 url)) as [n t] eqn:B.
      apply (break_at_keeps_absent "#" _ _ _ _ eq_refl) in B.
      repeat step; exact B.
    - now injection N as <- _. }
  destruct (has_char "#" rest) eqn:Hr.
  - destruct (partition "#" rest) as [[u g] f] eqn:P.
    pose proof (partition_head_absent _ _ _ _ _ P) as Hu.
    destruct (has_char "?" u) eqn:Hq.
    + destruct (partition "?" u) as [[u1 g1] q] eqn:P1.
      destruct (partition_keeps_absent _ _ _ _ _ _ Hu P1) as [H1 H2].
      injection H as <-. cbn. auto.
    + injection H as <-. cbn. auto.
  - destruct (has_char "?" rest) eqn:Hq.
    + destruct (partition "?" rest) as [[u1 g1] q] eqn:P1.
      destruct (partition_keeps_absent _ _ _ _ _ _ Hr P1) as [H1 H2].
      injection H as <-. cbn. auto.
    + injection H as <-. cbn. auto.
Qed.

Lemma urlparse_no_hash (s : string) (r : Urllib.ParseResult) :
  Urllib.urlparse s = inr r ->
  has_char "#" (Urllib.scheme r) = false
  /\ has_char "#" (Urllib.netloc r) = false
  /\ has_char "#" (Urllib.path r) = false
  /\ has_char "#" (Urllib.params r) = false
  /\ has_char "#" (Urllib.query r) = false.
Proof.
  unfold Urllib.urlparse, rbind, pure. intros H.
  destruct (Urllib.urlsplit s) as [e | r0] eqn:E; [discriminate H |].
  apply urlsplit_no_hash in E. destruct E as [E1 [E2 [E3 [E4 E5]]]].
  destruct (_ && _).
  - destruct (Urllib.splitparams (Urllib.path r0)) as [u p] eqn:P.
    destruct (splitparams_keeps_absent "#" _ _ _ eq_refl E3 P) as [Hu Hp].
    injection H as <-. cbn. auto.
  - injection H as <-. auto.
Qed.

(** What [urlunparse] writes without a fragment, when the parts hold no
    [c] and [c] is none of the separators. *)
Lemma urlunparse_keeps_absent (c : ascii) (r : Urllib.ParseResult) :
  has_char c "/;:?" = false ->
  Urllib.fragment r = EmptyString ->
  has_char c (Urllib.scheme r) = false ->
  has_char c (Urllib.netloc r) = false ->
  has_char c (Urllib.path r) = false ->
  has_char c (Urllib.params r) = false ->
  has_char c (Urllib.query r) = false ->
  has_char c (Urllib.urlunparse r) = false.
Proof.
  intros Hc F H1 H2 H3 H4 H5. unfold Urllib.urlunparse. rewrite F.
  cbn [has_char] in Hc. rewrite !orb_false_iff in Hc.
  destruct Hc as [C1 [C2 [C3 [C4 _]]]]. cbn [is_empty].
  repeat match goal with
         | |- context [if ?b then _ else _] => destruct b
         end;
    rewrite ?has_char_append; cbn [has_char];
    rewrite ?H1, ?H2, ?H3, ?H4, ?H5, ?C1, ?C2, ?C3, ?C4; reflexivity.
Qed.

End CleanFacts.

(** X6: when the URL parses, what [clean_url] returns holds no [#]: the
    fragment is dropped, and no other part of a parsed URL carries one. *)
Theorem X6_clean_url_drops_fragment :
  forall (url : string) (r : Urllib.ParseResult),
    Urllib.urlparse url = inr r ->
    PyStr.has_char "#" (Helpers.clean_url url) = false.
Proof.
  intros url r E. unfold Helpers.clean_url. rewrite E.
  destruct (CleanFacts.urlparse_no_hash url r E) as [H1 [H2 [H3 [H4 H5]]]].
  now apply CleanFacts.urlunparse_keeps_absent.
Qed.

Lemma X6_clean_url_drops_fragment_witness :
  PyStr.has_char "#" (Helpers.clean_url "HTTP://a.test/p;x?q=1#top") = false
  /\ Helpers.clean_url "HTTP://a.test/p;x?q=1#top" = "http://a.test/p;x?q=1".
Proof.
  split; [| reflexivity].
  apply (X6_clean_url_drops_fragment "HTTP://a.test/p;x?q=1#top"
           (Urllib.mkParseResult "http" "a.test" "/p" "x" "q=1" "top")).
  reflexivity.
Defined.

(** ** Encoding and truncation *)

Module EncodeFacts.
Import PyStr PyText Helpers StrFacts HostFacts.

Lemma append_assoc (a b c : string) : ((a ++ b) ++ c)%string = (a ++ (b ++ c))%string.
Proof. induction a as [| x a IH]; simpl; [reflexivity | now rewrite IH]. Qed.

Lemma length_append (a b : string) :
  String.length (a ++ b) = String.length a + String.length b.
Proof. induction a as [| x a IH]; simpl; [reflexivity | now rewrite IH]. Qed.

Lemma all_chars_append (p : ascii -> bool) (a b : string) :
  all_chars p (a ++ b) = all_chars p a && all_chars p b.
Proof.
  induction a as [| x a IH]; simpl; [reflexivity |].
  now rewrite IH, andb_assoc.
Qed.

Lemma text_of_append (a b : string) : text_of (a ++ b) = (text_of a ++ text_of b)%list.
Proof.
  unfold text_of. induction a as [| x a IH]; cbn [append list_ascii_of_string map List.app];
    [reflexivity | now rewrite IH].
Qed.

Lemma text_of_length (s : string) : List.length (text_of s) = String.length s.
Proof.
  unfold text_of. induction s as [| x s IH]; cbn [list_ascii_of_string map List.length String.length];
    [reflexivity | now rewrite IH].
Qed.

Lemma has_point_app (c : N) (a b : Text) :
  has_point c (a ++ b)%list = has_point c a || has_point c b.
Proof. apply existsb_app. Qed.

Lemma replace_point_app (c : N) (t a b : Text) :
  replace_point c t (a ++ b)%list = (replace_point c t a ++ replace_point c t b)%list.
Proof.
  induction a as [| x a IH]; cbn [List.app replace_point]; [reflexivity |].
  now rewrite IH, app_assoc.
Qed.

(** Replacing [c] leaves no [c], when the replacement holds none. *)
Lemma replace_point_removes (c : N) (t s : Text) :
  has_point c t = false -> has_point c (replace_point c t s) = false.
Proof.
  intros Ht. induction s as [| x s IH]; cbn [replace_point]; [reflexivity |].
  rewrite has_point_app, IH, orb_false_r.
  destruct (x =? c)%N eqn:E; [exact Ht |].
  unfold has_point. cbn [existsb]. now rewrite N.eqb_sym, E.
Qed.

(** Replacing another character brings in no [c], when the replacement
    holds none. *)
Lemma replace_point_keeps_absent (c d : N) (t s : Text) :
  has_point c t = false -> has_point c s = false ->
  has_point c (replace_point d t s) = false.
Proof.
  intros Ht. induction s as [| x s IH]; cbn [replace_point]; [reflexivity |].
  unfold has_point at 1. cbn [existsb]. intros H.
  apply orb_false_iff in H. destruct H as [H1 H2].
  rewrite has_point_app, (IH H2), orb_false_r.
  destruct (x =? d)%N; [exact Ht |].
  unfold has_point. cbn [existsb]. now rewrite H1.
Qed.

(** Encoding succeeds on a string without surrogates, byte by byte, and
    raises on any other. *)
Lemma encode_utf8_clean (s : Text) :
  existsb is_surrogate s = false -> encode_utf8 s = inr (flat_map utf8_bytes s).
Proof.
  induction s as [| c s IH]; cbn [existsb encode_utf8 flat_map]; [reflexivity |].
  intros H. apply orb_false_iff in H. destruct H as [Hc Hs].
  now rewrite Hc, (IH Hs).
Qed.

Lemma encode_utf8_surrogate (s : Text) :
  existsb is_surrogate s = true -> encode_utf8 s = inl ValueError.
Proof.
  induction s as [| c s IH]; cbn [existsb encode_utf8]; [discriminate |].
  destruct (is_surrogate c); [reflexivity |]. cbn [orb]. intros H.
  now rewrite (IH H).
Qed.

Lemma quote_from_bytes_app (a b : list ascii) :
  quote_from_bytes (a ++ b)%list = (quote_from_bytes a ++ quote_from_bytes b)%string.
Proof.
  induction a as [| x a IH]; cbn [List.app quote_from_bytes]; [reflexivity |].
  now rewrite IH, append_assoc.
Qed.

(** What [quote] writes, code point by code point. *)
Lemma quoted_pointwise (s : Text) :
  text_of (quote_from_bytes (flat_map utf8_bytes s))
  = flat_map (fun c => text_of (quote_from_bytes (utf8_bytes c))) s.
Proof.
  induction s as [| c s IH]; cbn [flat_map]; [reflexivity |].
  now rewrite quote_from_bytes_app, text_of_append, IH.
Qed.

(** A byte is kept as it is, or written as three characters. *)
Lemma quote_byte_length (b : ascii) :
  if kept_byte b then quote_byte b = String b EmptyString
  else String.length (quote_byte b) = 3.
Proof. unfold quote_byte. destruct (kept_byte b); reflexivity. Qed.

Lemma quote_from_bytes_length (bs : list ascii) :
  List.length bs <= String.length (quote_from_bytes bs).
Proof.
  induction bs as [| b bs IH]; cbn [quote_from_bytes List.length]; [apply le_n |].
  rewrite length_append. pose proof (quote_byte_length b) as L.
  destruct (kept_byte b); [rewrite L; cbn [String.length] |]; lia.
Qed.

(** A code point that [quote] keeps is written as itself. *)
Lemma quoted_kept (c : N) :
  (c <? 128)%N && kept_byte (ascii_of_N c) = true ->
  text_of (quote_from_bytes (utf8_bytes c)) = [c].
Proof.
  intros H. apply andb_true_iff in H. destruct H as [Hc Hk].
  unfold utf8_bytes. rewrite Hc. cbn [quote_from_bytes].
  pose proof (quote_byte_length (ascii_of_N c)) as L. rewrite Hk in L. rewrite L.
  cbn [append text_of list_ascii_of_string map]. unfold code.
  rewrite N_ascii_embedding; [reflexivity |]. apply N.ltb_lt in Hc. lia.
Qed.

(** Any other is written as two characters or more. *)
Lemma quoted_other (c : N) :
  (c <? 128)%N && kept_byte (ascii_of_N c) = false ->
  2 <= List.length (text_of (quote_from_bytes (utf8_bytes c))).
Proof.
  intros H. rewrite text_of_length. unfold utf8_bytes.
  destruct (c <? 128)%N.
  - cbn [andb] in H. cbn [quote_from_bytes].
    pose proof (quote_byte_length (ascii_of_N c)) as L. rewrite H in L.
    rewrite length_append, L. lia.
  - destruct (c <? 2048)%N; [| destruct (c <? 65536)%N];
      match goal with
      | |- 2 <= String.length (quote_from_bytes ?bs) =>
          pose proof (quote_from_bytes_length bs) as L; cbn [List.length] in L; lia
      end.
Qed.

Lemma quoted_length (s : Text) :
  List.length s
  <= List.length (flat_map (fun c => text_of (quote_from_bytes (utf8_bytes c))) s).
Proof.
  induction s as [| c s IH]; cbn [flat_map List.length]; [apply le_n |].
  rewrite length_app.
  destruct ((c <? 128)%N && kept_byte (ascii_of_N c)) eqn:K.
  - rewrite (quoted_kept c K). cbn [List.length]. lia.
  - pose proof (quoted_other c K). lia.
Qed.

(** What [quote] writes is made of the bytes it keeps and of [%]. *)
Lemma quote_byte_alphabet (b : ascii) :
  all_chars (fun x => kept_byte x || Ascii.eqb x "%") (quote_byte b) = true.
Proof. destruct b as [[] [] [] [] [] [] [] []]; vm_compute; reflexivity. Qed.

Lemma quote_from_bytes_alphabet (bs : list ascii) :
  all_chars (fun x => kept_byte x || Ascii.eqb x "%") (quote_from_bytes bs) = true.
Proof.
  induction bs as [| b bs IH]; cbn [quote_from_bytes]; [reflexivity |].
  now rewrite all_chars_append, quote_byte_alphabet, IH.
Qed.

Lemma url_char_ascii (x : ascii) :
  kept_byte x || Ascii.eqb x "%" = true -> (code x <? 128)%N = true.
Proof. destruct x as [[] [] [] [] [] [] [] []]; vm_compute; congruence. Qed.

(** The code points of a string of such characters. *)
Lemma text_of_alphabet (q : string) :
  all_chars (fun x => kept_byte x || Ascii.eqb x "%") q = true ->
  forallb (fun c => (c <? 128)%N && (kept_byte (ascii_of_N c) || (c =? 37)%N)) (text_of q)
  = true.
Proof.
  unfold text_of.
  induction q as [| x q IH]; cbn [all_chars list_ascii_of_string map forallb];
    [reflexivity |].
  intros H. apply andb_true_iff in H. destruct H as [Hx Hq].
  rewrite (IH Hq), andb_true_r, (url_char_ascii x Hx). cbn [andb].
  unfold code. rewrite ascii_N_embedding.
  revert Hx. clear. destruct x as [[] [] [] [] [] [] [] []]; vm_compute; congruence.
Qed.

(** Such a string has no surrogate and is its own encoding. *)
Lemma encode_utf8_ascii (q : string) :
  all_chars (fun x => kept_byte x || Ascii.eqb x "%") q = true ->
  encode_utf8 (text_of q) = inr (list_ascii_of_string q).
Proof.
  unfold text_of.
  induction q as [| x q IH]; cbn [all_chars list_ascii_of_string map encode_utf8];
    [reflexivity |].
  intros H. apply andb_true_iff in H. destruct H as [Hx Hq].
  rewrite (IH Hq). pose proof (url_char_ascii x Hx) as A.
  assert (S : is_surrogate (code x) = false).
  { unfold is_surrogate. apply N.ltb_lt in A.
    apply andb_false_iff. left. apply N.leb_gt. lia. }
  rewrite S. unfold utf8_bytes. rewrite A. unfold code. rewrite ascii_N_embedding.
  reflexivity.
Qed.

(** Quoting it once more rewrites the percent signs and nothing else. *)
Lemma quote_byte_again (x : ascii) :
  kept_byte x || Ascii.eqb x "%" = true ->
  text_of (quote_byte x) = if (code x =? 37)%N then text_of "%25" else [code x].
Proof. destruct x as [[] [] [] [] [] [] [] []]; vm_compute; congruence. Qed.

Lemma quote_again (q : string) :
  all_chars (fun x => kept_byte x || Ascii.eqb x "%") q = true ->
  quote (text_of q) = inr (replace_point 37 (text_of "%25") (text_of q)).
Proof.
  intros H. unfold quote. rewrite (encode_utf8_ascii q H). unfold rbind, pure. f_equal.
  revert H. unfold text_of at 3.
  induction q as [| x q IH];
    cbn [all_chars list_ascii_of_string map quote_from_bytes replace_point];
    [reflexivity |].
  intros H. apply andb_true_iff in H. destruct H as [Hx Hq].
  now rewrite text_of_append, (quote_byte_again x Hx), (IH Hq).
Qed.

Lemma take_length (n : nat) (s : string) :
  String.length (take n s) = Nat.min n (String.length s).
Proof.
  revert s. induction n as [| n IH]; intros [| c s]; simpl; try reflexivity.
  now rewrite IH.
Qed.

End EncodeFacts.

(** X7: with the encoding [html], [encode_payload] returns a string
    without [<] and without [>]. *)
Theorem X7_html_encoding_leaves_no_angle_bracket :
  forall payload : PyText.Text,
    PyText.has_point 60 (Helpers.encode_payload payload "html") = false
    /\ PyText.has_point 62 (Helpers.encode_payload payload "html") = false.
Proof.
  intros payload. unfold Helpers.encode_payload. cbn [String.eqb Ascii.eqb Bool.eqb pure].
  split.
  - apply EncodeFacts.replace_point_keeps_absent; [reflexivity |].
    apply EncodeFacts.replace_point_removes. reflexivity.
  - apply EncodeFacts.replace_point_removes. reflexivity.
Qed.

(** X8: the three replacements of the [html] encoding do not interfere:
    the result is the concatenation of what each character is written
    as, [&amp;] for [&], [&lt;] for [<], [&gt;] for [>] and itself
    otherwise, so that the [&] of an entity just written is never
    escaped in turn. *)
Theorem X8_html_encoding_is_characterwise :
  (forall a b : PyText.Text,
     Helpers.encode_payload (a ++ b)%list "html"
     = (Helpers.encode_payload a "html" ++ Helpers.encode_payload b "html")%list)
  /\ (forall c : N,
        Helpers.encode_payload [c] "html"
        = if (c =? 38)%N then PyText.text_of "&amp;"
          else if (c =? 60)%N then PyText.text_of "&lt;"
          else if (c =? 62)%N then PyText.text_of "&gt;"
          else [c]).
Proof.
  split.
  - intros a b. unfold Helpers.encode_payload. cbn [String.eqb Ascii.eqb Bool.eqb pure].
    now rewrite !EncodeFacts.replace_point_app.
  - intros c. unfold Helpers.encode_payload. cbn [String.eqb Ascii.eqb Bool.eqb pure].
    cbn [PyText.replace_point].
    destruct (c =? 38)%N eqn:E1; [reflexivity |].
    cbn [List.app PyText.replace_point]. destruct (c =? 60)%N eqn:E2; [reflexivity |].
    cbn [List.app PyText.replace_point]. destruct (c =? 62)%N eqn:E3; reflexivity.
Qed.

(** X9: with the encoding [url], a payload that holds a lone surrogate,
    which [quote] cannot encode, comes back as it is. For any other
    payload [encode_payload] returns a string of unreserved characters,
    [/] and [%] only, and it returns the payload itself exactly when the
    payload holds unreserved characters and [/] only. *)
Theorem X9_url_encoding_alphabet :
  forall payload : PyText.Text,
    if existsb PyText.is_surrogate payload
    then Helpers.encode_payload payload "url" = payload
    else
      forallb (fun c => (c <? 128)%N && (Helpers.kept_byte (ascii_of_N c) || (c =? 37)%N))
              (Helpers.encode_payload payload "url") = true
      /\ (Helpers.encode_payload payload "url" = payload
          <-> forallb (fun c => (c <? 128)%N && Helpers.kept_byte (ascii_of_N c)) payload
              = true).
Proof.
  intros payload. unfold Helpers.encode_payload, Helpers.quote.
  cbn [String.eqb Ascii.eqb Bool.eqb].
  destruct (existsb PyText.is_surrogate payload) eqn:S.
  { now rewrite (EncodeFacts.encode_utf8_surrogate payload S). }
  rewrite (EncodeFacts.encode_utf8_clean payload S). cbn [rbind pure].
  split.
  { apply EncodeFacts.text_of_alphabet, EncodeFacts.quote_from_bytes_alphabet. }
  rewrite EncodeFacts.quoted_pointwise. clear S.
  induction payload as [| c s IH]; [split; reflexivity |].
  cbn [flat_map forallb].
  destruct ((c <? 128)%N && Helpers.kept_byte (ascii_of_N c)) eqn:K; cbn [andb].
  - rewrite (EncodeFacts.quoted_kept c K). cbn [List.app]. rewrite <- IH. split; intros H.
    + now injection H.
    + now rewrite H.
  - split; [| discriminate]. intros H. exfalso.
    apply (f_equal (@List.length N)) in H. rewrite length_app in H.
    cbn [List.length] in H.
    pose proof (EncodeFacts.quoted_other c K). pose proof (EncodeFacts.quoted_length s). lia.
Qed.

(** X10: with the encoding [double_url], a payload that holds a lone
    surrogate comes back as it is; for any other payload the result is
    the [url] encoding with every [%] written as [%25]. *)
Theorem X10_double_url_encoding :
  forall payload : PyText.Text,
    Helpers.encode_payload payload "double_url"
    = if existsb PyText.is_surrogate payload then payload
      else PyText.replace_point 37 (PyText.text_of "%25")
             (Helpers.encode_payload payload "url").
Proof.
  intros payload. unfold Helpers.encode_payload.
  cbn [String.eqb Ascii.eqb Bool.eqb]. unfold Helpers.quote at 1 3.
  destruct (existsb PyText.is_surrogate payload) eqn:S.
  { now rewrite (EncodeFacts.encode_utf8_surrogate payload S). }
  rewrite (EncodeFacts.encode_utf8_clean payload S). cbn [rbind pure].
  now rewrite (EncodeFacts.quote_again _ (EncodeFacts.quote_from_bytes_alphabet _)).
Qed.

(** X11: for a bound of three or more, [truncate_string] returns a string
    of at most [max_length] characters: the text itself when it fits,
    and otherwise its first [max_length - 3] characters followed by three
    dots, [max_length] characters in all. *)
Theorem X11_truncate_string_bound :
  forall (text : string) (max_length : Z),
    (3 <= max_length)%Z ->
    (Z.of_nat (String.length (Helpers.truncate_string text max_length))
     = Z.min (Z.of_nat (String.length text)) max_length)%Z
    /\ (Helpers.truncate_string text max_length = text
        \/ Helpers.truncate_string text max_length
           = (PyText.take (Z.to_nat (max_length - 3)) text ++ "...")%string).
Proof.
  intros text max_length H. unfold Helpers.truncate_string.
  destruct (Z.leb_spec (Z.of_nat (String.length text)) max_length) as [L | L].
  - split; [lia | now left].
  - unfold PyText.slice_to.
    destruct (Z.ltb_spec (max_length - 3) 0) as [N | N]; [lia |].
    split; [| now right].
    rewrite EncodeFacts.length_append, EncodeFacts.take_length.
    cbn [String.length]. lia.
Qed.

Lemma X11_truncate_string_bound_witness :
  (Z.of_nat (String.length (Helpers.truncate_string "http://site.test/a/long/path" 10))
   = Z.min (Z.of_nat (String.length "http://site.test/a/long/path")) 10)%Z
  /\ Helpers.truncate_string "http://site.test/a/long/path" 10 = "http://...".
Proof.
  split; [| reflexivity].
  apply (proj1 (X11_truncate_string_bound "http://site.test/a/long/path" 10 ltac:(lia))).
Defined.

(** X12: for a bound below three the slice counts from the end of the
    text, and a text longer than the bound comes back longer than the
    bound: with three dots after all its characters but the last
    [3 - max_length]. *)
Theorem X12_truncate_string_small_bound :
  forall (text : string) (max_length : Z),
    (max_length < 3)%Z ->
    (max_length < Z.of_nat (String.length text))%Z ->
    (Z.of_nat (String.length (Helpers.truncate_string text max_length))
     = Z.max 0 (Z.of_nat (String.length text) - (3 - max_length)) + 3)%Z
    /\ (max_length < Z.of_nat (String.length (Helpers.truncate_string text max_length)))%Z.
Proof.
  intros text max_length H L. unfold Helpers.truncate_string.
  destruct (Z.leb_spec (Z.of_nat (String.length text)) max_length) as [L' | _]; [lia |].
  unfold PyText.slice_to.
  destruct (Z.ltb_spec (max_length - 3) 0) as [_ | N]; [| lia].
  rewrite EncodeFacts.length_append, EncodeFacts.take_length.
  cbn [String.length]. lia.
Qed.

Lemma X12_truncate_string_small_bound_witness :
  Helpers.truncate_string "abcdef" 2 = "abcde..."
  /\ (2 < Z.of_nat (String.length (Helpers.truncate_string "abcdef" 2)))%Z.
Proof.
  split; [reflexivity |].
  apply (proj2 (X12_truncate_string_small_bound "abcdef" 2 ltac:(lia)
                  ltac:(cbn; lia))).
Defined.

(** ** The two validators *)

Module ValidatorRelation.
Import PyStr Utils StrFacts UrlFacts Scanner.

(** The normaliser of utils.py in terms of its [try] block. *)
Lemma util_of_block (s : string) :
  get_normalized_hostname_util (Some s)
  = match normalized_hostname s with
    | inl _ => inr None
    | inr v => inr v
    end.
Proof.
  unfold get_normalized_hostname_util, pure.
  destruct (is_empty s) eqn:E.
  - apply is_empty_true in E. subst s. reflexivity.
  - destruct (normalized_hostname s) as [e | v] eqn:N; [| reflexivity].
    apply normalized_hostname_raises in N. subst e. reflexivity.
Qed.

(** A host the [try] block yields is not the empty string. *)
Lemma block_truthy (s : string) (v : option string) :
  normalized_hostname s = inr v ->
  truthy v = match v with Some _ => true | None => false end.
Proof.
  intros H. apply (truthy_normalized (Some s)).
  rewrite util_of_block, H. reflexivity.
Qed.

(** The decision of [_is_external_redirect] on three normalised hosts,
    and that of [validate_redirect] without a callback. *)
Lemma decisions_agree (oh rh ph : option string) :
  (if negb (match rh with Some _ => true | None => false end) then false
   else if match oh with Some _ => true | None => false end && eqb_opt oh rh then false
   else if match ph with Some _ => true | None => false end && eqb_opt rh ph then true
   else false)
  = (if negb (match rh with Some _ => true | None => false end) then false
     else if negb (match ph with Some _ => true | None => false end) then false
     else if eqb_opt rh ph && negb (eqb_opt oh ph) then true
     else false).
Proof.
  destruct rh as [r |]; [| reflexivity]. destruct ph as [p |]; cbn [negb andb].
  2: { destruct oh as [o |]; cbn [andb]; [destruct (eqb_opt (Some o) (Some r)) |];
       reflexivity. }
  destruct (eqb_opt (Some r) (Some p)) eqn:E.
  - apply eqb_opt_true in E. injection E as <-.
    destruct oh as [o |]; cbn [andb]; [| reflexivity].
    destruct (eqb_opt (Some o) (Some r)); reflexivity.
  - destruct oh as [o |]; cbn [andb]; [destruct (eqb_opt (Some o) (Some r)) |];
      reflexivity.
Qed.

(** [_is_external_redirect] when the three URLs parse. *)
Lemma external_of_hosts (original final payload : string) (oh rh ph : option string) :
  normalized_hostname original = inr oh ->
  normalized_hostname final = inr rh ->
  normalized_hostname payload = inr ph ->
  _is_external_redirect original final payload
  = (if negb (match rh with Some _ => true | None => false end) then false
     else if match oh with Some _ => true | None => false end && eqb_opt oh rh then false
     else if match ph with Some _ => true | None => false end && eqb_opt rh ph then true
     else false).
Proof.
  intros Ho Hr Hp. unfold _is_external_redirect, get_normalized_hostname.
  fold (normalized_hostname original). fold (normalized_hostname final).
  fold (normalized_hostname payload).
  rewrite Ho, Hr, Hp. unfold rbind, pure.
  rewrite (block_truthy _ _ Ho), (block_truthy _ _ Hr), (block_truthy _ _ Hp).
  destruct rh; cbn [negb]; [| reflexivity].
  destruct (_ && _); [reflexivity |]. destruct (_ && _); reflexivity.
Qed.

(** [validate_redirect] without a callback, on a final location that is
    stripped and begins with no script scheme. *)
Lemma validate_of_hosts (original final payload : string) (oh rh ph : option string) :
  strip final = final ->
  startswith_any script_schemes final = false ->
  get_normalized_hostname_util (Some original) = inr oh ->
  get_normalized_hostname_util (Some final) = inr rh ->
  get_normalized_hostname_util (Some payload) = inr ph ->
  validate_redirect original final (Some payload) None
  = (if negb (match rh with Some _ => true | None => false end) then false
     else if negb (match ph with Some _ => true | None => false end) then false
     else if eqb_opt rh ph && negb (eqb_opt oh ph) then true
     else false).
Proof.
  intros Hs Hj Ho Hr Hp. unfold validate_redirect. rewrite Hs, Hj.
  destruct (is_empty final) eqn:E.
  { apply is_empty_true in E. subst final. injection Hr as <-. reflexivity. }
  rewrite Ho, Hr, Hp. unfold rbind, pure. cbn [truthy].
  rewrite (truthy_normalized _ _ Hr), (truthy_normalized _ _ Hp).
  destruct rh; cbn [negb]; [| reflexivity].
  destruct ph; cbn [negb]; [| reflexivity].
  destruct (_ && _); reflexivity.
Qed.

End ValidatorRelation.

(** X13: on a final location without surrounding white space, whatever
    [_is_external_redirect] accepts, [validate_redirect] accepts for the
    same original URL and payload when no callback is configured. *)
Theorem X13_external_redirects_validate :
  forall original final payload : string,
    PyStr.strip final = final ->
    Scanner._is_external_redirect original final payload = true ->
    Utils.validate_redirect original final (Some payload) None = true.
Proof.
  intros original final payload Hs H.
  destruct (PyStr.startswith_any Utils.script_schemes final) eqn:J.
  { unfold Utils.validate_redirect. rewrite Hs, J.
    destruct (PyStr.is_empty final) eqn:E; [| reflexivity].
    apply StrFacts.is_empty_true in E. subst final. discriminate J. }
  destruct (Utils.normalized_hostname original) as [e | oh] eqn:Ho.
  { unfold Scanner._is_external_redirect, Scanner.get_normalized_hostname in H.
    fold (Utils.normalized_hostname original) in H. rewrite Ho in H. discriminate H. }
  destruct (Utils.normalized_hostname final) as [e | rh] eqn:Hr.
  { unfold Scanner._is_external_redirect, Scanner.get_normalized_hostname in H.
    fold (Utils.normalized_hostname original) in H.
    fold (Utils.normalized_hostname final) in H.
    rewrite Ho, Hr in H. discriminate H. }
  destruct (Utils.normalized_hostname payload) as [e | ph] eqn:Hp.
  { unfold Scanner._is_external_redirect, Scanner.get_normalized_hostname in H.
    fold (Utils.normalized_hostname original) in H.
    fold (Utils.normalized_hostname final) in H.
    fold (Utils.normalized_hostname payload) in H.
    rewrite Ho, Hr, Hp in H. discriminate H. }
  rewrite (ValidatorRelation.external_of_hosts _ _ _ _ _ _ Ho Hr Hp) in H.
  rewrite (ValidatorRelation.validate_of_hosts original final payload oh rh ph Hs J).
  - now rewrite <- ValidatorRelation.decisions_agree.
  - now rewrite ValidatorRelation.util_of_block, Ho.
  - now rewrite ValidatorRelation.util_of_block, Hr.
  - now rewrite ValidatorRelation.util_of_block, Hp.
Qed.

Lemma X13_external_redirects_validate_witness :
  Utils.validate_redirect "http://site.test/login?next=/home" "https://EVIL.com:443/x"
    (Some "//evil.com") None = true.
Proof.
  apply (X13_external_redirects_validate "http://site.test/login?next=/home"
           "https://EVIL.com:443/x" "//evil.com"); reflexivity.
Defined.

(** X14: the two validators give the same answer when no callback is
    configured, the final location has no surrounding white space and
    begins with no script scheme, and the original URL parses; an
    original URL that does not parse makes [_is_external_redirect]
    refuse. *)
Theorem X14_validators_agree :
  forall original final payload : string,
    PyStr.strip final = final ->
    PyStr.startswith_any Utils.script_schemes final = false ->
    (forall oh, Utils.normalized_hostname original = inr oh ->
       Scanner._is_external_redirect original final payload
       = Utils.validate_redirect original final (Some payload) None)
    /\ (forall e, Utils.normalized_hostname original = inl e ->
          Scanner._is_external_redirect original final payload = false).
Proof.
  intros original final payload Hs J. split.
  - intros oh Ho.
    pose proof (ValidatorRelation.util_of_block original) as Uo. rewrite Ho in Uo.
    pose proof (ValidatorRelation.util_of_block final) as Ur.
    pose proof (ValidatorRelation.util_of_block payload) as Up.
    destruct (Utils.normalized_hostname final) as [e | rh] eqn:Hr.
    { rewrite (ValidatorRelation.validate_of_hosts original final payload oh None
                 (match Utils.normalized_hostname payload with
                  | inl _ => None | inr v => v end) Hs J Uo Ur).
      - unfold Scanner._is_external_redirect, Scanner.get_normalized_hostname.
        fold (Utils.normalized_hostname original). fold (Utils.normalized_hostname final).
        rewrite Ho, Hr. reflexivity.
      - rewrite Up. destruct (Utils.normalized_hostname payload); reflexivity. }
    destruct (Utils.normalized_hostname payload) as [e | ph] eqn:Hp.
    { rewrite (ValidatorRelation.validate_of_hosts original final payload oh rh None
                 Hs J Uo Ur Up).
      unfold Scanner._is_external_redirect, Scanner.get_normalized_hostname.
      fold (Utils.normalized_hostname original). fold (Utils.normalized_hostname final).
      fold (Utils.normalized_hostname payload).
      rewrite Ho, Hr, Hp. cbn. destruct rh; reflexivity. }
    rewrite (ValidatorRelation.external_of_hosts _ _ _ _ _ _ Ho Hr Hp),
      (ValidatorRelation.validate_of_hosts original final payload oh rh ph Hs J Uo Ur Up).
    apply ValidatorRelation.decisions_agree.
  - intros e Ho.
    unfold Scanner._is_external_redirect, Scanner.get_normalized_hostname.
    fold (Utils.normalized_hostname original). now rewrite Ho.
Qed.

Lemma X14_validators_agree_witness :
  Scanner._is_external_redirect "http://site.test/" "http://evil.com/x" "http://evil.com"
  = Utils.validate_redirect "http://site.test/" "http://evil.com/x"
      (Some "http://evil.com") None
  /\ Scanner._is_external_redirect "http://[site" "http://evil.com/x" "http://evil.com"
     = false.
Proof.
  split.
  - apply (proj1 (X14_validators_agree "http://site.test/" "http://evil.com/x"
                    "http://evil.com" eq_refl eq_refl) (Some "site.test")).
    reflexivity.
  - apply (proj2 (X14_validators_agree "http://[site" "http://evil.com/x"
                    "http://evil.com" eq_refl eq_refl) ValueError).
    reflexivity.
Defined.

(** X15: when a callback URL is configured, [validate_redirect] does not
    depend on the payload. *)
Theorem X15_callback_overrides_payload :
  forall (original final callback : string) (payload payload' : option string),
    callback <> EmptyString ->
    Utils.validate_redirect original final payload (Some callback)
    = Utils.validate_redirect original final payload' (Some callback).
Proof.
  intros original final callback payload payload' Hc.
  unfold Utils.validate_redirect.
  destruct (PyStr.is_empty (PyStr.strip final)); [reflexivity |].
  destruct (PyStr.startswith_any _ _); [reflexivity |].
  destruct (UrlFacts.normalize_returns (Some original)) as [oh ->].
  destruct (UrlFacts.normalize_returns (Some (PyStr.strip final))) as [rh ->].
  destruct (UrlFacts.normalize_returns payload) as [ph ->].
  destruct (UrlFacts.normalize_returns payload') as [ph' ->].
  unfold rbind, pure. cbn [Utils.truthy].
  apply StrFacts.is_empty_false in Hc. rewrite Hc. cbn [negb].
  destruct (negb (Utils.truthy rh)); reflexivity.
Qed.

Lemma X15_callback_overrides_payload_witness :
  Utils.validate_redirect "http://site.test/" "http://cb.test/x" (Some "http://evil.com")
    (Some "http://cb.test")
  = Utils.validate_redirect "http://site.test/" "http://cb.test/x" None
      (Some "http://cb.test").
Proof.
  apply (X15_callback_overrides_payload "http://site.test/" "http://cb.test/x"
           "http://cb.test" (Some "http://evil.com") None).
  discriminate.
Defined.

(** ** What a finding says *)

Module FindingFacts.
Import PyStr Utils Scanner StrFacts UrlFacts.

Lemma redirect_status_truthy (r : Response) :
  is_redirect_status (status_code r) = true -> truthy_response (Some r) = true.
Proof.
  unfold is_redirect_status, truthy_response. cbn [existsb]. intros H.
  repeat (apply orb_true_iff in H; destruct H as [H | H];
          [apply Z.eqb_eq in H; rewrite H; reflexivity |]).
  discriminate H.
Qed.

(** What [_is_external_redirect] accepts: the final location and the
    payload have the same normalised host, and the original URL parses
    and has another host or none. *)
Lemma external_hosts (original final payload : string) :
  _is_external_redirect original final payload = true ->
  exists h oh,
    normalized_hostname final = inr (Some h)
    /\ normalized_hostname payload = inr (Some h)
    /\ normalized_hostname original = inr oh
    /\ oh <> Some h.
Proof.
  intros H.
  destruct (normalized_hostname original) as [e | oh] eqn:Ho.
  { unfold _is_external_redirect, get_normalized_hostname in H.
    fold (normalized_hostname original) in H. rewrite Ho in H. discriminate H. }
  destruct (normalized_hostname final) as [e | rh] eqn:Hr.
  { unfold _is_external_redirect, get_normalized_hostname in H.
    fold (normalized_hostname original) in H. fold (normalized_hostname final) in H.
    rewrite Ho, Hr in H. discriminate H. }
  destruct (normalized_hostname payload) as [e | ph] eqn:Hp.
  { unfold _is_external_redirect, get_normalized_hostname in H.
    fold (normalized_hostname original) in H. fold (normalized_hostname final) in H.
    fold (normalized_hostname payload) in H.
    rewrite Ho, Hr, Hp in H. discriminate H. }
  rewrite (ValidatorRelation.external_of_hosts _ _ _ _ _ _ Ho Hr Hp) in H.
  destruct rh as [h |]; cbn [negb] in H; [| discriminate H].
  destruct (match oh with Some _ => true | None => false end
            && eqb_opt oh (Some h)) eqn:O; [discriminate H |].
  destruct ph as [p |]; cbn [andb] in H; [| discriminate H].
  destruct (eqb_opt (Some h) (Some p)) eqn:P; [| discriminate H].
  apply eqb_opt_true in P. injection P as <-.
  exists h, oh. repeat split. intros ->.
  cbn [andb] in O. rewrite (proj2 (eqb_opt_true (Some h) (Some h)) eq_refl) in O.
  discriminate O.
Qed.

(** The classifier returns on every final location that is a string. *)
Lemma severity_returns (original payload final : string) :
  exists s, _determine_severity original payload (Some final) = inr s.
Proof.
  unfold _determine_severity, pure.
  destruct (startswith_any script_schemes final); [eauto |].
  destruct (_is_external_redirect original final payload); [eauto |].
  destruct (startswith_any _ final); [| eauto].
  destruct (rbind _ _); eauto.
Qed.

Lemma external_is_high (original payload final : string) :
  _is_external_redirect original final payload = true ->
  _determine_severity original payload (Some final) = inr High.
Proof.
  intros H. unfold _determine_severity, pure.
  destruct (startswith_any script_schemes final); [reflexivity |].
  now rewrite H.
Qed.

Section WithPeer.

Variable lib : Library.
Variable config : Config.
Variable server : Server.

(** What the URL-parameter tester returns: the target, the payload and
    the parameter it was given and no severity; a vulnerable result is a
    redirect finding whose final location [_is_external_redirect]
    accepted. *)
Lemma url_parameter_result url param payload st r :
  fst (test_url_parameter lib config server url param payload st) = Some r ->
  original_url r = url /\ Scanner.payload r = payload /\ parameter r = Some param
  /\ severity r = None
  /\ (vulnerable r = true ->
      method r = Some "URL Parameter"
      /\ exists f, final_location r = Some f /\ f <> EmptyString
                   /\ _is_external_redirect url f payload = true).
Proof.
  unfold test_url_parameter.
  destruct (Urllib.urlparse url) as [e | parsed]; [discriminate |].
  unfold bind at 1. unfold make_request at 1.
  destruct (session_request config _) as [response |]; [| discriminate].
  destruct (negb (truthy_response (Some response))); [discriminate |].
  unfold bind at 1.
  destruct (resolve_redirects _ _ _ _ _ _) as [[c |] st1].
  - destruct (negb (is_empty (final c)) && _is_external_redirect url (final c) payload)
      eqn:V; unfold ret; cbn [fst]; intros H; injection H as <-; cbn;
      repeat split; try discriminate.
    apply andb_true_iff in V. destruct V as [V1 V2].
    exists (final c). repeat split; [| exact V2].
    apply negb_true_iff in V1. now apply is_empty_false.
  - destruct (status_code response =? 200)%Z.
    2:{ unfold ret; cbn [fst]; intros H; injection H as <-; cbn;
        repeat split; discriminate. }
    unfold bind at 1.
    pose proof (ParameterFacts.check_meta_refresh_falls_through lib config server parsed
                  (build_test_url lib parsed param payload) url param payload
                  (lower (text response)) response st1) as Hm.
    destruct (check_meta_refresh _ _ _ _ _ _ _ _ _ _ _) as [meta st2].
    cbn [fst] in Hm. subst meta.
    unfold bind at 1.
    pose proof (ParameterFacts.javascript_patterns_no_finding lib config server parsed
                  (build_test_url lib parsed param payload) url param payload
                  (lower (text response)) response js_patterns st2) as Hj.
    destruct (javascript_patterns _ _ _ _ _ _ _ _ _ _ _ _) as [[e | [f |]] st3].
    + discriminate.
    + exfalso. now apply (Hj f).
    + unfold ret; cbn [fst]; intros H; injection H as <-; cbn;
        repeat split; discriminate.
Qed.

(** What the header tester returns. *)
Lemma header_result url header payload st r :
  fst (test_header_injection config server url header payload st) = Some r ->
  original_url r = url /\ Scanner.payload r = payload /\ severity r = None
  /\ (vulnerable r = true ->
      method r = Some "Header Injection"
      /\ exists f, final_location r = Some f
                   /\ validate_redirect url f (Some payload) (callback_url config) = true).
Proof.
  unfold test_header_injection, bind, make_request, ret.
  destruct (session_request config _) as [response |]; [| discriminate].
  destruct (negb (truthy_response (Some response))); [discriminate |].
  destruct (is_redirect_status _ && negb (is_empty _)); cbn [andb].
  - destruct (validate_redirect _ _ _ _) eqn:V; cbn [fst]; intros H;
      injection H as <-; cbn; repeat split; try discriminate.
    exists (location_of response). split; [reflexivity | exact V].
  - cbn [fst]. intros H. injection H as <-. cbn. repeat split; discriminate.
Qed.

(** The one hop the cookie tester follows: a chain of one or two
    locations, the last of them final. *)
Lemma follow_one_hop_chain url location st :
  let hop := fst (follow_one_hop lib config server url location st) in
  (fst hop = [location] \/ fst hop = [location; snd hop])
  /\ List.last (fst hop) EmptyString = snd hop.
Proof.
  unfold follow_one_hop.
  destruct (urljoin lib url location) as [e | resolved]; [cbn; auto |].
  unfold bind, make_request, ret.
  destruct (session_request config _) as [r |]; [| cbn; auto].
  destruct (_ && _); cbn; auto.
Qed.

(** What the cookie tester returns for one cookie and payload. *)
Lemma cookie_result url name payload st r :
  fst (cookie_attempt lib config server url name payload st) = Some r ->
  vulnerable r = true
  /\ original_url r = url /\ Scanner.payload r = payload /\ severity r = None
  /\ method r = Some "Cookie Redirect"
  /\ exists f chain,
       final_location r = Some f /\ redirect_chain r = Some chain
       /\ validate_redirect url f (Some payload) (callback_url config) = true
       /\ 1 <= List.length chain <= 2
       /\ List.last chain EmptyString = f.
Proof.
  unfold cookie_attempt, bind, make_request, ret.
  destruct (session_request config _) as [response |]; [| discriminate].
  destruct (_ && _); [| discriminate].
  pose proof (follow_one_hop_chain url (location_of response)
                (mkState (S (total_requests st))
                   (mkRequest "GET" url [] [(name, payload)] [] false :: history st)))
    as Hop.
  destruct (follow_one_hop _ _ _ _ _ _) as [[redirect_chain final_location] st1].
  cbn [fst snd] in Hop. destruct Hop as [Hc Hl].
  destruct (validate_redirect _ _ _ _) eqn:V; [| discriminate].
  cbn [fst]. intros H. injection H as <-. cbn. repeat split.
  exists final_location, redirect_chain. repeat split; try assumption;
    destruct Hc as [-> | ->]; cbn; lia.
Qed.

End WithPeer.

End FindingFacts.

(** X16: [_enhanced_vulnerability_verification] never returns [True]. It
    raises [TypeError] exactly when the response is a redirect with a
    [Location] that the validator accepts, and returns [False] or [None]
    otherwise. *)
Theorem X16_enhanced_verification_never_confirms :
  forall (config : Scanner.Config) (url payload : string)
         (response : option Scanner.Response),
    Smart._enhanced_vulnerability_verification config url payload response
    <> inr (Some true)
    /\ (Smart._enhanced_vulnerability_verification config url payload response
        = inl TypeError
        <-> exists r,
              response = Some r
              /\ Scanner.is_redirect_status (Scanner.status_code r) = true
              /\ Scanner.location_of r <> EmptyString
              /\ Utils.validate_redirect payload (Scanner.location_of r)
                   (Scanner.callback_url config) None = true).
Proof.
  intros config url payload response.
  unfold Smart._enhanced_vulnerability_verification,
    Smart._is_external_redirect_two_arguments, rbind, raise, pure.
  destruct response as [r |].
  2: { split; [discriminate |]. split; [discriminate |].
       intros [r [H _]]. discriminate H. }
  destruct (Scanner.is_redirect_status (Scanner.status_code r)) eqn:R.
  2: { destruct (negb (Scanner.truthy_response (Some r))); cbn [negb];
       (split; [discriminate |]); (split; [discriminate |]);
       intros [r' [H [R' _]]]; injection H as <-; congruence. }
  rewrite (FindingFacts.redirect_status_truthy r R). cbn [negb].
  destruct (PyStr.is_empty (Scanner.location_of r)) eqn:L.
  { split; [discriminate |]. split; [discriminate |].
    intros [r' [H [_ [N _]]]]. injection H as <-.
    apply StrFacts.is_empty_true in L. contradiction. }
  destruct (Utils.validate_redirect _ _ _ _) eqn:V.
  - split; [discriminate |]. split; [| reflexivity].
    intros _. exists r. repeat split; try assumption.
    now apply StrFacts.is_empty_false.
  - split; [discriminate |]. split; [discriminate |].
    intros [r' [H [_ [_ V']]]]. injection H as <-. congruence.
Qed.

(** X17: a vulnerable result of the URL-parameter tester names a final
    location whose normalised host is the payload's normalised host, and
    the target URL parses and has another host or none. *)
Theorem X17_url_parameter_finding_is_on_payload_host :
  forall (lib : Library) (config : Scanner.Config) (server : Scanner.Server)
         (url param payload : string) (st : Scanner.State) (r : Scanner.Result),
    fst (Scanner.test_url_parameter lib config server url param payload st) = Some r ->
    Scanner.vulnerable r = true ->
    exists f h oh,
      Scanner.final_location r = Some f
      /\ Utils.normalized_hostname f = inr (Some h)
      /\ Utils.normalized_hostname payload = inr (Some h)
      /\ Utils.normalized_hostname url = inr oh
      /\ oh <> Some h.
Proof.
  intros lib config server url param payload st r Hr Hv.
  destruct (FindingFacts.url_parameter_result lib config server url param payload st r Hr)
    as [_ [_ [_ [_ H]]]].
  destruct (H Hv) as [_ [f [Hf [_ He]]]].
  destruct (FindingFacts.external_hosts url f payload He) as [h [oh Hh]].
  exists f, h, oh. split; [exact Hf | exact Hh].
Qed.

Lemma X17_url_parameter_finding_is_on_payload_host_witness :
  exists f h oh,
    Some "http://evil.com/" = Some f
    /\ Utils.normalized_hostname f = inr (Some h)
    /\ Utils.normalized_hostname "http://evil.com" = inr (Some h)
    /\ Utils.normalized_hostname "http://site.test/login" = inr oh
    /\ oh <> Some h.
Proof.
  apply (X17_url_parameter_finding_is_on_payload_host Examples.example_library
           Examples.default_config (Examples.always_redirects "http://evil.com/")
           "http://site.test/login" "url" "http://evil.com" Examples.initial
           (Scanner.mkResult true "http://site.test/login?url=http%3A%2F%2Fevil.com"
              "http://site.test/login" (Some "url") None None "http://evil.com"
              (Some "URL Parameter") 302 (Some "http://evil.com/")
              (Some "http://evil.com/") None
              (Some ["http://evil.com/"; "http://evil.com/"; "http://evil.com/";
                     "http://evil.com/"; "http://evil.com/"; "http://evil.com/"])
              (Some [("Location", "http://evil.com/")]) None None));
    vm_compute; reflexivity.
Defined.

(** X18: the orchestrator gives every vulnerable result of the
    URL-parameter tester the severity [High]: what made the result
    vulnerable is the first test of the classifier. *)
Theorem X18_url_parameter_finding_is_high :
  forall (lib : Library) (config : Scanner.Config) (server : Scanner.Server)
         (url param payload : string) (st : Scanner.State) (r : Scanner.Result),
    fst (Scanner.test_url_parameter lib config server url param payload st) = Some r ->
    Scanner.vulnerable r = true ->
    Scanner.severity (Scanner.enrich r) = Some (Scanner.Sev Scanner.High).
Proof.
  intros lib config server url param payload st r Hr Hv.
  destruct (FindingFacts.url_parameter_result lib config server url param payload st r Hr)
    as [Ho [Hp [_ [_ H]]]].
  destruct (H Hv) as [_ [f [Hf [_ He]]]].
  unfold Scanner.enrich, Scanner.with_severity. cbn [Scanner.severity].
  rewrite Ho, Hp, Hf, (FindingFacts.external_is_high url payload f He). reflexivity.
Qed.

Lemma X18_url_parameter_finding_is_high_witness :
  option_map (fun r => Scanner.severity (Scanner.enrich r))
    (fst (Scanner.test_url_parameter Examples.example_library Examples.default_config
            (Examples.always_redirects "http://evil.com/") "http://site.test/login"
            "url" "http://evil.com" Examples.initial))
  = Some (Some (Scanner.Sev Scanner.High)).
Proof.
  destruct (fst (Scanner.test_url_parameter Examples.example_library
                   Examples.default_config (Examples.always_redirects "http://evil.com/")
                   "http://site.test/login" "url" "http://evil.com" Examples.initial))
    as [r |] eqn:E; [| vm_compute in E; discriminate E].
  cbn [option_map]. f_equal.
  apply (X18_url_parameter_finding_is_high Examples.example_library
           Examples.default_config (Examples.always_redirects "http://evil.com/")
           "http://site.test/login" "url" "http://evil.com" Examples.initial r E).
  vm_compute in E. injection E as <-. reflexivity.
Defined.

(** ** Severity labels in a scan *)

Module LabelFacts.
Import PyStr Utils Scanner Orchestration Accounting.

(** What a tester hands to the orchestrator: no severity yet, and a final
    location on every vulnerable result. *)
Lemma process_results_labels (batch : list Result) :
  Forall (fun r => severity r = None
                   /\ (vulnerable r = true -> exists f, final_location r = Some f)) batch ->
  Forall (fun r => (vulnerable r = true -> exists s, severity r = Some (Sev s))
                   /\ (vulnerable r = false -> severity r = None))
         (process_results batch).
Proof.
  unfold process_results. intros H. apply Forall_map.
  eapply Forall_impl; [| exact H]. cbn beta. intros r [Hs Hf].
  destruct (vulnerable r) eqn:V.
  - destruct (Hf eq_refl) as [f Ef].
    change (vulnerable (enrich r)) with (vulnerable r). rewrite V.
    split; [| discriminate]. intros _.
    unfold enrich, with_severity. cbn [severity]. rewrite Ef.
    destruct (FindingFacts.severity_returns (original_url r) (payload r) f) as [s ->].
    now exists s.
  - rewrite V. split; [discriminate | auto].
Qed.

Lemma of_tester_labels (t : M State (option Result)) :
  (forall st r, fst (t st) = Some r ->
     severity r = None
     /\ (vulnerable r = true -> exists f, final_location r = Some f)) ->
  forall st found st',
    of_tester t st = (inr found, st') ->
    Forall (fun r => (vulnerable r = true -> exists s, severity r = Some (Sev s))
                     /\ (vulnerable r = false -> severity r = None)) found.
Proof.
  intros Ht st found st'. unfold of_tester, bind, ret, pure.
  specialize (Ht st). destruct (t st) as [[r |] st1]; intros H; injection H as <- _.
  - apply (process_results_labels [r]).
    constructor; [apply Ht; reflexivity | constructor].
  - constructor.
Qed.

(** What holds of the results of every step holds of those of a run. *)
Lemma run_attempts_all (P : Result -> Prop) (stop : bool) (attempts : list Attempt) :
  Forall (fun a : Attempt => forall st found st', a st = (inr found, st') -> Forall P found)
         attempts ->
  forall results st flow st',
    Forall P results ->
    run_attempts stop attempts results st = (inr flow, st') ->
    Forall P (held flow).
Proof.
  induction 1 as [| a attempts Ha _ IH]; intros results st flow st' Hres Hrun.
  - cbn [run_attempts] in Hrun. unfold ret, pure in Hrun.
    injection Hrun as <- _. exact Hres.
  - cbn [run_attempts] in Hrun. unfold bind in Hrun.
    destruct (a st) as [[e | found] st1] eqn:Ea; [discriminate Hrun |].
    pose proof (Ha st found st1 Ea) as Hf.
    assert (Hall : Forall P (results ++ found)) by (apply Forall_app; auto).
    destruct (stop && existsb vulnerable found).
    + unfold ret, pure in Hrun. injection Hrun as <- _. exact Hall.
    + exact (IH _ _ _ _ Hall Hrun).
Qed.

Section WithPeer.

Variable lib : Library.
Variable config : Config.
Variable payload_manager : PayloadManager.
Variable server : Server.

Lemma schedule_labels url :
  Forall (fun a : Attempt =>
            forall st found st', a st = (inr found, st') ->
              Forall (fun r => (vulnerable r = true -> exists s, severity r = Some (Sev s))
                               /\ (vulnerable r = false -> severity r = None)) found)
         (schedule lib config payload_manager server url).
Proof.
  unfold schedule, attempts_over.
  apply Forall_app; split.
  { apply Forall_flat_map, Forall_forall. intros param _.
    apply Forall_map, Forall_forall. intros p _.
    apply of_tester_labels. intros st r Hr.
    destruct (FindingFacts.url_parameter_result lib config server url param p st r Hr)
      as [_ [_ [_ [Hs Hv]]]].
    split; [exact Hs |]. intros V. destruct (Hv V) as [_ [f [Hf _]]]. eauto. }
  apply Forall_app; split.
  { destruct (headers_test config); [| constructor].
    apply Forall_flat_map, Forall_forall. intros header _.
    apply Forall_map, Forall_forall. intros p _.
    apply of_tester_labels. intros st r Hr.
    destruct (FindingFacts.header_result config server url header p st r Hr)
      as [_ [_ [Hs Hv]]].
    split; [exact Hs |]. intros V. destruct (Hv V) as [_ [f [Hf _]]]. eauto. }
  apply Forall_app; split.
  { constructor; [| constructor]. intros st found st'.
    unfold form_tester, bind, ret.
    pose proof (FastFacts.test_form_redirects_outcome lib config server url st) as O.
    destruct (test_form_redirects lib config server url st) as [r st1].
    cbn [fst] in O. destruct O as [-> | ->]; [| discriminate].
    cbn. intros H. injection H as <- _. constructor. }
  apply Forall_flat_map, Forall_forall. intros name _.
  apply Forall_map, Forall_forall. intros p _.
  apply of_tester_labels. intros st r Hr.
  destruct (FindingFacts.cookie_result lib config server url name p st r Hr)
    as [_ [_ [_ [Hs [_ [f [chain [Hf _]]]]]]]].
  split; [exact Hs | eauto].
Qed.

End WithPeer.

End LabelFacts.

(** X19: in what [scan_single_url] returns, every vulnerable result
    carries the severity [High], [Medium] or [Low], never the label
    [ErrorDeterminingSeverity], and every other result carries none. *)
Theorem X19_scan_results_are_labelled :
  forall (lib : Library) (config : Scanner.Config)
         (payload_manager : Scanner.PayloadManager) (server : Scanner.Server)
         (url : string) (st : Scanner.State) (results : list Scanner.Result)
         (st' : Scanner.State),
    Scanner.scan_single_url lib config payload_manager server url st = (inr results, st') ->
    Forall (fun r =>
              (Scanner.vulnerable r = true ->
               exists s, Scanner.severity r = Some (Scanner.Sev s))
              /\ (Scanner.vulnerable r = false -> Scanner.severity r = None))
           results.
Proof.
  intros lib config payload_manager server url st results st'.
  rewrite OrchestrationFacts.scan_single_url_runs. unfold Orchestration.collapse.
  destruct (Scanner.run_attempts _ _ _ _) as [[e | flow] st1] eqn:R; cbn [fst snd];
    [discriminate |].
  intros H.
  assert (E : results = Accounting.held flow)
    by (destruct flow; injection H as <- _; reflexivity).
  rewrite E.
  eapply LabelFacts.run_attempts_all; [apply LabelFacts.schedule_labels | | exact R].
  constructor.
Qed.

Lemma X19_scan_results_are_labelled_witness :
  exists results st',
    Scanner.scan_single_url Examples.example_library Examples.fast_config
      Examples.one_payload (Examples.always_redirects "http://evil.com/")
      "http://site.test/login" Examples.initial
    = (inr results, st')
    /\ List.length results = 1
    /\ Forall (fun r =>
                 (Scanner.vulnerable r = true ->
                  exists s, Scanner.severity r = Some (Scanner.Sev s))
                 /\ (Scanner.vulnerable r = false -> Scanner.severity r = None))
              results.
Proof.
  eexists. eexists. split; [vm_compute; reflexivity |]. split; [reflexivity |].
  eapply (X19_scan_results_are_labelled Examples.example_library Examples.fast_config
            Examples.one_payload (Examples.always_redirects "http://evil.com/")
            "http://site.test/login" Examples.initial).
  vm_compute. reflexivity.
Defined.

(** ** Requests sent and requests counted *)

Module AccountingFacts.
Import PyStr Utils Scanner Orchestration Accounting.

Lemma Sent_refl (P : Request -> Prop) (st : State) : Sent P 0 st st.
Proof. exists []. repeat split. constructor. Qed.

Lemma Sent_trans (P : Request -> Prop) (a b : nat) (st1 st2 st3 : State) :
  Sent P a st1 st2 -> Sent P b st2 st3 -> Sent P (a + b) st1 st3.
Proof.
  intros [s1 [H1 [F1 T1]]] [s2 [H2 [F2 T2]]]. exists (s2 ++ s1)%list.
  rewrite H2, H1, app_assoc. split; [reflexivity |].
  split; [apply Forall_app; auto |].
  rewrite length_app. lia.
Qed.

Lemma sends_ret {A : Type} (P : Request -> Prop) (a : A) : sends P (ret a).
Proof. intros st. apply Sent_refl. Qed.

Lemma sends_bind {A B : Type} (P : Request -> Prop) (m : M State A) (k : A -> M State B) :
  sends P m -> (forall a, sends P (k a)) -> sends P (bind m k).
Proof.
  intros Hm Hk st. unfold bind. specialize (Hm st).
  destruct (m st) as [a st1]. cbn [snd] in Hm.
  exact (Sent_trans P 0 0 _ _ _ Hm (Hk a st1)).
Qed.

Lemma costs_ret {A : Type} (a : A) : costs 0 0 (ret a).
Proof. intros st. cbn. lia. Qed.

Lemma costs_bind {A B : Type} (a b c d : nat) (m : M State A) (k : A -> M State B) :
  costs a b m -> (forall x, costs c d (k x)) -> costs (a + c) (b + d) (bind m k).
Proof.
  intros Hm Hk st. unfold bind. specialize (Hm st).
  destruct (m st) as [x st1]. cbn [snd] in Hm. specialize (Hk x st1). lia.
Qed.

Lemma costs_weaken {A : Type} (lo hi lo' hi' : nat) (m : M State A) :
  lo' <= lo -> hi <= hi' -> costs lo hi m -> costs lo' hi' m.
Proof. intros H1 H2 Hm st. specialize (Hm st). lia. Qed.

Section WithPeer.

Variable lib : Library.
Variable config : Config.
Variable payload_manager : PayloadManager.
Variable server : Server.
Variable target : string.

Lemma make_request_sends url headers cookies :
  sends (scan_request target) (make_request config server url "GET" headers cookies false).
Proof.
  intros st. unfold make_request. cbn [snd].
  exists [mkRequest "GET" url headers cookies [] false].
  repeat split. constructor; [| constructor].
  repeat split. discriminate.
Qed.

Lemma make_request_costs url method headers cookies allow_redirects :
  costs 1 1 (make_request config server url method headers cookies allow_redirects).
Proof. intros st. cbn. lia. Qed.

(** One case analysis or one sequencing step of a computation that is
    to be shown to count its requests. *)
Ltac sends_step :=
  match goal with
  | |- sends _ (ret _) => apply sends_ret
  | |- sends _ (make_request _ _ _ _ _ _ false) => apply make_request_sends
  | |- sends _ (bind _ _) => apply sends_bind; [| intros ?]
  | |- sends _ (match ?x with _ => _ end) => destruct x
  end.

Lemma follow_redirect_chain_sends (n : nat) :
  forall base location c,
    sends (scan_request target) (follow_redirect_chain lib config server n base location c).
Proof.
  induction n as [| n IH]; intros base location c; cbn [follow_redirect_chain].
  - apply sends_ret.
  - repeat sends_step. apply IH.
Qed.

Lemma resolve_redirects_sends test_url response :
  sends (scan_request target) (resolve_redirects lib config server test_url response).
Proof.
  unfold resolve_redirects. repeat sends_step. apply follow_redirect_chain_sends.
Qed.

Lemma check_meta_refresh_sends parsed test_url url param payload content response :
  sends (scan_request target)
    (check_meta_refresh lib config server parsed test_url url param payload content response).
Proof. unfold check_meta_refresh. repeat sends_step. Qed.

Lemma javascript_matches_sends parsed test_url url param payload response matches :
  sends (scan_request target)
    (javascript_matches config server parsed test_url url param payload response matches).
Proof.
  induction matches as [| m rest IH]; cbn [javascript_matches].
  - apply sends_ret.
  - repeat sends_step; exact IH.
Qed.

Lemma javascript_patterns_sends parsed test_url url param payload content response patterns :
  sends (scan_request target)
    (javascript_patterns lib config server parsed test_url url param payload content
       response patterns).
Proof.
  induction patterns as [| p rest IH]; cbn [javascript_patterns].
  - apply sends_ret.
  - apply sends_bind; [apply javascript_matches_sends |].
    intros [e | [f |]]; try apply sends_ret. exact IH.
Qed.

Lemma test_url_parameter_sends url param payload :
  sends (scan_request target) (test_url_parameter lib config server url param payload).
Proof.
  unfold test_url_parameter.
  destruct (Urllib.urlparse url) as [e | parsed]; [apply sends_ret |].
  apply sends_bind; [apply make_request_sends |].
  intros [r |]; [| apply sends_ret].
  destruct (negb _); [apply sends_ret |].
  apply sends_bind; [apply resolve_redirects_sends |].
  intros [c |].
  - destruct (_ && _); apply sends_ret.
  - destruct (_ =? _)%Z; [| apply sends_ret].
    apply sends_bind; [apply check_meta_refresh_sends |].
    intros [result |]; [apply sends_ret |].
    apply sends_bind; [apply javascript_patterns_sends |].
    intros [e | [f |]]; apply sends_ret.
Qed.

Lemma test_header_injection_sends url header payload :
  sends (scan_request target) (test_header_injection config server url header payload).
Proof. unfold test_header_injection. repeat sends_step. Qed.

Lemma follow_one_hop_sends url location :
  sends (scan_request target) (follow_one_hop lib config server url location).
Proof. unfold follow_one_hop. repeat sends_step. Qed.

Lemma cookie_attempt_sends url name payload :
  sends (scan_request target) (cookie_attempt lib config server url name payload).
Proof.
  unfold cookie_attempt.
  apply sends_bind; [apply make_request_sends |].
  intros [r |]; [| apply sends_ret].
  destruct (_ && _); [| apply sends_ret].
  apply sends_bind; [apply follow_one_hop_sends |].
  intros [chain final]. destruct (validate_redirect _ _ _ _); apply sends_ret.
Qed.

(** A tester as a step of the scan: it never raises. *)
Lemma of_tester_accounted (t : M State (option Result)) :
  sends (scan_request target) t -> accounted (scan_request target) (of_tester t).
Proof.
  intros Ht st. unfold of_tester, bind, ret. specialize (Ht st).
  destruct (t st) as [r st1]. exact Ht.
Qed.

Lemma attempts_over_accounted test names payloads :
  (forall name payload, sends (scan_request target) (test name payload)) ->
  Forall (accounted (scan_request target)) (attempts_over test names payloads).
Proof.
  intros Ht. unfold attempts_over.
  apply Forall_flat_map, Forall_forall. intros name _.
  apply Forall_map, Forall_forall. intros p _.
  apply of_tester_accounted, Ht.
Qed.

(** The form tester sends its probe; when the page holds a form it
    counts a POST that it never sends, and raises. *)
Lemma form_tester_accounted :
  accounted (scan_request target) (form_tester lib config server target).
Proof.
  intros st. unfold form_tester, test_form_redirects, bind, make_request, ret.
  set (probe := mkRequest "GET" target [] [] [] true).
  assert (One : forall a, Sent (scan_request target) a st
                  (mkState (a + S (total_requests st)) (probe :: history st))).
  { intros a. exists [probe]. repeat split; [| cbn; lia].
    constructor; [repeat split | constructor]. }
  destruct (session_request config (server (history st) probe)) as [r |]; [| exact (One 0)].
  destruct (_ || _); [exact (One 0) |].
  destruct (negb _); [exact (One 0) |].
  unfold form_params, test_payloads. destruct (fast config); exact (One 1).
Qed.

Lemma schedule_accounted :
  Forall (accounted (scan_request target))
         (schedule lib config payload_manager server target).
Proof.
  unfold schedule.
  apply Forall_app; split.
  { apply attempts_over_accounted. intros. apply test_url_parameter_sends. }
  apply Forall_app; split.
  { destruct (headers_test config); [| constructor].
    apply attempts_over_accounted. intros. apply test_header_injection_sends. }
  apply Forall_app; split.
  { constructor; [apply form_tester_accounted | constructor]. }
  apply attempts_over_accounted. intros. apply cookie_attempt_sends.
Qed.

End WithPeer.

(** A run of accounted steps is accounted: it stops at the first step
    that raises. *)
Lemma run_attempts_accounted (P : Request -> Prop) (stop : bool) (attempts : list Attempt) :
  Forall (accounted P) attempts ->
  forall results st,
    Sent P (ahead_of (fst (run_attempts stop attempts results st))) st
         (snd (run_attempts stop attempts results st)).
Proof.
  induction 1 as [| a attempts Ha _ IH]; intros results st; cbn [run_attempts].
  - apply Sent_refl.
  - unfold bind. specialize (Ha st). destruct (a st) as [[e | found] st1];
      cbn [fst snd ahead_of] in Ha.
    + exact Ha.
    + destruct (stop && existsb vulnerable found); [exact Ha |].
      exact (Sent_trans P 0 _ _ _ _ Ha (IH _ st1)).
Qed.

End AccountingFacts.

(** X20: every request [scan_single_url] sends is a [GET] without a
    body, for the POST of the form tester is never sent; and but for the
    probe of the form tester each of them leaves redirects to the
    scanner. When the scan returns, the counter [get_total_requests]
    reads has moved by the number of requests sent; when it raises, by
    one more. *)
Theorem X20_scan_counts_its_requests :
  forall (lib : Library) (config : Scanner.Config)
         (payload_manager : Scanner.PayloadManager) (server : Scanner.Server)
         (url : string) (st : Scanner.State),
    let run := Scanner.scan_single_url lib config payload_manager server url st in
    exists sent,
      Scanner.history (snd run) = (sent ++ Scanner.history st)%list
      /\ Forall (fun q =>
                   Scanner.req_method q = "GET" /\ Scanner.req_data q = []
                   /\ (Scanner.req_allow_redirects q = true ->
                       q = Scanner.mkRequest "GET" url [] [] [] true)) sent
      /\ Smart.get_total_requests (snd run)
         = match fst run with
           | inr _ => List.length sent + Smart.get_total_requests st
           | inl _ => 1 + List.length sent + Smart.get_total_requests st
           end.
Proof.
  intros lib config payload_manager server url st run. unfold run.
  rewrite OrchestrationFacts.scan_single_url_runs.
  pose proof (AccountingFacts.run_attempts_accounted (Accounting.scan_request url)
                (Scanner.fast config)
                (Scanner.schedule lib config payload_manager server url)
                (AccountingFacts.schedule_accounted lib config payload_manager server url)
                [] st) as [sent [H [F T]]].
  exists sent. unfold Orchestration.collapse. cbn [fst snd].
  split; [exact H |]. split; [exact F |].
  unfold Smart.get_total_requests. rewrite T.
  destruct (fst (Scanner.run_attempts _ _ _ _)) as [e | [results | results]]; reflexivity.
Qed.

(** ** The cookie tester and the smart testers *)

Module LoopFacts.
Import PyStr Utils Scanner Orchestration Accounting AccountingFacts.

Section WithPeer.

Variable lib : Library.
Variable config : Config.
Variable server : Server.

Lemma follow_one_hop_costs url location :
  costs 0 1 (follow_one_hop lib config server url location).
Proof.
  unfold follow_one_hop.
  destruct (urljoin lib url location) as [e | resolved].
  - apply (costs_weaken 0 0); [lia | lia | apply costs_ret].
  - apply (costs_weaken (1 + 0) (1 + 0)); [lia | lia |].
    apply costs_bind; [apply make_request_costs |].
    intros [r |]; [destruct (_ && _) |]; apply costs_ret.
Qed.

(** A cookie attempt sends its request and follows at most one hop,
    whatever [follow_redirects] is set to. *)
Lemma cookie_attempt_costs url name payload :
  costs 1 2 (cookie_attempt lib config server url name payload).
Proof.
  unfold cookie_attempt. apply (costs_weaken (1 + 0) (1 + 1)); [lia | lia |].
  apply costs_bind; [apply make_request_costs |].
  intros [r |]; [| apply (costs_weaken 0 0); [lia | lia | apply costs_ret]].
  destruct (_ && _); [| apply (costs_weaken 0 0); [lia | lia | apply costs_ret]].
  apply (costs_weaken (0 + 0) (1 + 0)); [lia | lia |].
  apply costs_bind; [apply follow_one_hop_costs |].
  intros [chain final]. destruct (validate_redirect _ _ _ _); apply costs_ret.
Qed.

Lemma cookie_payloads_at_most url name payloads :
  forall results,
    costs 0 (2 * List.length payloads)
      (cookie_payloads lib config server url name payloads results).
Proof.
  induction payloads as [| p payloads IH]; intros results; cbn [cookie_payloads].
  - apply costs_ret.
  - apply (costs_weaken (1 + 0) (2 + 2 * List.length payloads));
      [lia | cbn [List.length]; lia |].
    apply costs_bind; [apply cookie_attempt_costs |].
    intros [finding |]; [| apply IH].
    destruct (fast config); [| apply IH].
    apply (costs_weaken 0 0); [lia | lia | apply costs_ret].
Qed.

Lemma cookie_loop_at_most url names payloads :
  forall results,
    costs 0 (List.length names * (2 * List.length payloads))
      (cookie_loop lib config server url names payloads results).
Proof.
  induction names as [| n names IH]; intros results; cbn [cookie_loop].
  - apply costs_ret.
  - apply (costs_weaken (0 + 0)
             (2 * List.length payloads + List.length names * (2 * List.length payloads)));
      [lia | cbn [List.length]; lia |].
    apply costs_bind; [apply cookie_payloads_at_most |].
    intros [results' | results']; [apply IH |].
    apply (costs_weaken 0 0); [lia | lia | apply costs_ret].
Qed.

(** When not in fast mode every combination is tried. *)
Lemma cookie_payloads_slow url name payloads :
  fast config = false ->
  forall results st,
    List.length payloads + total_requests st
    <= total_requests (snd (cookie_payloads lib config server url name payloads results st))
    /\ exists results',
         fst (cookie_payloads lib config server url name payloads results st)
         = Continue results'.
Proof.
  intros F. induction payloads as [| p payloads IH]; intros results st;
    cbn [cookie_payloads].
  - split; [cbn; lia | now exists results].
  - unfold bind. pose proof (cookie_attempt_costs url name p st) as C.
    destruct (cookie_attempt lib config server url name p st) as [[finding |] st1];
      cbn [snd] in C; rewrite ?F.
    + destruct (IH (results ++ [finding])%list st1) as [L E].
      split; [cbn [List.length]; lia | exact E].
    + destruct (IH results st1) as [L E]. split; [cbn [List.length]; lia | exact E].
Qed.

Lemma cookie_loop_slow url names payloads :
  fast config = false ->
  forall results st,
    List.length names * List.length payloads + total_requests st
    <= total_requests (snd (cookie_loop lib config server url names payloads results st)).
Proof.
  intros F. induction names as [| n names IH]; intros results st; cbn [cookie_loop].
  - cbn. lia.
  - unfold bind. destruct (cookie_payloads_slow url n payloads F results st) as [L [rs E]].
    destruct (cookie_payloads lib config server url n payloads results st) as [r st1].
    cbn [fst snd] in L, E. subst r. specialize (IH rs st1). cbn [List.length]. lia.
Qed.

(** The loops of the cookie tester keep what holds of each finding. *)
Lemma cookie_payloads_all (P : Result -> Prop) url name payloads :
  (forall p st r, fst (cookie_attempt lib config server url name p st) = Some r -> P r) ->
  forall results st,
    Forall P results ->
    Forall P (held (fst (cookie_payloads lib config server url name payloads results st))).
Proof.
  intros Hp. induction payloads as [| p payloads IH]; intros results st Hr;
    cbn [cookie_payloads].
  - exact Hr.
  - unfold bind. specialize (Hp p st).
    destruct (cookie_attempt lib config server url name p st) as [[finding |] st1];
      [| now apply IH].
    assert (Hall : Forall P (results ++ [finding])).
    { apply Forall_app. split; [exact Hr |]. constructor; [now apply Hp | constructor]. }
    destruct (fast config); [exact Hall | now apply IH].
Qed.

Lemma cookie_loop_all (P : Result -> Prop) url names payloads :
  (forall name p st r,
     fst (cookie_attempt lib config server url name p st) = Some r -> P r) ->
  forall results st,
    Forall P results ->
    Forall P (fst (cookie_loop lib config server url names payloads results st)).
Proof.
  intros Hp. induction names as [| n names IH]; intros results st Hr; cbn [cookie_loop].
  - exact Hr.
  - unfold bind.
    pose proof (cookie_payloads_all P url n payloads (Hp n) results st Hr) as H.
    destruct (cookie_payloads lib config server url n payloads results st)
      as [[rs | rs] st1]; cbn [fst held] in H; [now apply IH | exact H].
Qed.

(** The loops of the smart testers keep what holds of each vulnerable
    result. *)
Lemma smart_payloads_loop_all (P : Result -> Prop) test payloads :
  (forall p st r, fst (test p st) = Some r -> vulnerable r = true -> P r) ->
  forall results st,
    Forall P results ->
    Forall P (held (fst (Smart.smart_payloads_loop config test payloads results st))).
Proof.
  intros Hp. induction payloads as [| p payloads IH]; intros results st Hr;
    cbn [Smart.smart_payloads_loop].
  - exact Hr.
  - unfold bind. specialize (Hp p st).
    destruct (test p st) as [[r |] st1]; [| now apply IH].
    destruct (vulnerable r) eqn:V; [| now apply IH].
    assert (Hall : Forall P (results ++ [r])).
    { apply Forall_app. split; [exact Hr |]. constructor; [now apply Hp | constructor]. }
    destruct (fast config); [exact Hall | now apply IH].
Qed.

Lemma names_loop_all (P : Result -> Prop) test names payloads :
  (forall name p st r, fst (test name p st) = Some r -> vulnerable r = true -> P r) ->
  forall results st,
    Forall P results ->
    Forall P (held (fst (Smart.names_loop config test names payloads results st))).
Proof.
  intros Hp. induction names as [| n names IH]; intros results st Hr;
    cbn [Smart.names_loop].
  - exact Hr.
  - unfold bind.
    pose proof (smart_payloads_loop_all P (test n) payloads (Hp n) results st Hr) as H.
    destruct (Smart.smart_payloads_loop config (test n) payloads results st)
      as [[rs | rs] st1]; cbn [fst held] in H; [now apply IH | exact H].
Qed.

Lemma priority_loop_all (P : Result -> Prop) test params priority payloads :
  (forall name p st r, fst (test name p st) = Some r -> vulnerable r = true -> P r) ->
  forall results st,
    Forall P results ->
    Forall P (held (fst (Smart.priority_loop config test params priority payloads
                           results st))).
Proof.
  intros Hp. induction priority as [| n priority IH]; intros results st Hr;
    cbn [Smart.priority_loop].
  - exact Hr.
  - destruct (Urllib.mem n params); [| now apply IH].
    unfold bind.
    pose proof (smart_payloads_loop_all P (test n) payloads (Hp n) results st Hr) as H.
    destruct (Smart.smart_payloads_loop config (test n) payloads results st)
      as [[rs | rs] st1]; cbn [fst held] in H; [now apply IH | exact H].
Qed.

(** In fast mode a smart loop goes on with the results it was given, or
    is left with one more. *)
Lemma smart_payloads_loop_fast test payloads :
  fast config = true ->
  forall results st,
    match fst (Smart.smart_payloads_loop config test payloads results st) with
    | Continue rs => rs = results
    | Return rs => List.length rs = S (List.length results)
    end.
Proof.
  intros F. induction payloads as [| p payloads IH]; intros results st;
    cbn [Smart.smart_payloads_loop].
  - reflexivity.
  - unfold bind. destruct (test p st) as [[r |] st1]; [| apply IH].
    destruct (vulnerable r); [| apply IH].
    rewrite F. cbn. rewrite length_app. cbn. lia.
Qed.

Lemma names_loop_fast test names payloads :
  fast config = true ->
  forall results st,
    match fst (Smart.names_loop config test names payloads results st) with
    | Continue rs => rs = results
    | Return rs => List.length rs = S (List.length results)
    end.
Proof.
  intros F. induction names as [| n names IH]; intros results st; cbn [Smart.names_loop].
  - reflexivity.
  - unfold bind. pose proof (smart_payloads_loop_fast (test n) payloads F results st) as H.
    destruct (Smart.smart_payloads_loop config (test n) payloads results st)
      as [[rs | rs] st1]; cbn [fst] in H; [subst rs; apply IH | exact H].
Qed.

Lemma priority_loop_fast test params priority payloads :
  fast config = true ->
  forall results st,
    match fst (Smart.priority_loop config test params priority payloads results st) with
    | Continue rs => rs = results
    | Return rs => List.length rs = S (List.length results)
    end.
Proof.
  intros F. induction priority as [| n priority IH]; intros results st;
    cbn [Smart.priority_loop].
  - reflexivity.
  - destruct (Urllib.mem n params); [| apply IH].
    unfold bind. pose proof (smart_payloads_loop_fast (test n) payloads F results st) as H.
    destruct (Smart.smart_payloads_loop config (test n) payloads results st)
      as [[rs | rs] st1]; cbn [fst] in H; [subst rs; apply IH | exact H].
Qed.

(** The cost of the smart loops over a tester that sends one request. *)
Lemma smart_payloads_loop_costs test payloads :
  (forall p, costs 1 1 (test p)) ->
  forall results st,
    total_requests (snd (Smart.smart_payloads_loop config test payloads results st))
    <= List.length payloads + total_requests st
    /\ (fast config = false ->
        total_requests (snd (Smart.smart_payloads_loop config test payloads results st))
        = List.length payloads + total_requests st
        /\ exists rs,
             fst (Smart.smart_payloads_loop config test payloads results st)
             = Continue rs).
Proof.
  intros Ht. induction payloads as [| p payloads IH]; intros results st;
    cbn [Smart.smart_payloads_loop].
  - split; [cbn; lia |]. intros _. split; [reflexivity | now exists results].
  - unfold bind. pose proof (Ht p st) as C.
    destruct (test p st) as [[r |] st1]; cbn [snd] in C.
    + destruct (vulnerable r).
      * destruct (fast config) eqn:F.
        -- split; [cbn; lia | discriminate].
        -- destruct (IH (results ++ [r])%list st1) as [L E].
           split; [cbn [List.length]; lia |]. intros _.
           destruct (E eq_refl) as [E1 E2]. split; [cbn [List.length]; lia | exact E2].
      * destruct (IH results st1) as [L E].
        split; [cbn [List.length]; lia |]. intros F.
        destruct (E F) as [E1 E2]. split; [cbn [List.length]; lia | exact E2].
    + destruct (IH results st1) as [L E].
      split; [cbn [List.length]; lia |]. intros F.
      destruct (E F) as [E1 E2]. split; [cbn [List.length]; lia | exact E2].
Qed.

Lemma names_loop_costs test names payloads :
  (forall name p, costs 1 1 (test name p)) ->
  forall results st,
    total_requests (snd (Smart.names_loop config test names payloads results st))
    <= List.length names * List.length payloads + total_requests st
    /\ (fast config = false ->
        total_requests (snd (Smart.names_loop config test names payloads results st))
        = List.length names * List.length payloads + total_requests st).
Proof.
  intros Ht. induction names as [| n names IH]; intros results st; cbn [Smart.names_loop].
  - split; [cbn; lia | reflexivity].
  - unfold bind.
    destruct (smart_payloads_loop_costs (test n) payloads (Ht n) results st) as [L E].
    destruct (Smart.smart_payloads_loop config (test n) payloads results st)
      as [[rs | rs] st1]; cbn [fst snd] in L, E.
    + destruct (IH rs st1) as [L' E']. split; [cbn [List.length]; lia |].
      intros F. destruct (E F) as [E1 _]. specialize (E' F). cbn [List.length]. lia.
    + unfold ret. split; [cbn [snd List.length]; lia |].
      intros F. destruct (E F) as [_ [rs' C]]. discriminate C.
Qed.

End WithPeer.

End LoopFacts.

(** X21: whatever [follow_redirects] is set to, the cookie tester sends
    at most two requests for each cookie and payload: at most 102 in
    all, and at most 68 in fast mode; when not in fast mode, at least 51,
    one for each of the 17 cookie names and 3 payloads. *)
Theorem X21_cookie_tester_cost :
  forall (lib : Library) (config : Scanner.Config) (server : Scanner.Server)
         (url : string) (st : Scanner.State),
    let used :=
      Scanner.total_requests (snd (Scanner.test_cookie_redirects lib config server url st))
      - Scanner.total_requests st in
    used <= 102
    /\ (Scanner.fast config = true -> used <= 68)
    /\ (Scanner.fast config = false -> 51 <= used).
Proof.
  intros lib config server url st. cbv zeta. unfold Scanner.test_cookie_redirects.
  pose proof (LoopFacts.cookie_loop_at_most lib config server url Scanner.cookie_names
                (Scanner.test_payloads config) [] st) as [_ U].
  pose proof (LoopFacts.cookie_loop_slow lib config server url Scanner.cookie_names
                (Scanner.test_payloads config)) as L.
  unfold Scanner.test_payloads in *. cbn [List.length Scanner.cookie_names] in *.
  destruct (Scanner.fast config); cbn [List.length] in *.
  - repeat split; intros; try discriminate; lia.
  - specialize (L eq_refl [] st). repeat split; intros; try discriminate; lia.
Qed.

(** X22: [test_cookie_redirects] returns findings only: each result is
    vulnerable, names the final location the validator accepted for the
    target and the payload, and carries a chain of one or two locations
    that ends in it. *)
Theorem X22_cookie_tester_returns_findings :
  forall (lib : Library) (config : Scanner.Config) (server : Scanner.Server)
         (url : string) (st : Scanner.State),
    Forall (fun r =>
              Scanner.vulnerable r = true
              /\ Scanner.method r = Some "Cookie Redirect"
              /\ exists f chain,
                   Scanner.final_location r = Some f
                   /\ Scanner.redirect_chain r = Some chain
                   /\ Utils.validate_redirect url f (Some (Scanner.payload r))
                        (Scanner.callback_url config) = true
                   /\ 1 <= List.length chain <= 2
                   /\ List.last chain EmptyString = f)
           (fst (Scanner.test_cookie_redirects lib config server url st)).
Proof.
  intros lib config server url st. unfold Scanner.test_cookie_redirects.
  apply LoopFacts.cookie_loop_all; [| constructor].
  intros name p st0 r Hr.
  destruct (FindingFacts.cookie_result lib config server url name p st0 r Hr)
    as [Hv [_ [Hp [_ [Hm [f [chain H]]]]]]].
  split; [exact Hv |]. split; [exact Hm |]. exists f, chain. now rewrite Hp.
Qed.

(** X23: [_test_url_parameters_smart] returns vulnerable results only,
    each a redirect finding of the URL-parameter tester for the given
    target, without a severity; in fast mode it returns at most one. *)
Theorem X23_smart_parameter_results :
  forall (lib : Library) (config : Scanner.Config) (server : Scanner.Server)
         (url : string) (smart_payloads : list string)
         (url_analysis : Smart.UrlAnalysis) (st : Scanner.State),
    let results :=
      fst (Smart._test_url_parameters_smart lib config server url smart_payloads
             url_analysis st) in
    Forall (fun r =>
              Scanner.vulnerable r = true
              /\ Scanner.method r = Some "URL Parameter"
              /\ Scanner.original_url r = url
              /\ Scanner.severity r = None) results
    /\ (Scanner.fast config = true -> List.length results <= 1).
Proof.
  intros lib config server url smart_payloads url_analysis st. cbv zeta.
  unfold Smart._test_url_parameters_smart, bind, ret.
  set (P := fun r => Scanner.vulnerable r = true
                     /\ Scanner.method r = Some "URL Parameter"
                     /\ Scanner.original_url r = url
                     /\ Scanner.severity r = None).
  assert (HP : forall name p st0 r,
             fst (Scanner.test_url_parameter lib config server url name p st0) = Some r ->
             Scanner.vulnerable r = true -> P r).
  { intros name p st0 r Hr Hv.
    destruct (FindingFacts.url_parameter_result lib config server url name p st0 r Hr)
      as [Ho [_ [_ [Hs H]]]].
    destruct (H Hv) as [Hm _]. repeat split; assumption. }
  pose proof (LoopFacts.priority_loop_all config P
                (Scanner.test_url_parameter lib config server url)
                (Utils.extract_redirect_params lib url)
                (map Smart.name (Smart.priority_parameters url_analysis))
                smart_payloads HP [] st (Forall_nil P)) as A1.
  pose proof (fun F => LoopFacts.priority_loop_fast config
                (Scanner.test_url_parameter lib config server url)
                (Utils.extract_redirect_params lib url)
                (map Smart.name (Smart.priority_parameters url_analysis))
                smart_payloads F [] st) as B1.
  destruct (Smart.priority_loop _ _ _ _ _ _ _) as [[rs | rs] st1];
    cbn [fst Accounting.held] in A1, B1.
  2: { cbn [fst]. split; [exact A1 |]. intros F. rewrite (B1 F). cbn. lia. }
  destruct (negb (Scanner.fast config) || match rs with [] => true | _ => false end).
  2: { cbn [fst]. split; [exact A1 |]. intros F. rewrite (B1 F). cbn. lia. }
  pose proof (LoopFacts.names_loop_all config P
                (Scanner.test_url_parameter lib config server url)
                (filter (fun p => negb (Urllib.mem p
                           (map Smart.name (Smart.priority_parameters url_analysis))))
                        (Utils.extract_redirect_params lib url))
                smart_payloads HP rs st1 A1) as A2.
  pose proof (fun F => LoopFacts.names_loop_fast config
                (Scanner.test_url_parameter lib config server url)
                (filter (fun p => negb (Urllib.mem p
                           (map Smart.name (Smart.priority_parameters url_analysis))))
                        (Utils.extract_redirect_params lib url))
                smart_payloads F rs st1) as B2.
  destruct (Smart.names_loop _ _ _ _ _ _) as [[rs2 | rs2] st2];
    cbn [fst Accounting.held] in A2, B2 |- *; (split; [exact A2 |]); intros F.
  - rewrite (B2 F), (B1 F). cbn. lia.
  - rewrite (B2 F), (B1 F). cbn. lia.
Qed.

(** X24: [_test_header_injection_smart] tries four headers with the
    first ten payloads at most: it never sends more than 40 requests,
    and when not in fast mode it sends exactly four for each payload
    among the first ten. It returns vulnerable header findings only. *)
Theorem X24_smart_header_cost :
  forall (config : Scanner.Config) (server : Scanner.Server)
         (url : string) (smart_payloads : list string) (st : Scanner.State),
    let run := Smart._test_header_injection_smart config server url smart_payloads st in
    Scanner.total_requests (snd run) <= 40 + Scanner.total_requests st
    /\ (Scanner.fast config = false ->
        Scanner.total_requests (snd run)
        = 4 * Nat.min 10 (List.length smart_payloads) + Scanner.total_requests st)
    /\ Forall (fun r => Scanner.vulnerable r = true
                        /\ Scanner.method r = Some "Header Injection") (fst run).
Proof.
  intros config server url smart_payloads st. cbv zeta.
  unfold Smart._test_header_injection_smart, bind, ret.
  assert (C : forall name p,
             Accounting.costs 1 1 (Scanner.test_header_injection config server url name p)).
  { intros name p st0. unfold Scanner.test_header_injection, bind, Scanner.make_request.
    destruct (Scanner.session_request config _) as [r |]; [| cbn; lia].
    destruct (negb _); [cbn; lia |]. destruct (_ && _); cbn; lia. }
  destruct (LoopFacts.names_loop_costs config
              (Scanner.test_header_injection config server url) Smart.priority_headers
              (firstn 10 smart_payloads) C [] st) as [L E].
  pose proof (LoopFacts.names_loop_all config
                (fun r => Scanner.vulnerable r = true
                          /\ Scanner.method r = Some "Header Injection")
                (Scanner.test_header_injection config server url) Smart.priority_headers
                (firstn 10 smart_payloads)) as A.
  specialize (A (fun name p st0 r Hr Hv =>
                   conj Hv (proj1 (proj2 (proj2 (proj2
                     (FindingFacts.header_result config server url name p st0 r Hr))) Hv)))
                [] st (Forall_nil _)).
  rewrite length_firstn in L, E. cbn [List.length Smart.priority_headers] in L, E.
  destruct (Smart.names_loop _ _ _ _ _ _) as [[rs | rs] st1];
    cbn [fst snd Accounting.held] in *; (split; [lia |]); (split; [| exact A]);
    intros F; rewrite (E F); lia.
Qed.

(** ** The URL under test *)

Module TestUrlFacts.
Import PyStr Utils Scanner StrFacts HostFacts EncodeFacts.

Lemma quote_plus_cons (c : ascii) (r : string) :
  Urlencode.quote_plus (String c r)
  = (Urlencode.quote_plus (String c EmptyString) ++ Urlencode.quote_plus r)%string.
Proof.
  cbn [Urlencode.quote_plus]. destruct (Urlencode.always_safe c); [reflexivity |].
  destruct (Ascii.eqb c " "); [reflexivity |]. now rewrite append_assoc.
Qed.

Lemma quote_plus_char_alphabet (c : ascii) :
  all_chars (fun x => Urlencode.always_safe x || has_char x "+%=&")
            (Urlencode.quote_plus (String c EmptyString)) = true.
Proof. destruct c as [[] [] [] [] [] [] [] []]; vm_compute; reflexivity. Qed.

Lemma quote_plus_alphabet (s : string) :
  all_chars (fun x => Urlencode.always_safe x || has_char x "+%=&")
            (Urlencode.quote_plus s) = true.
Proof.
  induction s as [| c s IH]; [reflexivity |].
  now rewrite quote_plus_cons, all_chars_append, quote_plus_char_alphabet, IH.
Qed.

Lemma concat_alphabet (p : ascii -> bool) (sep : string) (l : list string) :
  all_chars p sep = true -> Forall (fun s => all_chars p s = true) l ->
  all_chars p (String.concat sep l) = true.
Proof.
  intros Hs. induction 1 as [| x l Hx Hl IH]; [reflexivity |].
  cbn [String.concat]. destruct l as [| y l]; [exact Hx |].
  now rewrite !all_chars_append, Hx, Hs, IH.
Qed.

Lemma urlencode_alphabet (query : list (string * list string)) :
  all_chars (fun x => Urlencode.always_safe x || has_char x "+%=&")
            (Urlencode.urlencode query) = true.
Proof.
  unfold Urlencode.urlencode. apply concat_alphabet; [reflexivity |].
  apply Forall_flat_map, Forall_forall. intros kv _.
  apply Forall_map, Forall_forall. intros elt _.
  now rewrite !all_chars_append, !quote_plus_alphabet.
Qed.

Lemma startswith_append_r (p s b : string) :
  startswith p s = true -> startswith p (s ++ b) = true.
Proof.
  revert s. induction p as [| c p IH]; intros s H; [apply startswith_nil |].
  destruct s as [| a s]; [discriminate H |].
  apply startswith_cons in H. destruct H as [<- H].
  cbn [append]. apply startswith_cons. auto.
Qed.

Lemma contains_append_r (x s b : string) :
  contains x s = true -> contains x (s ++ b) = true.
Proof.
  induction s as [| c s IH]; cbn [contains append]; intros H.
  - apply startswith_empty in H. subst x.
    destruct b; cbn [contains]; [reflexivity | now rewrite startswith_nil].
  - apply orb_true_iff in H. destruct H as [H | H].
    + change (String c (s ++ b)) with (String c s ++ b)%string.
      now rewrite (startswith_append_r x (String c s) b H).
    + now rewrite (IH H), orb_true_r.
Qed.

Lemma contains_append_l (x a s : string) :
  contains x s = true -> contains x (a ++ s) = true.
Proof.
  intros H. induction a as [| c a IH]; cbn [contains append]; [exact H |].
  now rewrite IH, orb_true_r.
Qed.

Lemma startswith_refl (p : string) : startswith p p = true.
Proof.
  induction p as [| c p IH]; [reflexivity |]. apply startswith_cons. auto.
Qed.

Lemma contains_self (x : string) : contains x x = true.
Proof.
  destruct x as [| c x]; [reflexivity |]. cbn [contains].
  now rewrite startswith_refl.
Qed.

Lemma contains_in_concat (sep x : string) (l : list string) :
  In x l -> contains x (String.concat sep l) = true.
Proof.
  induction l as [| y l IH]; [contradiction |]. intros [-> | H]; cbn [String.concat].
  - destruct l as [| z l]; [apply contains_self |].
    apply contains_append_r, contains_self.
  - destruct l as [| z l]; [contradiction |].
    apply contains_append_l, contains_append_l, IH, H.
Qed.

Lemma dict_set_in (d : list (string * list string)) (k : string) (v : list string) :
  In (k, v) (dict_set d k v).
Proof.
  induction d as [| [k' v'] d IH]; cbn [dict_set]; [now left |].
  destruct (k' =? k)%string; [now left | now right].
Qed.

End TestUrlFacts.

(** X25: the URL the URL-parameter tester requests carries the parameter
    with the payload as its value, both percent-encoded, and its query
    string holds unreserved characters, [+], [%], [=] and [&] only:
    nothing in a payload opens a fragment or another parameter. *)
Theorem X25_test_url_carries_encoded_payload :
  forall (lib : Library) (parsed : Urllib.ParseResult) (param payload : string),
    let new_query :=
      Urlencode.urlencode
        (Scanner.dict_set (parse_qs lib (Urllib.query parsed)) param [payload]) in
    PyStr.all_chars (fun c => Urlencode.always_safe c || PyStr.has_char c "+%=&")
                    new_query = true
    /\ PyStr.contains
         (Urlencode.quote_plus param ++ "=" ++ Urlencode.quote_plus payload) new_query
       = true
    /\ PyStr.contains
         ("?" ++ new_query)
         (Scanner.build_test_url lib parsed param payload) = true.
Proof.
  intros lib parsed param payload new_query.
  split; [apply TestUrlFacts.urlencode_alphabet |].
  assert (C : PyStr.contains
                (Urlencode.quote_plus param ++ "=" ++ Urlencode.quote_plus payload)
                new_query = true).
  { unfold new_query, Urlencode.urlencode. apply TestUrlFacts.contains_in_concat.
    apply in_flat_map. exists (param, [payload]).
    split; [apply TestUrlFacts.dict_set_in | now left]. }
  split; [exact C |].
  unfold Scanner.build_test_url, Urllib.urlunparse. fold new_query.
  cbn [Urllib.scheme Urllib.netloc Urllib.path Urllib.params Urllib.query
       Urllib.fragment].
  destruct (PyStr.is_empty new_query) eqn:E.
  { apply StrFacts.is_empty_true in E. rewrite E in C.
    destruct (Urlencode.quote_plus param); discriminate C. }
  match goal with
  | |- context [(?v ++ "?" ++ new_query)%string] =>
      generalize v; intros u
  end.
  destruct (PyStr.is_empty (Urllib.fragment parsed)).
  - apply TestUrlFacts.contains_append_l, TestUrlFacts.contains_self.
  - change (u ++ "?" ++ new_query)%string with (u ++ ("?" ++ new_query))%string.
    rewrite EncodeFacts.append_assoc.
    apply TestUrlFacts.contains_append_l, TestUrlFacts.contains_append_r,
      TestUrlFacts.contains_self.
Qed.

(** ** The form tester, the redirect chain and relative locations *)

(** X26: [test_form_redirects] never returns a finding. After its probe
    it returns the empty list, unless the probe is answered with status
    200 and a page that holds [<form]: then it counts a POST, sends
    nothing, and raises [AttributeError]. *)
Theorem X26_form_tester_never_reports :
  forall (lib : Library) (config : Scanner.Config) (server : Scanner.Server)
         (url : string) (st : Scanner.State),
    let probe := Scanner.mkRequest "GET" url [] [] [] true in
    let run := Scanner.test_form_redirects lib config server url st in
    let form_page :=
      exists r, server (Scanner.history st) probe = Some r
                /\ Scanner.status_code r = 200%Z
                /\ PyStr.contains "<form" (PyStr.lower (Scanner.text r)) = true in
    (fst run = inr []
     /\ snd run = Scanner.mkState (S (Scanner.total_requests st))
                    (probe :: Scanner.history st)
     /\ ~ form_page)
    \/ (fst run = inl AttributeError
        /\ snd run = Scanner.mkState (S (S (Scanner.total_requests st)))
                       (probe :: Scanner.history st)
        /\ form_page).
Proof.
  intros lib config server url st probe run form_page.
  unfold run, form_page, Scanner.test_form_redirects, bind, Scanner.make_request, ret.
  fold probe.
  destruct (Scanner.session_request config (server (Scanner.history st) probe))
    as [r |] eqn:Q.
  2: { left. repeat split. intros [r [H [E _]]]. rewrite H in Q.
       rewrite SessionFacts.session_request_plain in Q; [discriminate Q |].
       unfold Scanner.redirects. now rewrite E. }
  apply SessionFacts.session_request_some in Q. destruct Q as [Q _].
  destruct (Z.eqb_spec (Scanner.status_code r) 200) as [E | N].
  2: { rewrite orb_true_r. left. repeat split.
       intros [r' [H [E _]]]. rewrite Q in H. injection H as <-. contradiction. }
  assert (T : Scanner.truthy_response (Some r) = true)
    by (unfold Scanner.truthy_response; rewrite E; reflexivity).
  rewrite T. cbn [negb orb].
  destruct (PyStr.contains "<form" (PyStr.lower (Scanner.text r))) eqn:F; cbn [negb].
  - right. unfold Scanner.form_params, Scanner.test_payloads.
    destruct (Scanner.fast config); (split; [reflexivity |]);
      (split; [reflexivity |]); exists r; auto.
  - left. repeat split. intros [r' [H [_ F']]]. rewrite Q in H. injection H as <-.
    congruence.
Qed.

Module ChainShape.
Import PyStr Scanner StrFacts.

Section WithPeer.

Variable lib : Library.
Variable config : Config.
Variable server : Server.

(** The loop keeps the chain in step with the location it follows: what
    it adds are locations that are not empty, and it ends on the last
    location of the chain or on the address that location was resolved
    to. *)
Lemma follow_redirect_chain_shape (n : nat) :
  forall base current c st,
    current = List.last (chain c) EmptyString ->
    final c = current ->
    Forall (fun l => l <> EmptyString) (chain c) ->
    let c' := fst (follow_redirect_chain lib config server n base current c st) in
    (exists more, chain c' = (chain c ++ more)%list)
    /\ Forall (fun l => l <> EmptyString) (chain c')
    /\ (final c' = List.last (chain c') EmptyString
        \/ exists b, urljoin lib b (List.last (chain c') EmptyString) = inr (final c')).
Proof.
  induction n as [| n IH]; intros base current c st Hcur Hfin Hne;
    cbn [follow_redirect_chain].
  - cbn. split; [exists []; now rewrite app_nil_r |]. split; [exact Hne |].
    left. congruence.
  - assert (Same : (exists more, chain c = (chain c ++ more)%list)
                   /\ Forall (fun l => l <> EmptyString) (chain c)
                   /\ (final c = List.last (chain c) EmptyString
                       \/ exists b, urljoin lib b (List.last (chain c) EmptyString)
                                    = inr (final c))).
    { split; [exists []; now rewrite app_nil_r |]. split; [exact Hne |].
      left. congruence. }
    destruct (urljoin lib base current) as [e | absolute] eqn:J; [exact Same |].
    unfold bind, make_request.
    destruct (session_request config _) as [r |]; [| exact Same].
    destruct (negb (truthy_response (Some r))); [exact Same |].
    assert (Landed : (exists more, chain c = (chain c ++ more)%list)
                     /\ Forall (fun l => l <> EmptyString) (chain c)
                     /\ (absolute = List.last (chain c) EmptyString
                         \/ exists b, urljoin lib b (List.last (chain c) EmptyString)
                                      = inr absolute)).
    { split; [exists []; now rewrite app_nil_r |]. split; [exact Hne |].
      right. exists base. now rewrite <- Hcur. }
    destruct (negb (is_redirect_status (status_code r))); [exact Landed |].
    destruct (is_empty (location_of r)) eqn:L; [exact Landed |].
    apply is_empty_false in L.
    specialize (IH absolute (location_of r)
                  (mkChain (chain c ++ [location_of r]) (location_of r) (headers r))
                  (mkState (S (total_requests st))
                     (mkRequest "GET" absolute [] [] [] false :: history st))).
    cbn [chain final] in IH.
    destruct IH as [[more Hm] [Hall Hend]].
    + now rewrite last_last.
    + reflexivity.
    + apply Forall_app. split; [exact Hne |]. constructor; [exact L | constructor].
    + split; [| split; assumption].
      exists (location_of r :: more). rewrite Hm, <- app_assoc. reflexivity.
Qed.

End WithPeer.

End ChainShape.

(** X27: the chain the URL-parameter tester resolves starts with the
    [Location] of the first response and holds no empty entry; the final
    location is the last entry of the chain as the server sent it, or the
    absolute address the last entry was resolved to when the request for
    it was answered without a further redirect. *)
Theorem X27_redirect_chain_shape :
  forall (lib : Library) (config : Scanner.Config) (server : Scanner.Server)
         (test_url : string) (response : Scanner.Response)
         (st : Scanner.State) (c : Scanner.Chain) (st' : Scanner.State),
    Scanner.resolve_redirects lib config server test_url response st = (Some c, st') ->
    (exists more, Scanner.chain c = Scanner.location_of response :: more)
    /\ Forall (fun l => l <> EmptyString) (Scanner.chain c)
    /\ (Scanner.final c = List.last (Scanner.chain c) EmptyString
        \/ exists base,
             urljoin lib base (List.last (Scanner.chain c) EmptyString)
             = inr (Scanner.final c)).
Proof.
  intros lib config server test_url response st c st'.
  unfold Scanner.resolve_redirects.
  destruct (Scanner.is_redirect_status _); [| discriminate].
  destruct (PyStr.is_empty (Scanner.location_of response)) eqn:L; [discriminate |].
  apply StrFacts.is_empty_false in L.
  unfold bind, ret.
  pose proof (ChainShape.follow_redirect_chain_shape lib config server
                (Z.to_nat (Scanner.max_redirects config)) test_url
                (Scanner.location_of response)
                (Scanner.mkChain [Scanner.location_of response]
                   (Scanner.location_of response) (Scanner.headers response)) st
                eq_refl eq_refl) as S.
  cbn [Scanner.chain] in S.
  destruct (Scanner.follow_redirect_chain _ _ _ _ _ _ _ _) as [c1 st1].
  cbn [fst] in S. intros H. injection H as <- _.
  destruct S as [[more Hm] [Hall Hend]].
  - constructor; [exact L | constructor].
  - split; [exists more; exact Hm |]. split; assumption.
Qed.

Lemma X27_redirect_chain_shape_witness :
  exists c st',
    Scanner.resolve_redirects Examples.example_library Examples.default_config
      (Examples.redirects_once "http://evil.com/") "http://site.test/login?url=x"
      (Examples.redirect_to "http://evil.com/")
      (Scanner.mkState 1 [Scanner.mkRequest "GET" "http://site.test/login?url=x"
                            [] [] [] false])
    = (Some c, st')
    /\ (exists more, Scanner.chain c = "http://evil.com/" :: more)
    /\ Forall (fun l => l <> EmptyString) (Scanner.chain c)
    /\ (Scanner.final c = List.last (Scanner.chain c) EmptyString
        \/ exists base,
             urljoin Examples.example_library base
               (List.last (Scanner.chain c) EmptyString)
             = inr (Scanner.final c)).
Proof.
  eexists. eexists. split; [vm_compute; reflexivity |].
  eapply (X27_redirect_chain_shape Examples.example_library Examples.default_config
            (Examples.redirects_once "http://evil.com/") "http://site.test/login?url=x"
            (Examples.redirect_to "http://evil.com/")
            (Scanner.mkState 1 [Scanner.mkRequest "GET" "http://site.test/login?url=x"
                                  [] [] [] false])).
  vm_compute. reflexivity.
Defined.

Module RelativeFacts.
Import PyStr Utils Scanner StrFacts UrlFacts HostFacts.

Lemma remove_char_absent (c : ascii) (s : string) :
  has_char c s = false -> remove_char c s = s.
Proof.
  induction s as [| x s IH]; cbn [has_char remove_char]; [reflexivity |]. intros H.
  apply orb_false_iff in H. destruct H as [H1 H2]. now rewrite H1, IH.
Qed.

(** What [rstrip] returns is a prefix of its argument. *)
Lemma rstrip_is_prefix (p : ascii -> bool) (s : string) :
  exists t, s = (rstrip_by p s ++ t)%string.
Proof.
  induction s as [| c s [t IH]]; [now exists EmptyString |].
  cbn [rstrip_by]. destruct (rstrip_by p s) as [| d r].
  - cbn [append] in IH. subst t. destruct (p c).
    + now exists (String c s).
    + now exists s.
  - exists t. cbn [append]. now rewrite IH at 1.
Qed.

(** A string that begins with one slash and not with two, and holds no
    tab, carriage return or line feed, parses to a URL without a netloc. *)
Lemma relative_no_netloc (f : string) :
  startswith "/" f = true -> startswith "//" f = false ->
  has_char (ascii_of_N 9) f = false -> has_char (ascii_of_N 13) f = false ->
  has_char (ascii_of_N 10) f = false ->
  exists r, Urllib.urlparse f = inr r /\ Urllib.netloc r = EmptyString.
Proof.
  intros H1 H2 T R N.
  assert (S : exists r, Urllib.urlsplit f = inr r /\ Urllib.netloc r = EmptyString).
  { unfold Urllib.urlsplit, Urllib.remove_unsafe.
    destruct f as [| c rest]; [discriminate H1 |].
    apply startswith_cons in H1. destruct H1 as [<- _].
    cbn [lstrip_by]. change (Urllib.c0_control_or_space "/") with false. cbv iota.
    rewrite (remove_char_absent _ _ T), (remove_char_absent _ _ R),
      (remove_char_absent _ _ N).
    assert (Sch : Urllib.split_scheme (String "/" rest) = (EmptyString, String "/" rest)).
    { unfold Urllib.split_scheme. cbn [partition].
      change (Ascii.eqb "/" ":") with false. cbv iota.
      destruct (partition ":" rest) as [[h g] t]. destruct g; reflexivity. }
    rewrite Sch. unfold Urllib.split_netloc. rewrite H2. unfold rbind, pure.
    destruct (if has_char "#" _ then _ else _) as [u1 fragment].
    destruct (if has_char "?" u1 then _ else _) as [u2 query].
    eexists. split; reflexivity. }
  destruct S as [r [S1 S2]].
  unfold Urllib.urlparse. rewrite S1. unfold rbind, pure.
  destruct (_ && _); [destruct (Urllib.splitparams _) |]; eexists; split;
    try reflexivity; exact S2.
Qed.

Lemma relative_no_host (f : string) :
  startswith "/" f = true -> startswith "//" f = false ->
  has_char (ascii_of_N 9) f = false -> has_char (ascii_of_N 13) f = false ->
  has_char (ascii_of_N 10) f = false ->
  normalized_hostname f = inr None.
Proof.
  intros H1 H2 T R N.
  destruct (relative_no_netloc f H1 H2 T R N) as [r [P E]].
  unfold normalized_hostname. rewrite P. unfold rbind, Urllib.hostname.
  rewrite E. reflexivity.
Qed.

(** Stripping keeps what makes a location relative. *)
Lemma strip_relative (c : ascii) (f : string) :
  startswith "/" f = true -> startswith "//" f = false -> has_char c f = false ->
  startswith "/" (strip f) = true /\ startswith "//" (strip f) = false
  /\ has_char c (strip f) = false.
Proof.
  intros H1 H2 Hc.
  assert (K : startswith "/" (strip f) = true).
  { apply strip_keeps_prefix; [discriminate | reflexivity | exact H1]. }
  split; [exact K |].
  assert (L : lstrip_by isspace f = f).
  { destruct f as [| a rest]; [reflexivity |].
    apply startswith_cons in H1. destruct H1 as [<- _]. reflexivity. }
  unfold strip in *. rewrite L in *.
  destruct (rstrip_is_prefix isspace f) as [t E].
  split.
  - destruct (startswith "//" (rstrip_by isspace f)) eqn:P; [| reflexivity].
    apply (TestUrlFacts.startswith_append_r _ _ t) in P. rewrite <- E in P. congruence.
  - rewrite E, has_char_append in Hc. now apply orb_false_iff in Hc.
Qed.

End RelativeFacts.

(** X28: a location that begins with one slash and not with two, and
    holds no tab, carriage return or line feed, is accepted by neither
    validator, whatever the original URL, the payload and the callback:
    a redirect to a path of the same site is never reported. *)
Theorem X28_relative_location_is_never_accepted :
  forall (original final payload' : string) (payload callback : option string),
    PyStr.startswith "/" final = true ->
    PyStr.startswith "//" final = false ->
    PyStr.has_char (ascii_of_N 9) final = false ->
    PyStr.has_char (ascii_of_N 13) final = false ->
    PyStr.has_char (ascii_of_N 10) final = false ->
    Utils.validate_redirect original final payload callback = false
    /\ Scanner._is_external_redirect original final payload' = false.
Proof.
  intros original final payload' payload callback H1 H2 T R N. split.
  - destruct (RelativeFacts.strip_relative (ascii_of_N 9) final H1 H2 T) as [S1 [S2 ST]].
    destruct (RelativeFacts.strip_relative (ascii_of_N 13) final H1 H2 R) as [_ [_ SR]].
    destruct (RelativeFacts.strip_relative (ascii_of_N 10) final H1 H2 N) as [_ [_ SN]].
    pose proof (RelativeFacts.relative_no_host _ S1 S2 ST SR SN) as Host.
    unfold Utils.validate_redirect.
    destruct (PyStr.strip final) as [| c rest] eqn:E; [reflexivity |].
    apply StrFacts.startswith_cons in S1. destruct S1 as [<- _].
    cbn [PyStr.is_empty].
    assert (J : PyStr.startswith_any Utils.script_schemes (String "/" rest) = false).
    { unfold PyStr.startswith_any, Utils.script_schemes. cbn [existsb].
      repeat match goal with
             | |- context [PyStr.startswith ?p (String "/" rest)] =>
                 let P := fresh "P" in
                 destruct (PyStr.startswith p (String "/" rest)) eqn:P;
                 [apply StrFacts.startswith_cons in P; destruct P as [P _];
                  discriminate P |]
             end.
      reflexivity. }
    rewrite J.
    destruct (UrlFacts.normalize_returns (Some original)) as [oh ->].
    rewrite ValidatorRelation.util_of_block, Host.
    destruct (UrlFacts.normalize_returns payload) as [ph ->].
    reflexivity.
  - apply ParameterFacts.hostless_not_external.
    exact (RelativeFacts.relative_no_host final H1 H2 T R N).
Qed.

Lemma X28_relative_location_is_never_accepted_witness :
  Utils.validate_redirect "http://site.test/login" "/account/home"
    (Some "http://evil.com") None = false
  /\ Scanner._is_external_redirect "http://site.test/login" "/account/home"
       "http://evil.com" = false.
Proof.
  apply (X28_relative_location_is_never_accepted "http://site.test/login"
           "/account/home" "http://evil.com" (Some "http://evil.com") None);
    reflexivity.
Defined.

(** ** Parsing a cleaned URL *)

Module SplitFacts.
Import PyStr StrFacts UrlFacts HostFacts CleanFacts EncodeFacts.

Lemma append_nil_r (s : string) : (s ++ "")%string = s.
Proof. induction s as [| c s IH]; cbn; [reflexivity | now rewrite IH]. Qed.

Lemma partition_flag (c : ascii) (s a z : string) (f : bool) :
  partition c s = (a, f, z) -> f = has_char c s.
Proof.
  revert a z f. induction s as [| x s IH]; cbn [partition has_char]; intros a z f P.
  - now injection P as _ <- _.
  - destruct (Ascii.eqb x c); [now injection P as _ <- _ |].
    destruct (partition c s) as [[a' f'] z']. injection P as _ <- _.
    exact (IH a' z' f' eq_refl).
Qed.

Lemma partition_found (c : ascii) (s a z : string) :
  partition c s = (a, true, z) -> s = (a ++ String c z)%string /\ has_char c a = false.
Proof.
  revert a z. induction s as [| x s IH]; cbn [partition]; intros a z P; [discriminate P |].
  destruct (Ascii.eqb x c) eqn:E.
  - injection P as <- <-. apply Ascii.eqb_eq in E. subst x. auto.
  - destruct (partition c s) as [[a' f'] z']. injection P as <- -> <-.
    destruct (IH a' z' eq_refl) as [-> H]. cbn. now rewrite E, H.
Qed.

Lemma partition_absent (c : ascii) (s : string) :
  has_char c s = false -> partition c s = (s, false, EmptyString).
Proof.
  induction s as [| x s IH]; cbn [partition has_char]; [reflexivity |]. intros H.
  apply orb_false_iff in H. destruct H as [H1 H2]. now rewrite H1, (IH H2).
Qed.

Lemma partition_append (c : ascii) (a z : string) :
  has_char c a = false -> partition c (a ++ String c z) = (a, true, z).
Proof.
  induction a as [| x a IH]; cbn [partition has_char append]; intros H.
  - now rewrite Ascii.eqb_refl.
  - apply orb_false_iff in H. destruct H as [H1 H2]. now rewrite H1, (IH H2).
Qed.

Lemma partition_first (c x : ascii) (s a z : string) (f : bool) :
  partition c (String x s) = (a, f, z) ->
  (Ascii.eqb x c = true /\ a = EmptyString)
  \/ (Ascii.eqb x c = false /\ exists a', a = String x a').
Proof.
  cbn [partition]. destruct (Ascii.eqb x c).
  - intros P. injection P as <- _ _. now left.
  - destruct (partition c s) as [[a' f'] z']. intros P. injection P as <- _ _.
    right. eauto.
Qed.

Lemma rpartition_flag (c : ascii) (s h t : string) (f : bool) :
  rpartition c s = (h, f, t) -> f = has_char c s.
Proof.
  revert h t f. induction s as [| x s IH]; cbn [rpartition has_char]; intros h t f P.
  - now injection P as _ <- _.
  - destruct (rpartition c s) as [[h' f'] t'].
    pose proof (IH h' t' f' eq_refl) as E. rewrite <- E.
    destruct f'; [injection P as _ <- _; now rewrite orb_true_r |].
    destruct (Ascii.eqb x c); injection P as _ <- _; reflexivity.
Qed.

Lemma rpartition_found (c : ascii) (s h t : string) :
  rpartition c s = (h, true, t) -> s = (h ++ String c t)%string /\ has_char c t = false.
Proof.
  revert h t. induction s as [| x s IH]; cbn [rpartition]; intros h t P; [discriminate P |].
  destruct (rpartition c s) as [[h' f'] t'] eqn:R. destruct f'.
  - injection P as <- <-. destruct (IH h' t' eq_refl) as [-> H]. auto.
  - destruct (Ascii.eqb x c) eqn:E; [| discriminate P].
    injection P as <- <-. apply Ascii.eqb_eq in E. subst x.
    split; [reflexivity |]. now rewrite (rpartition_flag _ _ _ _ _ R).
Qed.

Lemma rpartition_absent (c : ascii) (s : string) :
  has_char c s = false -> rpartition c s = (EmptyString, false, s).
Proof.
  induction s as [| x s IH]; cbn [rpartition has_char]; [reflexivity |]. intros H.
  apply orb_false_iff in H. destruct H as [H1 H2]. now rewrite (IH H2), H1.
Qed.

Lemma rpartition_append (c : ascii) (h t : string) :
  has_char c t = false -> rpartition c (h ++ String c t) = (h, true, t).
Proof.
  intros H. induction h as [| x h IH]; cbn [rpartition append].
  - now rewrite (rpartition_absent c t H), Ascii.eqb_refl.
  - now rewrite IH.
Qed.

Lemma break_at_parts (p : ascii -> bool) (s a z : string) :
  break_at p s = (a, z) ->
  s = (a ++ z)%string
  /\ all_chars (fun c => negb (p c)) a = true
  /\ (z = EmptyString \/ exists c t, z = String c t /\ p c = true).
Proof.
  revert a z. induction s as [| x s IH]; cbn [break_at]; intros a z B.
  - injection B as <- <-. auto.
  - destruct (p x) eqn:Px.
    + injection B as <- <-. repeat split. right. eauto.
    + destruct (break_at p s) as [a' z']. injection B as <- <-.
      destruct (IH a' z' eq_refl) as [-> [H1 H2]]. cbn. rewrite Px, H1. auto.
Qed.

Lemma break_at_append (p : ascii -> bool) (a z : string) :
  all_chars (fun c => negb (p c)) a = true ->
  (z = EmptyString \/ exists c t, z = String c t /\ p c = true) ->
  break_at p (a ++ z) = (a, z).
Proof.
  intros Ha Hz. induction a as [| x a IH]; cbn [append].
  - destruct Hz as [-> | [c [t [-> Pc]]]]; cbn [break_at]; [reflexivity |].
    now rewrite Pc.
  - cbn [all_chars] in Ha. apply andb_true_iff in Ha. destruct Ha as [Hx Ha].
    apply negb_true_iff in Hx. cbn [break_at]. now rewrite Hx, (IH Ha).
Qed.

Lemma remove_char_removes (c : ascii) (s : string) : has_char c (remove_char c s) = false.
Proof.
  induction s as [| x s IH]; cbn [remove_char]; [reflexivity |].
  destruct (Ascii.eqb x c) eqn:E; [exact IH |]. cbn [has_char]. now rewrite E, IH.
Qed.

(** The three characters [urlsplit] removes. *)
Lemma remove_unsafe_clean (x : ascii) (s : string) :
  In x [ascii_of_N 9; ascii_of_N 13; ascii_of_N 10] ->
  has_char x (Urllib.remove_unsafe s) = false.
Proof.
  unfold Urllib.remove_unsafe. intros [<- | [<- | [<- | []]]].
  - apply remove_keeps_absent, remove_keeps_absent, remove_char_removes.
  - apply remove_keeps_absent, remove_char_removes.
  - apply remove_char_removes.
Qed.

Lemma remove_unsafe_absent (s : string) :
  (forall x, In x [ascii_of_N 9; ascii_of_N 13; ascii_of_N 10] -> has_char x s = false) ->
  Urllib.remove_unsafe s = s.
Proof.
  intros H. unfold Urllib.remove_unsafe.
  rewrite (RelativeFacts.remove_char_absent (ascii_of_N 9) s) by (apply H; cbn; auto).
  rewrite (RelativeFacts.remove_char_absent (ascii_of_N 13) s) by (apply H; cbn; auto).
  apply RelativeFacts.remove_char_absent, H. cbn. auto.
Qed.

Lemma unsafe_not_lower (x y : ascii) :
  In x [ascii_of_N 9; ascii_of_N 13; ascii_of_N 10] -> lower_char y = x -> y = x.
Proof.
  intros [<- | [<- | [<- | []]]];
    destruct y as [[] [] [] [] [] [] [] []]; vm_compute; congruence.
Qed.

Lemma unsafe_not_scheme_char (x : ascii) :
  In x [ascii_of_N 9; ascii_of_N 13; ascii_of_N 10] -> Urllib.scheme_char x = false.
Proof. intros [<- | [<- | [<- | []]]]; reflexivity. Qed.

Lemma unsafe_not_separator (x : ascii) :
  In x [ascii_of_N 9; ascii_of_N 13; ascii_of_N 10] -> has_char x "/;:?" = false.
Proof. intros [<- | [<- | [<- | []]]]; reflexivity. Qed.

Lemma alpha_not_space (c : ascii) :
  is_ascii_alpha c = true -> Urllib.c0_control_or_space c = false.
Proof. destruct c as [[] [] [] [] [] [] [] []]; vm_compute; congruence. Qed.

Lemma lower_char_alpha (c : ascii) :
  is_ascii_alpha c = true -> is_ascii_alpha (lower_char c) = true.
Proof. destruct c as [[] [] [] [] [] [] [] []]; vm_compute; congruence. Qed.

Lemma lower_char_scheme (c : ascii) :
  Urllib.scheme_char c = true -> Urllib.scheme_char (lower_char c) = true.
Proof. destruct c as [[] [] [] [] [] [] [] []]; vm_compute; congruence. Qed.

Lemma lower_scheme_chars (s : string) :
  all_chars Urllib.scheme_char s = true -> all_chars Urllib.scheme_char (lower s) = true.
Proof.
  induction s as [| c s IH]; cbn [all_chars lower]; [reflexivity |]. intros H.
  apply andb_true_iff in H. destruct H as [H1 H2].
  now rewrite (lower_char_scheme c H1), (IH H2).
Qed.

(** The scheme [split_scheme] yields: none, or a letter followed by
    scheme characters, in lower case. *)
Lemma split_scheme_shape (s scheme rest : string) :
  Urllib.split_scheme s = (scheme, rest) ->
  scheme = EmptyString
  \/ exists c0 b, scheme = String c0 b /\ is_ascii_alpha c0 = true
                  /\ all_chars Urllib.scheme_char scheme = true
                  /\ lower scheme = scheme.
Proof.
  unfold Urllib.split_scheme. intros E.
  destruct (partition ":" s) as [[b f] a].
  destruct b as [| c0 b]; [injection E as <- _; now left |].
  destruct f; [| injection E as <- _; now left].
  destruct (is_ascii_alpha c0 && all_chars Urllib.scheme_char (String c0 b)) eqn:T;
    injection E as <- _; [| now left].
  apply andb_true_iff in T. destruct T as [T1 T2].
  right. exists (lower_char c0), (lower b). split; [reflexivity |].
  split; [now apply lower_char_alpha |].
  split; [exact (lower_scheme_chars (String c0 b) T2) |].
  apply (lower_idempotent (String c0 b)).
Qed.

(** A netloc that is not empty is found again in front of any text that
    a delimiter starts. *)
Lemma split_netloc_again (s netloc rest : string) :
  Urllib.split_netloc s = inr (netloc, rest) -> netloc <> EmptyString ->
  (rest = EmptyString \/ exists c t, rest = String c t /\ Urllib.netloc_delim c = true)
  /\ forall tail,
       (tail = EmptyString
        \/ exists c t, tail = String c t /\ Urllib.netloc_delim c = true) ->
       Urllib.split_netloc ("//" ++ netloc ++ tail) = inr (netloc, tail).
Proof.
  unfold Urllib.split_netloc, raise, pure. intros H Hn.
  destruct (startswith "//" s); [| injection H as <- _; contradiction].
  destruct (break_at Urllib.netloc_delim (skip 2 s)) as [n r] eqn:B.
  destruct (break_at_parts _ _ _ _ B) as [_ [Hall Hrest]].
  destruct (has_char "[" n && negb (has_char "]" n)
            || has_char "]" n && negb (has_char "[" n)) eqn:C1; [discriminate H |].
  destruct (has_char "[" n && has_char "]" n && negb (Urllib.check_bracketed_netloc n))
    eqn:C2; [discriminate H |].
  injection H as <- <-. split; [exact Hrest |].
  intros tail Ht. rewrite (HelperFacts.startswith_append "//" (n ++ tail)).
  change (skip 2 ("//" ++ n ++ tail)) with (n ++ tail)%string.
  rewrite (break_at_append _ n tail Hall Ht), C1, C2. reflexivity.
Qed.

Lemma split_netloc_keeps_absent (c : ascii) (s netloc rest : string) :
  has_char c s = false -> Urllib.split_netloc s = inr (netloc, rest) ->
  has_char c netloc = false /\ has_char c rest = false.
Proof.
  unfold Urllib.split_netloc, raise, pure. intros Hc H.
  destruct (startswith "//" s) eqn:P; [| injection H as <- <-; auto].
  destruct (break_at Urllib.netloc_delim (skip 2 s)) as [n r] eqn:B.
  destruct (break_at_parts _ _ _ _ B) as [E _].
  assert (Hs : has_char c (skip 2 s) = false).
  { destruct (HelperFacts.startswith_split "//" s P) as [t ->].
    change (skip 2 ("//" ++ t)) with t.
    rewrite has_char_append in Hc. now apply orb_false_iff in Hc. }
  rewrite E, has_char_append in Hs. apply orb_false_iff in Hs.
  repeat step; exact Hs.
Qed.

End SplitFacts.

Module RoundTrip.
Import PyStr Helpers StrFacts UrlFacts HostFacts CleanFacts EncodeFacts SplitFacts.

(** The head of a partition starts as the partitioned text does. *)
Lemma partition_head_delim (c : ascii) (s a z : string) (f : bool) :
  (s = EmptyString \/ exists x t, s = String x t /\ Urllib.netloc_delim x = true) ->
  partition c s = (a, f, z) ->
  a = EmptyString \/ exists x t, a = String x t /\ Urllib.netloc_delim x = true.
Proof.
  intros [-> | [x [t [-> Hx]]]] P.
  - cbn in P. injection P as <- _ _. now left.
  - apply partition_first in P. destruct P as [[_ ->] | [_ [a' ->]]]; [now left |].
    right. eauto.
Qed.

(** A text that a delimiter starts and that holds neither [?] nor [#]
    starts with a slash. *)
Lemma delim_is_slash (p : string) :
  (p = EmptyString \/ exists x t, p = String x t /\ Urllib.netloc_delim x = true) ->
  has_char "?" p = false -> has_char "#" p = false ->
  p = EmptyString \/ startswith "/" p = true.
Proof.
  intros [-> | [x [t [-> Hx]]]] Hq Hh; [now left |]. right.
  apply has_char_cons_false in Hq, Hh. destruct Hq as [Hq _], Hh as [Hh _].
  unfold Urllib.netloc_delim in Hx. cbn [has_char] in Hx.
  rewrite (Ascii.eqb_sym "?" x), (Ascii.eqb_sym "#" x), Hq, Hh, !orb_false_r in Hx.
  apply Ascii.eqb_eq in Hx. subst x. apply startswith_cons. split; [reflexivity |].
  apply startswith_nil.
Qed.

(** What [urlsplit] returns. *)
Lemma urlsplit_parts (url : string) (r : Urllib.ParseResult) :
  Urllib.urlsplit url = inr r ->
  Urllib.params r = EmptyString
  /\ (Urllib.scheme r = EmptyString
      \/ exists c0 b, Urllib.scheme r = String c0 b /\ is_ascii_alpha c0 = true
                      /\ all_chars Urllib.scheme_char (Urllib.scheme r) = true
                      /\ lower (Urllib.scheme r) = Urllib.scheme r)
  /\ (forall x, In x [ascii_of_N 9; ascii_of_N 13; ascii_of_N 10] ->
        has_char x (Urllib.scheme r) = false /\ has_char x (Urllib.netloc r) = false
        /\ has_char x (Urllib.path r) = false /\ has_char x (Urllib.query r) = false)
  /\ has_char "?" (Urllib.path r) = false
  /\ (Urllib.netloc r <> EmptyString ->
      (Urllib.path r = EmptyString \/ startswith "/" (Urllib.path r) = true)
      /\ forall tail,
           (tail = EmptyString
            \/ exists c t, tail = String c t /\ Urllib.netloc_delim c = true) ->
           Urllib.split_netloc ("//" ++ Urllib.netloc r ++ tail)
           = inr (Urllib.netloc r, tail)).
Proof.
  intros H. pose proof (urlsplit_no_hash url r H) as [_ [_ [Hhash _]]].
  revert H. unfold Urllib.urlsplit, rbind, pure.
  set (u := Urllib.remove_unsafe (lstrip_by Urllib.c0_control_or_space url)).
  assert (Hu : forall x, In x [ascii_of_N 9; ascii_of_N 13; ascii_of_N 10] ->
                         has_char x u = false)
    by (intros x Hx; now apply remove_unsafe_clean).
  destruct (Urllib.split_scheme u) as [scheme u1] eqn:S.
  destruct (Urllib.split_netloc u1) as [e | [netloc rest]] eqn:N; [discriminate |].
  assert (Hparts : forall x, In x [ascii_of_N 9; ascii_of_N 13; ascii_of_N 10] ->
                     has_char x scheme = false /\ has_char x netloc = false
                     /\ has_char x rest = false).
  { intros x Hx. split.
    - apply (split_scheme_chars x u scheme u1);
        [now apply unsafe_not_scheme_char | intros y; now apply unsafe_not_lower | exact S].
    - apply (split_netloc_keeps_absent x u1); [| exact N].
      exact (split_scheme_keeps_absent x u scheme u1 (Hu x Hx) S). }
  destruct (if has_char "#" rest then _ else _) as [w fragment] eqn:E1.
  assert (Hw : (forall x, has_char x rest = false -> has_char x w = false)
               /\ forall a f z, partition "#" rest = (a, f, z) ->
                                has_char "#" rest = true -> w = a).
  { destruct (has_char "#" rest).
    - destruct (partition "#" rest) as [[a f] z] eqn:P. injection E1 as <- <-.
      split; [| intros a' f' z' Q _; now injection Q].
      intros x Hx. exact (proj1 (partition_keeps_absent _ _ _ _ _ _ Hx P)).
    - injection E1 as <- <-. split; [auto | discriminate]. }
  destruct Hw as [Hw1 Hw2].
  destruct (if has_char "?" w then _ else _) as [p query] eqn:E2.
  assert (Hp : (forall x, has_char x w = false ->
                          has_char x p = false /\ has_char x query = false)
               /\ has_char "?" p = false
               /\ ((w = EmptyString
                    \/ exists x t, w = String x t /\ Urllib.netloc_delim x = true) ->
                   p = EmptyString
                   \/ exists x t, p = String x t /\ Urllib.netloc_delim x = true)).
  { destruct (has_char "?" w) eqn:Q.
    - destruct (partition "?" w) as [[a f] z] eqn:P. injection E2 as <- <-.
      split; [intros x Hx; exact (partition_keeps_absent _ _ _ _ _ _ Hx P) |].
      split; [exact (partition_head_absent _ _ _ _ _ P) |].
      intros D. exact (partition_head_delim _ _ _ _ _ D P).
    - injection E2 as <- <-. repeat split; auto. }
  destruct Hp as [Hp1 [Hp2 Hp3]].
  intros H. injection H as <-.
  cbn [Urllib.scheme Urllib.netloc Urllib.path Urllib.params Urllib.query] in *.
  split; [reflexivity |].
  split; [exact (split_scheme_shape u scheme u1 S) |].
  split.
  { intros x Hx. destruct (Hparts x Hx) as [A [B C]].
    destruct (Hp1 x (Hw1 x C)) as [D E]. auto. }
  split; [exact Hp2 |].
  intros Hn. destruct (split_netloc_again u1 netloc rest N Hn) as [Hrest Hagain].
  split; [| exact Hagain].
  apply delim_is_slash; [| exact Hp2 | exact Hhash].
  apply Hp3. destruct (has_char "#" rest) eqn:Q.
  - destruct (partition "#" rest) as [[a f] z] eqn:P.
    rewrite (Hw2 a f z eq_refl eq_refl).
    exact (partition_head_delim _ _ _ _ _ Hrest P).
  - injection E1 as <- _. exact Hrest.
Qed.


Lemma lstrip_first (x : ascii) (s : string) :
  Urllib.c0_control_or_space x = false ->
  lstrip_by Urllib.c0_control_or_space (String x s) = String x s.
Proof. intros H. cbn [lstrip_by]. now rewrite H. Qed.

(** [urlsplit] on a text put together from a scheme, a netloc and what
    follows it. *)
Lemma urlsplit_assembled (scheme netloc path query tail : string) :
  (scheme = EmptyString
   \/ exists c0 b, scheme = String c0 b /\ is_ascii_alpha c0 = true
                   /\ all_chars Urllib.scheme_char scheme = true
                   /\ lower scheme = scheme) ->
  (forall x, In x [ascii_of_N 9; ascii_of_N 13; ascii_of_N 10] ->
     has_char x scheme = false /\ has_char x netloc = false
     /\ has_char x tail = false) ->
  Urllib.split_netloc ("//" ++ netloc ++ tail) = inr (netloc, tail) ->
  has_char "#" tail = false ->
  (if has_char "?" tail
   then let '(u, _, q) := partition "?" tail in (u, q)
   else (tail, EmptyString)) = (path, query) ->
  Urllib.urlsplit ((if is_empty scheme then "" else scheme ++ ":")
                   ++ "//" ++ netloc ++ tail)
  = inr (Urllib.mkParseResult scheme netloc path "" query "").
Proof.
  intros Hscheme Hunsafe Hnetloc Hhash Hquery.
  set (body := ("//" ++ netloc ++ tail)%string) in *.
  assert (Ub : forall x, In x [ascii_of_N 9; ascii_of_N 13; ascii_of_N 10] ->
                         has_char x body = false).
  { intros x Hx. destruct (Hunsafe x Hx) as [_ [A B]]. unfold body.
    rewrite !has_char_append, A, B.
    destruct Hx as [<- | [<- | [<- | []]]]; reflexivity. }
  unfold Urllib.urlsplit.
  destruct Hscheme as [-> | [c0 [b [E [Ha [Hall Hlow]]]]]].
  - cbn [is_empty append].
    assert (L : lstrip_by Urllib.c0_control_or_space body = body) by reflexivity.
    rewrite L, (remove_unsafe_absent body Ub).
    assert (Sch : Urllib.split_scheme body = (EmptyString, body)).
    { unfold Urllib.split_scheme, body. cbn [append partition].
      change (Ascii.eqb "/" ":") with false. cbv iota.
      destruct (partition ":" (netloc ++ tail)) as [[h g] t].
      destruct g; reflexivity. }
    rewrite Sch, Hnetloc. unfold rbind, pure. rewrite Hhash, Hquery. reflexivity.
  - assert (Ne : is_empty scheme = false) by (rewrite E; reflexivity).
    rewrite Ne.
    assert (Shape : ((scheme ++ ":") ++ body)%string = (scheme ++ String ":" body)%string)
      by (now rewrite append_assoc).
    rewrite Shape.
    assert (L : lstrip_by Urllib.c0_control_or_space (scheme ++ String ":" body)
                = (scheme ++ String ":" body)%string).
    { rewrite E. cbn [append]. apply lstrip_first, alpha_not_space, Ha. }
    rewrite L.
    assert (Uc : forall x, In x [ascii_of_N 9; ascii_of_N 13; ascii_of_N 10] ->
                           has_char x (scheme ++ String ":" body) = false).
    { intros x Hx. destruct (Hunsafe x Hx) as [A _].
      rewrite has_char_append, A. cbn [has_char orb]. rewrite (Ub x Hx), orb_false_r.
      destruct Hx as [<- | [<- | [<- | []]]]; reflexivity. }
    rewrite (remove_unsafe_absent _ Uc).
    assert (Sch : Urllib.split_scheme (scheme ++ String ":" body) = (scheme, body)).
    { unfold Urllib.split_scheme.
      rewrite (partition_append ":" scheme body
                 (scheme_chars_absent ":" scheme eq_refl Hall)).
      rewrite E in *. rewrite Ha, Hall. cbn [andb]. now rewrite Hlow. }
    rewrite Sch, Hnetloc. unfold rbind, pure. rewrite Hhash, Hquery. reflexivity.
Qed.

(** What [urlunparse] writes for a URL with a netloc whose path is empty
    or starts with a slash. *)
Lemma urlunparse_with_netloc (scheme netloc path query : string) :
  netloc <> EmptyString ->
  (path = EmptyString \/ startswith "/" path = true) ->
  Urllib.urlunparse (Urllib.mkParseResult scheme netloc path "" query "")
  = ((if is_empty scheme then "" else scheme ++ ":")
     ++ "//" ++ netloc ++ path ++ (if is_empty query then "" else "?" ++ query))%string.
Proof.
  intros Hn Hp. unfold Urllib.urlunparse.
  cbn [Urllib.scheme Urllib.netloc Urllib.path Urllib.params Urllib.query
       Urllib.fragment is_empty].
  apply is_empty_false in Hn. rewrite Hn. cbn [negb orb].
  assert (S : negb (is_empty path) && negb (startswith "/" path) = false).
  { destruct Hp as [-> | ->]; [reflexivity | apply andb_false_r]. }
  rewrite S.
  destruct (is_empty scheme); destruct (is_empty query); cbn [append];
    rewrite ?append_nil_r, ?append_assoc; cbn [append]; rewrite ?append_assoc;
    reflexivity.
Qed.

(** Parsing what was unparsed gives the parts back. *)
Lemma urlsplit_unparse (scheme netloc path query : string) :
  (scheme = EmptyString
   \/ exists c0 b, scheme = String c0 b /\ is_ascii_alpha c0 = true
                   /\ all_chars Urllib.scheme_char scheme = true
                   /\ lower scheme = scheme) ->
  (forall x, In x [ascii_of_N 9; ascii_of_N 13; ascii_of_N 10] ->
     has_char x scheme = false /\ has_char x netloc = false
     /\ has_char x path = false /\ has_char x query = false) ->
  netloc <> EmptyString ->
  (forall tail,
     (tail = EmptyString \/ exists c t, tail = String c t /\ Urllib.netloc_delim c = true) ->
     Urllib.split_netloc ("//" ++ netloc ++ tail) = inr (netloc, tail)) ->
  (path = EmptyString \/ startswith "/" path = true) ->
  has_char "?" path = false -> has_char "#" path = false -> has_char "#" query = false ->
  Urllib.urlsplit (Urllib.urlunparse (Urllib.mkParseResult scheme netloc path "" query ""))
  = inr (Urllib.mkParseResult scheme netloc path "" query "").
Proof.
  intros Hscheme Hunsafe Hn Hagain Hpath Hq Hh Hhq.
  rewrite (urlunparse_with_netloc scheme netloc path query Hn Hpath).
  set (tail := (path ++ (if is_empty query then "" else "?" ++ query))%string).
  apply urlsplit_assembled; try assumption.
  - intros x Hx. destruct (Hunsafe x Hx) as [A [B [C D]]].
    split; [exact A |]. split; [exact B |]. unfold tail.
    rewrite has_char_append, C. destruct (is_empty query); [reflexivity |].
    cbn [append has_char orb]. rewrite D, orb_false_r.
    destruct Hx as [<- | [<- | [<- | []]]]; reflexivity.
  - apply Hagain. unfold tail. destruct Hpath as [-> | Hs].
    + cbn [append]. destruct (is_empty query); [now left |].
      right. exists "?"%char, query. split; reflexivity.
    + destruct path as [| c rest]; [discriminate Hs |].
      apply startswith_cons in Hs. destruct Hs as [<- _].
      right. cbn [append]. eexists. eexists. split; reflexivity.
  - unfold tail. rewrite has_char_append, Hh.
    destruct (is_empty query); [reflexivity |].
    cbn [append has_char orb]. now rewrite Hhq.
  - unfold tail. destruct (is_empty query) eqn:Q.
    + apply is_empty_true in Q. subst query. rewrite append_nil_r, Hq. reflexivity.
    + rewrite has_char_append. cbn [append has_char]. rewrite Ascii.eqb_refl.
      cbn [orb]. rewrite orb_true_r.
      now rewrite (partition_append "?" path query Hq).
Qed.

(** Splitting the parameters off a path that was put together again. *)
Lemma splitparams_again (path0 p q : string) :
  has_char "/" path0 = true ->
  Urllib.splitparams path0 = (p, q) ->
  (if has_char ";" (if is_empty q then p else p ++ ";" ++ q)
   then Urllib.splitparams (if is_empty q then p else p ++ ";" ++ q)
   else (if is_empty q then p else p ++ ";" ++ q, EmptyString))%string
  = (p, q).
Proof.
  intros Hs H. pose proof H as H0. unfold Urllib.splitparams in H. rewrite Hs in H.
  destruct (rpartition "/" path0) as [[head f] tail] eqn:R.
  pose proof (rpartition_flag _ _ _ _ _ R) as F. rewrite Hs in F. subst f.
  destruct (rpartition_found _ _ _ _ R) as [E Ht].
  destruct (partition ";" tail) as [[before g] after] eqn:P. destruct g.
  - injection H as <- <-.
    destruct (partition_found _ _ _ _ P) as [Et Hb]. subst tail.
    rewrite has_char_append in Ht. apply orb_false_iff in Ht. destruct Ht as [Hb1 Ha1].
    cbn [has_char] in Ha1. apply orb_false_iff in Ha1. destruct Ha1 as [_ Ha1].
    destruct (is_empty after) eqn:A.
    + apply is_empty_true in A. subst after.
      change (head ++ "/" ++ before)%string with (head ++ String "/" before)%string.
      cbn [is_empty].
      destruct (has_char ";" (head ++ String "/" before)); [| reflexivity].
      unfold Urllib.splitparams.
      assert (S1 : has_char "/" (head ++ String "/" before) = true).
      { rewrite has_char_append. cbn [has_char]. rewrite Ascii.eqb_refl.
        cbn [orb]. apply orb_true_r. }
      rewrite S1.
      rewrite (rpartition_append "/" head before Hb1), (partition_absent ";" before Hb).
      reflexivity.
    + change (head ++ "/" ++ before)%string with (head ++ String "/" before)%string.
      change ((head ++ String "/" before) ++ ";" ++ after)%string
        with ((head ++ String "/" before) ++ String ";" after)%string.
      assert (J : ((head ++ String "/" before) ++ String ";" after)%string
                  = (head ++ String "/" (before ++ String ";" after))%string).
      { rewrite append_assoc. reflexivity. }
      rewrite J.
      assert (T : has_char "/" (before ++ String ";" after) = false).
      { rewrite has_char_append, Hb1. cbn [has_char orb]. exact Ha1. }
      assert (S2 : has_char ";" (head ++ String "/" (before ++ String ";" after)) = true).
      { rewrite has_char_append. cbn [has_char]. rewrite has_char_append.
        cbn [has_char]. rewrite Ascii.eqb_refl. cbn [orb].
        now rewrite !orb_true_r. }
      rewrite S2. unfold Urllib.splitparams.
      assert (S1 : has_char "/" (head ++ String "/" (before ++ String ";" after)) = true).
      { rewrite has_char_append. cbn [has_char]. rewrite Ascii.eqb_refl.
        cbn [orb]. apply orb_true_r. }
      rewrite S1, (rpartition_append "/" head _ T), (partition_append ";" before after Hb).
      reflexivity.
  - injection H as <- <-. cbn [is_empty].
    destruct (has_char ";" path0); [exact H0 | reflexivity].
Qed.

Lemma splitparams_slash (path0 p q : string) :
  startswith "/" path0 = true -> Urllib.splitparams path0 = (p, q) ->
  startswith "/" p = true.
Proof.
  intros Hs H. unfold Urllib.splitparams in H.
  destruct (has_char "/" path0) eqn:S.
  - destruct (rpartition "/" path0) as [[head f] tail] eqn:R.
    pose proof (rpartition_flag _ _ _ _ _ R) as F. rewrite S in F. subst f.
    destruct (rpartition_found _ _ _ _ R) as [E _].
    destruct (partition ";" tail) as [[before g] after]. destruct g.
    + injection H as <- _.
      destruct head as [| x head];
        [cbn [append]; apply startswith_cons; split;
         [reflexivity | apply startswith_nil] |].
      rewrite E in Hs. cbn [append] in Hs. apply startswith_cons in Hs.
      destruct Hs as [<- _]. cbn [append]. apply startswith_cons.
      split; [reflexivity | apply startswith_nil].
    + now injection H as <- _.
  - destruct path0 as [| x rest]; [discriminate Hs |].
    apply startswith_cons in Hs. destruct Hs as [<- _]. discriminate S.
Qed.

(** [urlunparse] reads the path and the parameters as one text. *)
Lemma urlunparse_joined (scheme netloc p q query : string) :
  Urllib.urlunparse (Urllib.mkParseResult scheme netloc p q query "")
  = Urllib.urlunparse
      (Urllib.mkParseResult scheme netloc (if is_empty q then p else p ++ ";" ++ q)
         "" query "").
Proof. reflexivity. Qed.

End RoundTrip.

(** X29: for a URL that parses with a network location, parsing what
    [clean_url] returns gives the scheme, the network location, the
    path, the parameters and the query of the URL back, with no
    fragment; so that on such URLs [clean_url] is idempotent. *)
Theorem X29_clean_url_round_trip :
  forall (url : string) (r : Urllib.ParseResult),
    Urllib.urlparse url = inr r ->
    Urllib.netloc r <> EmptyString ->
    Urllib.urlparse (Helpers.clean_url url)
    = inr (Urllib.mkParseResult (Urllib.scheme r) (Urllib.netloc r) (Urllib.path r)
             (Urllib.params r) (Urllib.query r) "")
    /\ Helpers.clean_url (Helpers.clean_url url) = Helpers.clean_url url.
Proof.
  intros url r H Hn.
  assert (First : Urllib.urlparse (Helpers.clean_url url)
                  = inr (Urllib.mkParseResult (Urllib.scheme r) (Urllib.netloc r)
                           (Urllib.path r) (Urllib.params r) (Urllib.query r) "")).
  { unfold Helpers.clean_url. rewrite H.
    unfold Urllib.urlparse in H. unfold rbind, pure in H.
    destruct (Urllib.urlsplit url) as [e | r0] eqn:S; [discriminate H |].
    destruct (RoundTrip.urlsplit_parts url r0 S) as [Hpar [Hsch [Hun [Hq Hnet]]]].
    destruct (CleanFacts.urlsplit_no_hash url r0 S) as [_ [_ [Hh [_ Hhq]]]].
    destruct (Urllib.mem (Urllib.scheme r0) Urllib.uses_params
              && PyStr.has_char ";" (Urllib.path r0)) eqn:C.
    - destruct (Urllib.splitparams (Urllib.path r0)) as [p q] eqn:SP.
      injection H as <-.
      cbn [Urllib.scheme Urllib.netloc Urllib.path Urllib.params Urllib.query] in *.
      destruct (Hnet Hn) as [Hpath Hagain].
      apply andb_true_iff in C. destruct C as [Cm Cs].
      assert (Slash : PyStr.startswith "/" (Urllib.path r0) = true).
      { destruct Hpath as [E | E]; [| exact E]. rewrite E in Cs. discriminate Cs. }
      assert (HasSlash : PyStr.has_char "/" (Urllib.path r0) = true).
      { destruct (Urllib.path r0) as [| x rest]; [discriminate Slash |].
        apply StrFacts.startswith_cons in Slash. destruct Slash as [<- _]. reflexivity. }
      pose proof (RoundTrip.splitparams_slash _ _ _ Slash SP) as Sp.
      pose proof (RoundTrip.splitparams_again _ _ _ HasSlash SP) as Again.
      rewrite RoundTrip.urlunparse_joined.
      set (joined := if PyStr.is_empty q then p else (p ++ ";" ++ q)%string) in *.
      assert (Sj : PyStr.startswith "/" joined = true).
      { unfold joined. destruct (PyStr.is_empty q); [exact Sp |].
        now apply TestUrlFacts.startswith_append_r. }
      assert (Keep : forall c, Ascii.eqb "/" c = false -> Ascii.eqb ";" c = false ->
                       PyStr.has_char c (Urllib.path r0) = false ->
                       PyStr.has_char c joined = false).
      { intros c C1 C2 Hc.
        destruct (CleanFacts.splitparams_keeps_absent c _ _ _ C1 Hc SP) as [A B].
        unfold joined. destruct (PyStr.is_empty q); [exact A |].
        rewrite HostFacts.has_char_append, A. cbn [append PyStr.has_char orb].
        now rewrite C2, B. }
      unfold Urllib.urlparse.
      rewrite (RoundTrip.urlsplit_unparse (Urllib.scheme r0) (Urllib.netloc r0) joined
                 (Urllib.query r0)); try assumption.
      + unfold rbind, pure.
        cbn [Urllib.scheme Urllib.netloc Urllib.path Urllib.params Urllib.query
             Urllib.fragment].
        rewrite Cm. cbn [andb].
        destruct (PyStr.has_char ";" joined).
        * rewrite Again. reflexivity.
        * injection Again as Ep Eq. rewrite Ep, <- Eq. reflexivity.
      + intros x Hx. destruct (Hun x Hx) as [A [B [C D]]].
        repeat split; try assumption.
        apply Keep; [| | exact C]; destruct Hx as [<- | [<- | [<- | []]]]; reflexivity.
      + now right.
      + apply Keep; [reflexivity | reflexivity | exact Hq].
      + apply Keep; [reflexivity | reflexivity | exact Hh].
    - injection H as <-. destruct (Hnet Hn) as [Hpath Hagain].
      rewrite Hpar. unfold Urllib.urlparse.
      rewrite (RoundTrip.urlsplit_unparse (Urllib.scheme r0) (Urllib.netloc r0)
                 (Urllib.path r0) (Urllib.query r0)); try assumption.
      unfold rbind, pure.
      cbn [Urllib.scheme Urllib.netloc Urllib.path Urllib.params Urllib.query
           Urllib.fragment].
      rewrite C. reflexivity. }
  split; [exact First |].
  unfold Helpers.clean_url at 1. rewrite First.
  cbn [Urllib.scheme Urllib.netloc Urllib.path Urllib.params Urllib.query].
  unfold Helpers.clean_url. now rewrite H.
Qed.

Lemma X29_clean_url_round_trip_witness :
  Urllib.urlparse (Helpers.clean_url "HTTP://User@Site.test:8080/a;b/c;d?q=1#top")
  = inr (Urllib.mkParseResult "http" "User@Site.test:8080" "/a;b/c" "d" "q=1" "")
  /\ Helpers.clean_url (Helpers.clean_url "HTTP://User@Site.test:8080/a;b/c;d?q=1#top")
     = Helpers.clean_url "HTTP://User@Site.test:8080/a;b/c;d?q=1#top".
Proof.
  apply (X29_clean_url_round_trip "HTTP://User@Site.test:8080/a;b/c;d?q=1#top"
           (Urllib.mkParseResult "http" "User@Site.test:8080" "/a;b/c" "d" "q=1" "top")).
  - reflexivity.
  - discriminate.
Defined.

(** ** Loading a bare host name *)

Module LoadFacts.
Import PyStr Helpers StrFacts UrlFacts HostFacts CleanFacts EncodeFacts SplitFacts.

Lemma all_chars_absent (p : ascii -> bool) (c : ascii) (s : string) :
  p c = false -> all_chars p s = true -> has_char c s = false.
Proof.
  intros Hc. induction s as [| x s IH]; cbn [all_chars has_char]; [auto |]. intros H.
  apply andb_true_iff in H. destruct H as [H1 H2]. rewrite (IH H2), orb_false_r.
  destruct (Ascii.eqb x c) eqn:E; [| reflexivity].
  apply Ascii.eqb_eq in E. congruence.
Qed.

Lemma all_chars_impl (p q : ascii -> bool) (s : string) :
  (forall c, p c = true -> q c = true) -> all_chars p s = true -> all_chars q s = true.
Proof.
  intros Hpq. induction s as [| x s IH]; cbn [all_chars]; [auto |]. intros H.
  apply andb_true_iff in H. destruct H as [H1 H2]. now rewrite (Hpq x H1), (IH H2).
Qed.

(** A letter, a digit, a dot or a hyphen is neither white space nor a
    delimiter of the netloc. *)
Lemma host_char_plain (c : ascii) :
  is_ascii_alpha c || is_ascii_digit c || has_char c ".-" = true ->
  isspace c = false /\ Urllib.netloc_delim c = false.
Proof. destruct c as [[] [] [] [] [] [] [] []]; vm_compute; intuition congruence. Qed.

Lemma startswith_has_char (c : ascii) (p s : string) :
  startswith p s = true -> has_char c p = true -> has_char c s = true.
Proof.
  intros H Hc. destruct (HelperFacts.startswith_split p s H) as [rest ->].
  now rewrite has_char_append, Hc.
Qed.

Lemma rstrip_solid (s : string) : solid s = true -> rstrip_by isspace s = s.
Proof.
  unfold solid. induction s as [| c s IH]; cbn [all_chars rstrip_by]; [reflexivity |].
  intros H. apply andb_true_iff in H. destruct H as [H1 H2].
  apply negb_true_iff in H1. rewrite (IH H2), H1. destruct s; reflexivity.
Qed.

Lemma rstrip_spaces (w : string) :
  all_chars isspace w = true -> rstrip_by isspace w = EmptyString.
Proof.
  induction w as [| c w IH]; cbn [all_chars rstrip_by]; [reflexivity |]. intros H.
  apply andb_true_iff in H. destruct H as [H1 H2]. now rewrite (IH H2), H1.
Qed.

Lemma rstrip_padding (a w : string) :
  solid a = true -> all_chars isspace w = true ->
  rstrip_by isspace (a ++ w) = a.
Proof.
  intros Ha Hw. induction a as [| c a IH]; cbn [append]; [now apply rstrip_spaces |].
  unfold solid in Ha. cbn [all_chars] in Ha. apply andb_true_iff in Ha.
  destruct Ha as [H1 H2]. apply negb_true_iff in H1.
  cbn [rstrip_by]. rewrite (IH H2), H1. destruct a; reflexivity.
Qed.

Section Host.

Variable host : string.
Hypothesis nonempty : host <> EmptyString.
Hypothesis plain :
  all_chars (fun c => is_ascii_alpha c || is_ascii_digit c || has_char c ".-") host = true.

Lemma host_absent (c : ascii) :
  is_ascii_alpha c || is_ascii_digit c || has_char c ".-" = false ->
  has_char c host = false.
Proof. intros Hc. exact (all_chars_absent _ c host Hc plain). Qed.

Lemma host_solid : solid host = true.
Proof.
  unfold solid. refine (all_chars_impl _ _ host _ plain).
  intros c Hc. now rewrite (proj1 (host_char_plain c Hc)).
Qed.

Lemma host_strip (pad : string) :
  all_chars isspace pad = true -> strip (host ++ pad) = host.
Proof.
  intros Hp. unfold strip.
  assert (L : lstrip_by isspace (host ++ pad) = (host ++ pad)%string).
  { destruct host as [| c h] eqn:E; [contradiction |].
    cbn [all_chars] in plain. apply andb_true_iff in plain. destruct plain as [Hc _].
    cbn [append lstrip_by]. now rewrite (proj1 (host_char_plain c Hc)). }
  rewrite L. apply rstrip_padding; [exact host_solid | exact Hp].
Qed.

Lemma host_normalized : normalize_url host = ("http://" ++ host)%string.
Proof.
  unfold normalize_url, startswith_any. cbn [existsb].
  assert (C : has_char ":" host = false) by (apply host_absent; reflexivity).
  destruct (startswith "http://" host) eqn:A.
  { apply (startswith_has_char ":") in A; [congruence | reflexivity]. }
  destruct (startswith "https://" host) eqn:B.
  { apply (startswith_has_char ":") in B; [congruence | reflexivity]. }
  reflexivity.
Qed.

Lemma host_parses :
  Urllib.urlparse ("http://" ++ host)
  = inr (Urllib.mkParseResult "http" host "" "" "" "").
Proof.
  assert (S : Urllib.urlsplit ("http://" ++ host)
              = inr (Urllib.mkParseResult "http" host "" "" "" "")).
  { pose proof (RoundTrip.urlsplit_assembled "http" host "" "" "") as A.
    rewrite append_nil_r in A. apply A.
    - right. exists "h"%char, "ttp". repeat split.
    - intros x Hx. split; [destruct Hx as [<- | [<- | [<- | []]]]; reflexivity |].
      split; [| reflexivity].
      apply host_absent. destruct Hx as [<- | [<- | [<- | []]]]; reflexivity.
    - unfold Urllib.split_netloc.
      rewrite (HelperFacts.startswith_append "//" host).
      change (skip 2 ("//" ++ host)) with host.
      rewrite <- (append_nil_r host) at 1.
      rewrite (break_at_append Urllib.netloc_delim host EmptyString).
      + rewrite (host_absent "[" eq_refl), (host_absent "]" eq_refl). reflexivity.
      + refine (all_chars_impl _ _ host _ plain).
        intros c Hc. now rewrite (proj2 (host_char_plain c Hc)).
      + now left.
    - reflexivity.
    - reflexivity. }
  unfold Urllib.urlparse. rewrite S. reflexivity.
Qed.

End Host.

End LoadFacts.

(** X30: a line that holds a host name made of letters, digits, dots and
    hyphens, followed by any white space (the end of the line), is loaded
    as [http://] followed by the host name. *)
Theorem X30_bare_host_is_loaded :
  forall host pad : string,
    host <> EmptyString ->
    PyStr.all_chars
      (fun c => PyStr.is_ascii_alpha c || PyStr.is_ascii_digit c || PyStr.has_char c ".-")
      host = true ->
    PyStr.all_chars PyStr.isspace pad = true ->
    Helpers.load_urls_from_file (Some [(host ++ pad)%string]) = [("http://" ++ host)%string].
Proof.
  intros host pad Hn Hp Hw.
  unfold Helpers.load_urls_from_file. cbn [Helpers.load_lines].
  rewrite (LoadFacts.host_strip host Hn Hp pad Hw).
  apply StrFacts.is_empty_false in Hn. rewrite Hn. cbn [negb andb].
  assert (C : PyStr.startswith "#" host = false).
  { destruct (PyStr.startswith "#" host) eqn:A; [| reflexivity].
    apply (LoadFacts.startswith_has_char "#") in A; [| reflexivity].
    rewrite (LoadFacts.host_absent host Hp "#" eq_refl) in A. discriminate A. }
  rewrite C. cbn [negb].
  rewrite (LoadFacts.host_normalized host Hp).
  unfold Helpers.validate_url. rewrite (LoadFacts.host_parses host Hp).
  cbn [Urllib.scheme Urllib.netloc PyStr.is_empty negb andb]. rewrite Hn. reflexivity.
Qed.

Lemma X30_bare_host_is_loaded_witness :
  Helpers.load_urls_from_file
    (Some [("site-1.example.test" ++ String (ascii_of_N 13) (String (ascii_of_N 10) ""))%string])
  = ["http://site-1.example.test"].
Proof.
  apply (X30_bare_host_is_loaded "site-1.example.test"
           (String (ascii_of_N 13) (String (ascii_of_N 10) ""))).
  - discriminate.
  - reflexivity.
  - reflexivity.
Defined.
